(** * The report-automation workflow, embedded and verified

    Shallow embedding of [src/src/workflow.py] (the orchestrator
    [ReportWorkflow]) together with the parts of its collaborators that
    decide its behaviour: [sql_client.py], [tableau_client.py],
    [jira_client.py], [notifier.py] and [config.py].

    Python code that talks to the outside (clock, Tableau Server, SQL
    Server, Jira, the file system, the observer callback) is modelled in a
    state-and-exception monad over an explicit _world_: an oracle that
    answers the n-th external call.  Every external call is also appended
    to a trace, so that "was a ticket attempted", "which jobs ran, in which
    order" are statements about a list. *)

From Stdlib Require Import ZArith List String Ascii Bool Lia DecimalString.
Import ListNotations.
Local Open Scope string_scope.

(* ================================================================== *)
(** ** Python values, exceptions and text *)
(* ================================================================== *)

Module Py.

(** Subclasses of Python's [Exception] that the program raises or
    distinguishes; [str(e)] is the carried text. *)
Inductive exn_class : Type :=
| Exception | RuntimeError | ValueError | TypeError | PermissionError.

Record exn : Type := mkExn { exn_type : exn_class; exn_msg : string }.

Definition str (e : exn) : string := exn_msg e.

(** [str(n)] for a non-negative integer and for an [int]. *)
Definition str_nat (n : nat) : string :=
  NilEmpty.string_of_uint (Nat.to_uint n).

Definition str_Z (z : Z) : string :=
  NilZero.string_of_int (Z.to_int z).

(** [f"{x:.2f}"] where [x] is a time in seconds; the clock is kept in
    hundredths of a second, so the rendering is exact. *)
Definition two_digits (n : nat) : string :=
  if Nat.ltb n 10 then "0" ++ str_nat n else str_nat n.

Definition fmt_2f (cs : Z) : string :=
  let a := Z.abs cs in
  (if Z.ltb cs 0 then "-" else "")
    ++ str_nat (Z.to_nat (a / 100)) ++ "." ++ two_digits (Z.to_nat (a mod 100)).

(** [sep.join(parts)] *)
Definition join (sep : string) (parts : list string) : string :=
  String.concat sep parts.

(** A cell of a pymssql row, or a query parameter. *)
Inductive sqlval : Type :=
| SqlNull
| SqlInt (z : Z)
| SqlStr (s : string).

(** Python truthiness of a cell: [None], [0] and [''] are falsy. *)
(** A Python string handed over where a cell or a query parameter is
    expected. *)
Coercion SqlStr : string >-> sqlval.

Definition sql_truthy (v : sqlval) : bool :=
  match v with
  | SqlNull => false
  | SqlInt z => negb (Z.eqb z 0)
  | SqlStr s => negb (String.eqb s "")
  end.

(** [f"{v}"] *)
Definition sql_str (v : sqlval) : string :=
  match v with
  | SqlNull => "None"
  | SqlInt z => str_Z z
  | SqlStr s => s
  end.

(** A row of a cursor opened with [as_dict=True]. *)
Definition row : Type := list (string * sqlval).

Fixpoint assoc {V : Type} (k : string) (d : list (string * V)) : option V :=
  match d with
  | [] => None
  | (k', v) :: d' => if String.eqb k k' then Some v else assoc k d'
  end.

(** [d.get(k, default)] *)
Definition get {V : Type} (d : list (string * V)) (k : string) (default : V) : V :=
  match assoc k d with
  | Some v => v
  | None => default
  end.

(** Values stored in a step's [detalles]. *)
Inductive pyval : Type :=
| VNone
| VBool (b : bool)
| VStr (s : string)
| VStrList (l : list string)
| VRows (rs : list row).

Definition truthy (v : pyval) : bool :=
  match v with
  | VNone => false
  | VBool b => b
  | VStr s => negb (String.eqb s "")
  | VStrList l => negb (Nat.eqb (List.length l) 0)
  | VRows rs => negb (Nat.eqb (List.length rs) 0)
  end.

Definition dict : Type := list (string * pyval).

(** [d.get(k)]: the value, or [None]. *)
Definition get_opt (d : dict) (k : string) : pyval := get d k VNone.

(** [detalles or {}] where [detalles] is a dict or [None]: a non-empty
    dict is kept, an empty one is replaced by an (equal) empty dict. *)
Definition or_empty (d : option dict) : dict :=
  match d with
  | Some d' => d'
  | None => []
  end.

(** [posixpath.join(a, b)] *)
Definition starts_with_slash (s : string) : bool :=
  match s with
  | String c _ => Ascii.eqb c "/"
  | EmptyString => false
  end.

Fixpoint ends_with_slash (s : string) : bool :=
  match s with
  | EmptyString => false
  | String c EmptyString => Ascii.eqb c "/"
  | String _ s' => ends_with_slash s'
  end.

Definition path_join (a b : string) : string :=
  if starts_with_slash b then b
  else if String.eqb a "" then b
  else if ends_with_slash a then a ++ b
  else a ++ "/" ++ b.

End Py.
Import Py.

(* ================================================================== *)
(** ** Configuration ([config.py]) *)
(* ================================================================== *)

Module Config.

Record JiraConfig : Type := mkJiraConfig {
  jira_server : string;
  jira_user : string;
  jira_api_token : string;
  jira_project_key : string
}.

Record SQLServerConfig : Type := mkSQLServerConfig {
  sql_server : string;
  sql_database : string
}.

Record EmailConfig : Type := mkEmailConfig {
  email_server : string;
  email_profile : string;
  error_recipients : string;
  success_recipients : string
}.

Record PathsConfig : Type := mkPathsConfig {
  pdf_source : string;
  pdf_dest : string
}.

Record t : Type := mkConfig {
  tableau_datasource_name : string;
  sql_infocentral : SQLServerConfig;
  sql_deadwh : SQLServerConfig;
  sql_cubosofi : SQLServerConfig;
  email : EmailConfig;
  jira : JiraConfig;
  paths : PathsConfig
}.

(** [Config.validate_jira] *)
Definition validate_jira (c : t) : bool * list string :=
  let errors :=
    ((if String.eqb (jira_user (jira c)) "" then ["JIRA_USER no configurado"] else [])
     ++ (if String.eqb (jira_api_token (jira c)) "" then ["JIRA_API_TOKEN no configurado"] else []))%list in
  (Nat.eqb (List.length errors) 0, errors).

End Config.

(* ================================================================== *)
(** ** The step record, the world and the trace *)
(* ================================================================== *)

(** [StepResult] of workflow.py; [duracion] in hundredths of a second. *)
Record StepResult : Type := mkStepResult {
  nombre : string;
  success : bool;
  mensaje : string;
  duracion : Z;
  detalles : dict
}.

(** What Tableau Server tells about a datasource and about a job. *)
Record Datasource : Type := mkDatasource {
  ds_id : string;
  ds_name : string
}.

Record JobItem : Type := mkJobItem {
  job_id : string;
  finish_code : Z;
  notes : string
}.

(** A datetime, carried by the two renderings the program makes of it:
    [str(dt)] and its local-time [strftime]. *)
Record datetime : Type := mkDatetime {
  dt_utc : string;
  dt_local : string
}.

(** A line of [msdb.dbo.sysjobactivity] for the run requested today, as
    the status query of [execute_job] finds it.  [run_outcome] is how the
    run ended according to the server's job history (0 failed,
    1 succeeded, 3 cancelled); the status query does not select it. *)
Record JobActivity : Type := mkJobActivity {
  run_requested_date : string;
  stop_execution_date : option string;
  run_outcome : Z
}.

(** Every call that leaves the process, and the calls of the orchestrator
    into its collaborators that the properties below speak about. *)
Inductive Event : Type :=
| EvTime
| EvNow
| EvSleep (seconds : Z)
| EvObserver (result : StepResult)
| EvSignIn
| EvSignOut
| EvFindDatasource (name : string)
| EvFreshness (name : string)
| EvRefresh (ds : string)
| EvJobStatus (job : string)
| EvDownloadAll (output_dir : string)
| EvQuery (server database query : string) (params : list sqlval)
| EvExecuteJob (job_name : string)
| EvJobResult (job_name : string) (ok : bool) (msg : string)
| EvCrearTicket (titulo descripcion : string)
| EvJiraConnect (server : string)
| EvCreateIssue (project summary description : string)
| EvTicketStored (key : option string)
| EvAlertaError (titulo mensaje : string) (ticket : option string)
| EvResumen (exito : bool) (pasos : list StepResult) (tiempo_total : Z)
| EvDbMail (recipients subject : string)
| EvExists (path : string)
| EvIsFile (path : string)
| EvListDir (path : string)
| EvRemove (path : string)
| EvMakeDirs (path : string)
| EvCopy (src dst : string).

(** The world answers the n-th external call.  One oracle per type of
    answer; a call that can raise answers [inl e]. *)
Record World : Type := mkWorld {
  config : Config.t;
  clock : nat -> Z;
  wall_text : nat -> string;
  observer : nat -> option exn;
  flag : nat -> bool;
  effect : nat -> option exn;
  names : nat -> exn + list string;
  rows : nat -> exn + list row;
  activity : nat -> exn + list JobActivity;
  datasource : nat -> exn + option Datasource;
  freshness : nat -> exn + (bool * string * option datetime);
  job_item : nat -> exn + JobItem;
  issue : nat -> exn + string;
  downloads : nat -> bool * string * list string
}.

(** The [ReportWorkflow] object. *)
Record ReportWorkflow : Type := mkReportWorkflow {
  steps : list StepResult;
  start_time : option Z;
  ticket_jira : option string
}.

Record St : Type := mkSt {
  self : ReportWorkflow;
  trace : list Event;
  tick : nat
}.

(* ================================================================== *)
(** ** The monad: state, exceptions, and fuel for the poll loops *)
(* ================================================================== *)

Inductive Outcome (A : Type) : Type :=
| Ret (a : A)
| Raise (e : exn)
| OutOfFuel.
Arguments Ret {A} a.
Arguments Raise {A} e.
Arguments OutOfFuel {A}.

Definition M (A : Type) : Type := World -> St -> Outcome A * St.

Definition ret {A : Type} (a : A) : M A := fun _ s => (Ret a, s).

Definition bind {A B : Type} (m : M A) (k : A -> M B) : M B :=
  fun w s =>
    match m w s with
    | (Ret a, s') => k a w s'
    | (Raise e, s') => (Raise e, s')
    | (OutOfFuel, s') => (OutOfFuel, s')
    end.

Definition raise {A : Type} (e : exn) : M A := fun _ s => (Raise e, s).

Definition out_of_fuel {A : Type} : M A := fun _ s => (OutOfFuel, s).

(** [try: m  except Exception as e: h e] *)
Definition try_except {A : Type} (m : M A) (h : exn -> M A) : M A :=
  fun w s =>
    match m w s with
    | (Raise e, s') => h e w s'
    | r => r
    end.

(** [try: m  finally: fin]; also the exit of a [with] block.  An exception
    of [fin] replaces the pending one. *)
Definition finally {A : Type} (m : M A) (fin : M unit) : M A :=
  fun w s =>
    match m w s with
    | (Ret a, s') =>
        match fin w s' with
        | (Ret _, s'') => (Ret a, s'')
        | (Raise e, s'') => (Raise e, s'')
        | (OutOfFuel, s'') => (OutOfFuel, s'')
        end
    | (Raise e, s') =>
        match fin w s' with
        | (Ret _, s'') => (Raise e, s'')
        | (Raise e', s'') => (Raise e', s'')
        | (OutOfFuel, s'') => (OutOfFuel, s'')
        end
    | (OutOfFuel, s') => (OutOfFuel, s')
    end.

Declare Scope monad_scope.
Delimit Scope monad_scope with monad.
Notation "x <- m ;; k" := (bind m (fun x => k))
  (at level 100, m at next level, right associativity) : monad_scope.
Notation "' p <- m ;; k" := (bind m (fun x => match x with p => k end))
  (at level 100, p pattern, m at next level, right associativity) : monad_scope.
Notation "m ;; k" := (bind m (fun _ => k))
  (at level 100, right associativity) : monad_scope.
Local Open Scope monad_scope.

(** Reading the configuration singleton. *)
Definition get_config : M Config.t := fun w s => (Ret (config w), s).

(** A call that leaves the process: logged, answered by the world. *)
Definition emit (ev : Event) : M unit :=
  fun _ s => (Ret tt, mkSt (self s) (trace s ++ [ev]) (tick s)).

Definition ask {A : Type} (oracle : World -> nat -> A) (ev : Event) : M A :=
  fun w s => (Ret (oracle w (tick s)), mkSt (self s) (trace s ++ [ev]) (S (tick s))).

Definition ask_exn {A : Type} (oracle : World -> nat -> exn + A) (ev : Event) : M A :=
  a <- ask oracle ev ;;
  match a with
  | inl e => raise e
  | inr x => ret x
  end.

Definition ask_effect (ev : Event) : M unit :=
  a <- ask effect ev ;;
  match a with
  | Some e => raise e
  | None => ret tt
  end.

(** Fields of [self]. *)
Definition get_self : M ReportWorkflow := fun _ s => (Ret (self s), s).

Definition put_self (o : ReportWorkflow) : M unit :=
  fun _ s => (Ret tt, mkSt o (trace s) (tick s)).

Definition set_steps (l : list StepResult) : M unit :=
  o <- get_self ;; put_self (mkReportWorkflow l (start_time o) (ticket_jira o)).

Definition set_start_time (t : Z) : M unit :=
  o <- get_self ;; put_self (mkReportWorkflow (steps o) (Some t) (ticket_jira o)).

Definition set_ticket_jira (k : option string) : M unit :=
  o <- get_self ;;
  put_self (mkReportWorkflow (steps o) (start_time o) k) ;;
  emit (EvTicketStored k).

(** [time.time()], [time.sleep(n)], [datetime.now().strftime(...)] *)
Definition time_time : M Z := ask clock EvTime.

Definition time_sleep (seconds : Z) : M unit :=
  if Z.ltb seconds 0
  then raise (mkExn ValueError "sleep length must be non-negative")
  else emit (EvSleep seconds).

Definition now_text : M string := ask wall_text EvNow.

(* ================================================================== *)
(** ** SQL Server clients ([sql_client.py]) *)
(* ================================================================== *)

Module SQLClient.

Import Config.

(** [value == 'text'] for a cell. *)
Definition is_text (v : sqlval) (text : string) : bool :=
  match v with
  | SqlStr s => String.eqb s text
  | _ => false
  end.

(** [SQLClient.execute_query]: connects, executes, fetches.  Whatever
    goes wrong is logged and raised again; the answer [inr rows] stands
    for the fetched rows ([[]] when there is nothing to fetch). *)
Definition execute_query (self : SQLServerConfig) (query : string)
    (params : list sqlval) (database : option string) : M (list row) :=
  let db := match database with
            | Some d => if String.eqb d "" then sql_database self else d
            | None => sql_database self
            end in
  try_except
    (ask_exn rows (EvQuery (sql_server self) db query params))
    (fun e => raise e).

(** [SQLClient.execute_sp] *)
Definition execute_sp (self : SQLServerConfig) (sp_name : string)
    (params : list sqlval) (database : option string) : M (list row) :=
  let query :=
    if Nat.eqb (List.length params) 0 then "EXEC " ++ sp_name
    else "EXEC " ++ sp_name ++ " " ++ join ", " (List.repeat "%s" (List.length params)) in
  execute_query self query params database.

Definition start_job_query : string :=
  "EXEC msdb.dbo.sp_start_job @job_name = %s".

Definition job_status_query : string :=
  "SELECT TOP 1 ja.run_requested_date, ja.stop_execution_date, "
  ++ "CASE WHEN ja.stop_execution_date IS NULL THEN 'Running' ELSE 'Completed' END AS job_status "
  ++ "FROM msdb.dbo.sysjobs j JOIN msdb.dbo.sysjobactivity ja ON j.job_id = ja.job_id "
  ++ "WHERE j.name = %s AND ja.run_requested_date IS NOT NULL "
  ++ "AND CONVERT(VARCHAR(10), ja.run_requested_date, 112) = CONVERT(VARCHAR(10), GETDATE(), 112) "
  ++ "ORDER BY ja.run_requested_date DESC".

(** The SELECT list of [job_status_query], applied to a line of
    [sysjobactivity]: the status is decided by [stop_execution_date]
    alone. *)
Definition select_job_status (ja : JobActivity) : row :=
  [ ("run_requested_date", SqlStr (run_requested_date ja));
    ("stop_execution_date",
      match stop_execution_date ja with Some d => SqlStr d | None => SqlNull end);
    ("job_status",
      match stop_execution_date ja with
      | None => SqlStr "Running"
      | Some _ => SqlStr "Completed"
      end) ].

(** [execute_query(job_status_query, (job_name,), database="msdb")] *)
Definition query_job_status (self : SQLServerConfig) (job_name : sqlval) : M (list row) :=
  try_except
    (found <- ask_exn activity
                (EvQuery (sql_server self) "msdb" job_status_query [job_name]) ;;
     ret (List.map select_job_status found))
    (fun e => raise e).

(** The [while total_waited < max_wait] loop of [execute_job]. *)
Fixpoint wait_job (fuel : nat) (self : SQLServerConfig) (job_name : sqlval)
    (check_interval max_wait total_waited : Z) : M (bool * string) :=
  if Z.ltb total_waited max_wait then
    match fuel with
    | O => out_of_fuel
    | S fuel' =>
        time_sleep check_interval ;;
        let total_waited := (total_waited + check_interval)%Z in
        result <- query_job_status self job_name ;;
        match result with
        | first :: _ =>
            let status := get first "job_status" (SqlStr "Unknown") in
            if is_text status "Completed"
            then ret (true, "Job completado exitosamente")
            else wait_job fuel' self job_name check_interval max_wait total_waited
        | [] => wait_job fuel' self job_name check_interval max_wait total_waited
        end
    end
  else ret (false, "Timeout esperando job después de " ++ str_Z max_wait ++ "s").

(** [SQLClient.execute_job]; the call and what it returned are logged.
    [job_name] is the value the caller hands over, a text or a cell of a
    row: it goes to the server as the query parameter, and into the log
    and the messages as its text, [f"{job_name}"]. *)
Definition execute_job_fuel (fuel : nat) (self : SQLServerConfig) (job_name : sqlval)
    (wait_for_completion : bool) (check_interval max_wait : Z) : M (bool * string) :=
  emit (EvExecuteJob (sql_str job_name)) ;;
  r <- try_except
         (execute_query self start_job_query [job_name] (Some "msdb") ;;
          if negb wait_for_completion then ret (true, "Job iniciado (sin esperar)")
          else wait_job fuel self job_name check_interval max_wait 0%Z)
         (fun e => ret (false, str e)) ;;
  emit (EvJobResult (sql_str job_name) (fst r) (snd r)) ;;
  ret r.

(** Iterations a poll loop can make before its clock reaches the
    maximum, for a positive interval. *)
Definition poll_budget (interval max_wait : Z) : nat :=
  S (Z.to_nat (max_wait / interval)).

(** [execute_job(job_name)] with the default arguments
    [wait_for_completion=True, check_interval=10, max_wait=600]. *)
Definition execute_job (self : SQLServerConfig) (job_name : sqlval) : M (bool * string) :=
  execute_job_fuel (poll_budget 10 600) self job_name true 10%Z 600%Z.

(** [InfoCentralClient()], [DEADWHClient()], [CubosOfiClient()] *)
Definition InfoCentralClient : M SQLServerConfig :=
  c <- get_config ;; ret (sql_infocentral c).

Definition DEADWHClient : M SQLServerConfig :=
  c <- get_config ;; ret (sql_deadwh c).

Definition CubosOfiClient : M SQLServerConfig :=
  c <- get_config ;; ret (sql_cubosofi c).

Definition sp_inventario : string :=
  "[db_owner].[RevisarProcesodeInventarioFinalDiario]".

(** [InfoCentralClient.validar_inventario] *)
Definition validar_inventario (self : SQLServerConfig) : M (bool * string * list row) :=
  try_except
    (result <- execute_sp self sp_inventario [SqlStr "hayDiferencias"] None ;;
     let sin_diferencias :=
       match result with
       | first :: _ =>
           is_text (get first "DiferenciasOrigenDestino" SqlNull)
                   "No hay diferencias contra el origen"
       | [] => false
       end in
     if sin_diferencias
     then ret (false, "No hay diferencias contra el origen", [])
     else
       acciones <- execute_sp self sp_inventario [SqlStr "obtenerAcciones"] None ;;
       ret (true, "Hay diferencias contra el origen", acciones))
    (fun e => raise e).

(** [DEADWHClient.enviar_reportes] *)
Definition enviar_reportes (self : SQLServerConfig) (es_prueba reporte : Z)
    : M (bool * string) :=
  try_except
    (execute_sp self "[dbo].[TiEnvioReportesTableauProc]"
                [SqlInt es_prueba; SqlInt reporte] None ;;
     ret (true, "Reportes enviados exitosamente"))
    (fun e => ret (false, str e)).

(** [CubosOfiClient.ejecutar_job_inventario] *)
Definition ejecutar_job_inventario (self : SQLServerConfig) : M (bool * string) :=
  execute_job self "BI Inventario Chatarra 5:15 am".

End SQLClient.

(* ================================================================== *)
(** ** Tableau Server client ([tableau_client.py]) *)
(* ================================================================== *)

Module TableauClient.

Import Config.

(** The client object is its [_connected] flag. *)
Definition t : Type := bool.

(** [TableauClient.connect] *)
Definition connect : M t :=
  try_except (ask_effect EvSignIn ;; ret true) (fun _ => ret false).

(** [TableauClient.disconnect] *)
Definition disconnect (self : t) : M unit :=
  if self then try_except (ask_effect EvSignOut) (fun _ => ret tt) else ret tt.

(** [with TableauClient() as tableau: body] *)
Definition with_client {A : Type} (body : t -> M A) : M A :=
  tableau <- connect ;;
  finally (body tableau) (disconnect tableau).

Definition not_connected : exn := mkExn RuntimeError "No conectado a Tableau Server".

(** [TableauClient.find_datasource]: the listing and the search by name
    happen on the server side of the interface. *)
Definition find_datasource (self : t) (name : string) : M (option Datasource) :=
  if negb self then raise not_connected
  else ask_exn datasource (EvFindDatasource name).

(** [TableauClient.validar_extracto()]: once the datasource is found,
    its age against the configured maximum is the world's answer. *)
Definition validar_extracto (self : t) : M (bool * string * option datetime) :=
  c <- get_config ;;
  let ds_name := tableau_datasource_name c in
  ds <- find_datasource self ds_name ;;
  match ds with
  | None => ret (false, "Datasource '" ++ ds_name ++ "' no encontrado", None)
  | Some _ => ask_exn freshness (EvFreshness ds_name)
  end.

Definition wait_interval : Z := 10.

(** The [while total_waited < max_wait_seconds] loop of
    [refresh_extracto]. *)
Fixpoint wait_refresh (fuel : nat) (job : JobItem) (max_wait_seconds total_waited : Z)
    : M (bool * string) :=
  if Z.ltb total_waited max_wait_seconds then
    match fuel with
    | O => out_of_fuel
    | S fuel' =>
        time_sleep wait_interval ;;
        let total_waited := (total_waited + wait_interval)%Z in
        job <- ask_exn job_item (EvJobStatus (job_id job)) ;;
        if Z.eqb (finish_code job) 0 then ret (true, "Refresh completado")
        else if Z.eqb (finish_code job) 1 then ret (false, "Refresh falló: " ++ notes job)
        else if Z.eqb (finish_code job) 2 then ret (false, "Refresh cancelado")
        else wait_refresh fuel' job max_wait_seconds total_waited
    end
  else ret (false, "Timeout después de " ++ str_Z max_wait_seconds ++ "s").

(** [TableauClient.refresh_extracto] *)
Definition refresh_extracto_fuel (fuel : nat) (self : t) (max_wait_seconds : Z)
    : M (bool * string) :=
  c <- get_config ;;
  let ds_name := tableau_datasource_name c in
  ds <- find_datasource self ds_name ;;
  match ds with
  | None => ret (false, "Datasource '" ++ ds_name ++ "' no encontrado")
  | Some ds =>
      try_except
        (job <- ask_exn job_item (EvRefresh (ds_id ds)) ;;
         wait_refresh fuel job max_wait_seconds 0%Z)
        (fun e => ret (false, str e))
  end.

(** [refresh_extracto()] with the default [max_wait_seconds=300]. *)
Definition refresh_extracto (self : t) : M (bool * string) :=
  refresh_extracto_fuel (SQLClient.poll_budget wait_interval 300) self 300%Z.

(** [TableauClient.descargar_todos_reportes]: the first download raises
    when the client is not connected; otherwise every download absorbs
    its own errors and the verdict with the file list is the world's
    answer. *)
Definition descargar_todos_reportes (self : t) (output_dir : string)
    : M (bool * string * list string) :=
  if negb self then raise not_connected
  else ask downloads (EvDownloadAll output_dir).

End TableauClient.

(* ================================================================== *)
(** ** Jira client ([jira_client.py]) and notifier ([notifier.py]) *)
(* ================================================================== *)

Module JiraClient.

Import Config.

(** The description sent to Jira: the caller's text inside the fixed
    template, stamped with the current time. *)
Definition nl : string := String (ascii_of_nat 10) EmptyString.

Definition descripcion_completa (fecha componente descripcion : string) : string :=
  nl ++ "h2. Error en Automatización de Reportes MP" ++ nl
  ++ nl ++ "*Fecha/Hora:* " ++ fecha
  ++ nl ++ "*Componente:* " ++ componente ++ nl
  ++ nl ++ "h3. Descripción del Error"
  ++ nl ++ descripcion ++ nl
  ++ nl ++ "h3. Acciones Recomendadas"
  ++ nl ++ "# Verificar estado del extracto en Tableau Server"
  ++ nl ++ "# Revisar logs del proceso de automatización"
  ++ nl ++ "# Contactar al equipo de Datos si persiste" ++ nl
  ++ nl ++ "----"
  ++ nl ++ "_Ticket generado automáticamente por el sistema de automatización de reportes MP_"
  ++ nl ++ "            ".

(** [JiraClient.crear_ticket_error] *)
Definition crear_ticket_error (titulo descripcion componente prioridad : string)
    : M (bool * string * option string) :=
  emit (EvCrearTicket titulo descripcion) ;;
  c <- get_config ;;
  let '(is_valid, errors) := validate_jira c in
  if negb is_valid
  then ret (false, "Configuración de Jira incompleta: " ++ join ", " errors, None)
  else
    try_except
      (ask_effect (EvJiraConnect (jira_server (jira c))) ;;
       fecha <- now_text ;;
       issue_key <- ask_exn issue
                      (EvCreateIssue (jira_project_key (jira c)) titulo
                         (descripcion_completa fecha componente descripcion)) ;;
       ret (true, "Ticket creado: " ++ issue_key, Some issue_key))
      (fun e => ret (false, "Error creando ticket en Jira: " ++ str e, None)).

End JiraClient.

Module Notifier.

Import Config.

(** [Notifier._send_via_dbmail]: one call of [sp_send_dbmail]; the HTML
    body it carries is not modelled. *)
Definition _send_via_dbmail (recipients subject : string) : M (bool * string) :=
  try_except
    (ask_effect (EvDbMail recipients subject) ;;
     ret (true, "Email enviado exitosamente"))
    (fun e => ret (false, str e)).

(** [Notifier.enviar_alerta_error] *)
Definition enviar_alerta_error (titulo mensaje : string) (ticket_jira : option string)
    : M (bool * string) :=
  emit (EvAlertaError titulo mensaje ticket_jira) ;;
  c <- get_config ;;
  _ <- now_text ;;
  _send_via_dbmail (error_recipients (email c)) ("🔴 ALERTA MP: " ++ titulo).

(** [Notifier.enviar_resumen_proceso]; the steps are handed over as
    records ([StepResult.to_dict] only renames their fields). *)
Definition enviar_resumen_proceso (exito : bool) (pasos_ejecutados : list StepResult)
    (tiempo_total : Z) : M (bool * string) :=
  emit (EvResumen exito pasos_ejecutados tiempo_total) ;;
  c <- get_config ;;
  fecha <- now_text ;;
  let status_text := if exito then "EXITOSO" else "FALLIDO" in
  let recipients :=
    if negb exito then error_recipients (email c) else success_recipients (email c) in
  let status_icon := if exito then "✅" else "❌" in
  _send_via_dbmail recipients
    (status_icon ++ " Resumen Reportes MP: " ++ status_text ++ " - " ++ fecha).

End Notifier.

(* ================================================================== *)
(** ** The orchestrator ([workflow.py]) *)
(* ================================================================== *)

Module Workflow.

Import Config.

(** What [_execute_step] runs: a callable that returns
    [(success, mensaje, detalles)], [detalles] a dict or [None], or
    raises. *)
Definition Operation : Type := M (bool * string * option dict).

(** [self.on_step_complete(result)]: the observer returns or raises. *)
Definition on_step_complete (result : StepResult) : M unit :=
  a <- ask observer (EvObserver result) ;;
  match a with
  | Some e => raise e
  | None => ret tt
  end.

(** [self.steps.append(result)] *)
Definition steps_append (result : StepResult) : M unit :=
  o <- get_self ;; set_steps (steps o ++ [result]).

(** [ReportWorkflow._execute_step] *)
Definition _execute_step (nombre : string) (func : Operation) : M StepResult :=
  start <- time_time ;;
  result <-
    try_except
      (r <- func ;;
       let '(success, mensaje, detalles) := r in
       stop <- time_time ;;
       ret (mkStepResult nombre success mensaje (stop - start) (or_empty detalles)))
      (fun e =>
       stop <- time_time ;;
       ret (mkStepResult nombre false (str e) (stop - start) [])) ;;
  steps_append result ;;
  on_step_complete result ;;
  ret result.

(** [ReportWorkflow._handle_error] *)
Definition _handle_error (paso_fallido error : string) : M unit :=
  r <- JiraClient.crear_ticket_error
         ("[AUTO] Error en Reportes MP: " ++ paso_fallido) error "Reportes MP" "High" ;;
  let '(success, msg, ticket_key) := r in
  (if success then set_ticket_jira ticket_key else ret tt) ;;
  o <- get_self ;;
  _ <- Notifier.enviar_alerta_error ("Error en: " ++ paso_fallido) error (ticket_jira o) ;;
  ret tt.

(** [ReportWorkflow._wrap_validacion] *)
Definition _wrap_validacion (result : bool * string * option datetime)
    : bool * string * option dict :=
  let '(is_valid, message, last_updated) := result in
  let detalles :=
    match last_updated with
    | Some dt =>
        [ ("last_updated_utc", VStr (dt_utc dt));
          ("last_updated_local", VStr (dt_local dt));
          ("timezone", VStr "America/Monterrey (UTC-6)") ]
    | None => []
    end in
  (is_valid, message, Some detalles).

(** [ReportWorkflow._validar_inventario] *)
Definition _validar_inventario (client : SQLServerConfig) : Operation :=
  r <- SQLClient.validar_inventario client ;;
  let '(hay_diferencias, mensaje, acciones) := r in
  if negb hay_diferencias
  then ret (true, mensaje, Some [])
  else ret (false, mensaje,
            Some [("hay_diferencias", VBool true); ("acciones", VRows acciones)]).

(** One job of an action: [if accion_n: ... execute_job ... errores.append]. *)
Definition run_named_job (client : SQLServerConfig) (accion_n : sqlval)
    (errores : list string) : M (list string) :=
  if sql_truthy accion_n then
    r <- SQLClient.execute_job client accion_n ;;
    let '(success, msg) := r in
    if negb success
    then ret (errores ++ [(sql_str accion_n ++ ": " ++ msg)%string])%list
    else ret errores
  else ret errores.

(** The [for accion in acciones] loop of [_ejecutar_jobs_correctivos]. *)
Fixpoint jobs_loop (client : SQLServerConfig) (acciones : list row)
    (errores : list string) : M (list string) :=
  match acciones with
  | [] => ret errores
  | accion :: rest =>
      let accion1 := get accion "Accion1" (SqlStr "") in
      let accion2 := get accion "Accion2" (SqlStr "") in
      errores <- run_named_job client accion1 errores ;;
      errores <- run_named_job client accion2 errores ;;
      jobs_loop client rest errores
  end.

(** [ReportWorkflow._ejecutar_jobs_correctivos] *)
Definition _ejecutar_jobs_correctivos (client : SQLServerConfig) (acciones : list row)
    : Operation :=
  errores <- jobs_loop client acciones [] ;;
  if negb (Nat.eqb (List.length errores) 0)
  then ret (false, "Errores en jobs: " ++ join "; " errores, Some [])
  else ret (true, str_nat (List.length acciones) ++ " ubicaciones corregidas", Some []).

(** [for f in os.listdir(path): os.remove(os.path.join(path, f))] *)
Fixpoint remove_each (path : string) (files : list string) : M unit :=
  match files with
  | [] => ret tt
  | f :: rest => ask_effect (EvRemove (path_join path f)) ;; remove_each path rest
  end.

(** [ReportWorkflow._descargar_pdfs] *)
Definition _descargar_pdfs (tableau : TableauClient.t) : Operation :=
  c <- get_config ;;
  let source_path := pdf_source (paths c) in
  present <- ask flag (EvExists source_path) ;;
  (if present : bool
   then files <- ask_exn names (EvListDir source_path) ;; remove_each source_path files
   else ask_effect (EvMakeDirs source_path)) ;;
  r <- TableauClient.descargar_todos_reportes tableau source_path ;;
  let '(success, msg, archivos) := r in
  ret (success, msg, Some [("archivos", VStrList archivos)]).

(** The two loops of [_copiar_archivos]. *)
Fixpoint remove_files (dest : string) (files : list string) : M unit :=
  match files with
  | [] => ret tt
  | f :: rest =>
      let filepath := path_join dest f in
      is_file <- ask flag (EvIsFile filepath) ;;
      (if is_file : bool then ask_effect (EvRemove filepath) else ret tt) ;;
      remove_files dest rest
  end.

Fixpoint copy_each (source dest : string) (files copiados : list string)
    : M (list string) :=
  match files with
  | [] => ret copiados
  | f :: rest =>
      ask_effect (EvCopy (path_join source f) (path_join dest f)) ;;
      copy_each source dest rest (copiados ++ [f])%list
  end.

(** [ReportWorkflow._copiar_archivos] *)
Definition _copiar_archivos : Operation :=
  c <- get_config ;;
  let source := pdf_source (paths c) in
  let dest := pdf_dest (paths c) in
  try_except
    (present <- ask flag (EvExists dest) ;;
     if negb present
     then ret (false, "Carpeta destino no accesible: " ++ dest, Some [])
     else
       old <- ask_exn names (EvListDir dest) ;;
       remove_files dest old ;;
       files <- ask_exn names (EvListDir source) ;;
       archivos_copiados <- copy_each source dest files [] ;;
       ret (true, str_nat (List.length archivos_copiados) ++ " archivos copiados",
            Some [("archivos", VStrList archivos_copiados)]))
    (fun e =>
       match exn_type e with
       | PermissionError =>
           ret (false, "Sin permisos para escribir en " ++ dest ++ ": " ++ str e, Some [])
       | _ => ret (false, str e, Some [])
       end).

(** [lambda: self._wrap_validacion(tableau.validar_extracto())] *)
Definition op_validar (tableau : TableauClient.t) : Operation :=
  r <- TableauClient.validar_extracto tableau ;; ret (_wrap_validacion r).

(** A lambda that unpacks a pair and adds empty details:
    [lambda: ( *pair(), {})] *)
Definition with_empty_details (pair : M (bool * string)) : Operation :=
  r <- pair ;; let '(ok, msg) := r in ret (ok, msg, Some []).

(** [time.time() - self.start_time] *)
Definition elapsed : M Z :=
  now <- time_time ;;
  o <- get_self ;;
  match start_time o with
  | Some t0 => ret (now - t0)%Z
  | None => raise (mkExn TypeError "unsupported operand type(s) for -: 'float' and 'NoneType'")
  end.

(** [ReportWorkflow.run_validation_only] *)
Definition run_validation_only : M (bool * string) :=
  t0 <- time_time ;;
  set_start_time t0 ;;
  set_steps [] ;;
  TableauClient.with_client (fun tableau =>
    result <- _execute_step "Validar Extracto Tableau" (op_validar tableau) ;;
    if success result then ret (true, mensaje result)
    else
      result <- _execute_step "Refresh Extracto"
                  (with_empty_details (TableauClient.refresh_extracto tableau)) ;;
      if success result then
        result <- _execute_step "Revalidar Extracto" (op_validar tableau) ;;
        ret (success result, mensaje result)
      else ret (false, mensaje result)).

(** The [except Exception as e] clause shared by [run_send_only] and
    [run_full]. *)
Definition unexpected (e : exn) : M (bool * string) :=
  _handle_error "Error Inesperado" (str e) ;;
  ret (false, str e).

(** [ReportWorkflow.run_send_only] *)
Definition run_send_only (es_prueba reporte : Z) : M (bool * string) :=
  t0 <- time_time ;;
  set_start_time t0 ;;
  set_steps [] ;;
  try_except
    (deadwh <- SQLClient.DEADWHClient ;;
     result <- _execute_step "Enviar Correos"
                 (with_empty_details (SQLClient.enviar_reportes deadwh es_prueba reporte)) ;;
     if negb (success result) then
       _handle_error "Envío de Correos" (mensaje result) ;;
       ret (false, mensaje result)
     else
       tiempo_total <- elapsed ;;
       o <- get_self ;;
       _ <- Notifier.enviar_resumen_proceso true (steps o) tiempo_total ;;
       ret (true, "Correos enviados exitosamente en " ++ fmt_2f tiempo_total ++ "s"))
    unexpected.

(** A block of [run_full] either leaves the function with a verdict
    ([Some v], a [return] statement) or falls through to the next block
    ([None]). *)
Definition Block : Type := M (option (bool * string)).

Definition escalate_and_return (paso_fallido prefix : string) (result : StepResult)
    : Block :=
  _handle_error paso_fallido (mensaje result) ;;
  ret (Some (false, prefix ++ mensaje result)).

(** PASO 1: Validar extracto de Tableau *)
Definition paso_1 : Block :=
  TableauClient.with_client (fun tableau =>
    result <- _execute_step "1. Validar Extracto Tableau" (op_validar tableau) ;;
    if negb (success result) then
      result <- _execute_step "1.1 Refresh Extracto"
                  (with_empty_details (TableauClient.refresh_extracto tableau)) ;;
      if negb (success result) then
        escalate_and_return "Refresh de Extracto" "Error en extracto: " result
      else
        result <- _execute_step "1.2 Revalidar Extracto" (op_validar tableau) ;;
        if negb (success result) then
          escalate_and_return "Validación post-refresh"
                              "Extracto sigue desactualizado: " result
        else ret None
    else ret None).

(** [for accion in acciones] needs the rows stored under ['acciones']. *)
Definition rows_of (v : pyval) : M (list row) :=
  match v with
  | VRows rs => ret rs
  | VStrList [] => ret []
  | VStr "" => ret []
  | VStrList _ | VStr _ => raise (mkExn Exception "'str' object has no attribute 'get'")
  | VNone => raise (mkExn TypeError "'NoneType' object is not iterable")
  | VBool _ => raise (mkExn TypeError "'bool' object is not iterable")
  end.

(** PASO 2: Validar datos en SQL Server *)
Definition paso_2 : Block :=
  infocentral <- SQLClient.InfoCentralClient ;;
  result <- _execute_step "2. Validar Inventario SQL" (_validar_inventario infocentral) ;;
  if negb (success result) && truthy (get_opt (detalles result) "hay_diferencias") then
    let acciones := get (detalles result) "acciones" (VRows []) in
    result <- _execute_step "2.1 Ejecutar Jobs Correctivos"
                (rs <- rows_of acciones ;; _ejecutar_jobs_correctivos infocentral rs) ;;
    if negb (success result) then
      escalate_and_return "Jobs Correctivos" "Error en jobs correctivos: " result
    else
      cubosofi <- SQLClient.CubosOfiClient ;;
      result <- _execute_step "2.2 Actualizar Cubo"
                  (with_empty_details (SQLClient.ejecutar_job_inventario cubosofi)) ;;
      if negb (success result) then
        escalate_and_return "Actualización de Cubo" "Error actualizando cubo: " result
      else ret None
  else ret None.

(** PASO 3: Descargar PDFs de Tableau (the file list read back from the
    details is not used afterwards) *)
Definition paso_3 : Block :=
  TableauClient.with_client (fun tableau =>
    result <- _execute_step "3. Descargar PDFs" (_descargar_pdfs tableau) ;;
    if negb (success result) then
      escalate_and_return "Descarga de PDFs" "Error descargando PDFs: " result
    else ret None).

(** PASO 4: Copiar a carpeta compartida *)
Definition paso_4 : Block :=
  result <- _execute_step "4. Copiar a DEADWH" _copiar_archivos ;;
  if negb (success result) then
    escalate_and_return "Copia de Archivos" "Error copiando archivos: " result
  else ret None.

(** PASO 5: Enviar correos *)
Definition paso_5 : Block :=
  deadwh <- SQLClient.DEADWHClient ;;
  result <- _execute_step "5. Enviar Correos"
              (with_empty_details (SQLClient.enviar_reportes deadwh 0 0)) ;;
  if negb (success result) then
    escalate_and_return "Envío de Correos" "Error enviando correos: " result
  else ret None.

(** ÉXITO *)
Definition exito : M (bool * string) :=
  tiempo_total <- elapsed ;;
  o <- get_self ;;
  _ <- Notifier.enviar_resumen_proceso true (steps o) tiempo_total ;;
  ret (true, "Proceso completado en " ++ fmt_2f tiempo_total ++ "s").

(** Sequencing of blocks: the rest runs only when the block fell
    through. *)
Definition then_ (block : Block) (rest : M (bool * string)) : M (bool * string) :=
  r <- block ;;
  match r with
  | Some verdict => ret verdict
  | None => rest
  end.

(** [ReportWorkflow.run_full] *)
Definition run_full : M (bool * string) :=
  t0 <- time_time ;;
  set_start_time t0 ;;
  set_steps [] ;;
  set_ticket_jira None ;;
  try_except
    (then_ paso_1 (then_ paso_2 (then_ paso_3 (then_ paso_4 (then_ paso_5 exito)))))
    unexpected.

(** [ReportWorkflow.__init__] *)
Definition init : ReportWorkflow := mkReportWorkflow [] None None.

End Workflow.


(* ================================================================== *)
(** ** Further parts of the program *)
(* ================================================================== *)

(** [needle in hay] for two strings. *)
Fixpoint contains (needle hay : string) : bool :=
  String.prefix needle hay
  || match hay with
     | EmptyString => false
     | String _ rest => contains needle rest
     end.

(** *** [Config.validate] ([config.py]) *)

Module Credentials.

(** The settings [Config.validate] looks at. *)
Record t : Type := mk {
  tableau_user : string;
  tableau_password : string;
  sql_infocentral_password : string;
  sql_deadwh_password : string
}.

(** [Config.validate] *)
Definition validate (self : t) : bool * list string :=
  let errors :=
    ((if String.eqb (tableau_user self) "" then ["TABLEAU_USER no configurado"] else [])
     ++ (if String.eqb (tableau_password self) ""
         then ["TABLEAU_PASSWORD no configurado"] else [])
     ++ (if String.eqb (sql_infocentral_password self) ""
         then ["SQL_INFOCENTRAL_PWD no configurado"] else [])
     ++ (if String.eqb (sql_deadwh_password self) ""
         then ["SQL_DEADWH_PWD no configurado"] else []))%list in
  (Nat.eqb (List.length errors) 0, errors).

End Credentials.

(** *** The search of [find_datasource] ([tableau_client.py]) *)

Module Listing.

(** A datasource of the listing: what [Datasource] holds, and whether it
    has an extract. *)
Record DatasourceItem : Type := mkItem {
  item : Datasource;
  has_extracts : bool
}.

Section Search.

(** [str.lower] *)
Variable lower : string -> string.

(** [ds.name.lower() == name_lower] *)
Definition exact_match (name_lower : string) (ds : DatasourceItem) : bool :=
  String.eqb (lower (ds_name (item ds))) name_lower.

(** [name_lower in ds.name.lower() or ds.name.lower() in name_lower] *)
Definition partial_match (name_lower : string) (ds : DatasourceItem) : bool :=
  contains name_lower (lower (ds_name (item ds)))
  || contains (lower (ds_name (item ds))) name_lower.

(** [for ds in all_datasources: if cond(ds): if ds.has_extracts: return ds] *)
Fixpoint first_with (cond : DatasourceItem -> bool) (all_datasources : list DatasourceItem)
    : option DatasourceItem :=
  match all_datasources with
  | [] => None
  | ds :: rest =>
      if cond ds
      then if has_extracts ds then Some ds else first_with cond rest
      else first_with cond rest
  end.

(** The two loops of [TableauClient.find_datasource] over the listing:
    the exact search, then the partial one. *)
Definition search (all_datasources : list DatasourceItem) (name : string)
    : option DatasourceItem :=
  let name_lower := lower name in
  match first_with (exact_match name_lower) all_datasources with
  | Some ds => Some ds
  | None => first_with (partial_match name_lower) all_datasources
  end.

End Search.

End Listing.

(** *** The reports of [descargar_todos_reportes] ([tableau_client.py]) *)

Module Reportes.

(** What the configuration of the reports reads of [datetime.today()]:
    [weekday()] (Monday is 0) and [day]. *)
Record Today : Type := mkToday {
  weekday : nat;
  day : nat
}.

Record Reporte : Type := mkReporte {
  name : string;
  alias : string;
  orientation : string;
  condition : bool
}.

(** The list [reportes]; [today i] is what the i-th call of
    [datetime.today()] in it returns. *)
Definition reportes (today : nat -> Today) : list Reporte :=
  [ mkReporte "Reporte Costo Puesto en Patios" "Reporte Costo Puesto en Patios"
              "Portrait" (negb (Nat.eqb (weekday (today 0)) 0));
    mkReporte "Reporte Costo Puesto en Patios (Inicio Semana)"
              "Reporte Costo Puesto en Patios"
              "Portrait" (Nat.eqb (weekday (today 1)) 0);
    mkReporte "Reporte Inventario Diario" "Reporte Inventario Diario"
              "Portrait" true;
    mkReporte "Reporte Compra Chatarra Prom Dia Habil"
              "Reporte Compra Chatarra Prom Dia Habil"
              "Landscape" (negb (Nat.eqb (day (today 2)) 1));
    mkReporte "Reporte Compra Chatarra Prom Dia Habil Dia Primero"
              "Reporte Compra Chatarra Prom Dia Habil"
              "Landscape" (Nat.eqb (day (today 3)) 1);
    mkReporte "Reporte de Compras e Inventario por Tipo de Material"
              "Reporte de Compras e Inventario por Tipo de Material"
              "Portrait" true;
    mkReporte "Reporte NUEVO Patios - Compras Nacionales + Importaciones"
              "Reporte NUEVO Patios - Compras Nacionales + Importaciones"
              "Portrait" (negb (Nat.eqb (weekday (today 4)) 0));
    mkReporte "Reporte NUEVO Patios - Compras Nacionales + Importaciones_InicioSem"
              "Reporte NUEVO Patios - Compras Nacionales + Importaciones"
              "Portrait" (Nat.eqb (weekday (today 5)) 0) ].

(** [os.path.join(output_dir, f"{reporte['alias']}.pdf")] *)
Definition output_path (output_dir : string) (reporte : Reporte) : string :=
  path_join output_dir (alias reporte ++ ".pdf").

Section Descarga.

(** [self.descargar_pdf(workbook_name, output_path, orientation)] *)
Variable descargar_pdf : string -> string -> string -> M (bool * string).

(** The [for reporte in reportes] loop of [descargar_todos_reportes]. *)
Fixpoint descargar_loop (output_dir : string) (reportes : list Reporte)
    (downloaded_files errors : list string) : M (list string * list string) :=
  match reportes with
  | [] => ret (downloaded_files, errors)
  | reporte :: rest =>
      if negb (condition reporte)
      then descargar_loop output_dir rest downloaded_files errors
      else
        r <- descargar_pdf (name reporte) (output_path output_dir reporte)
                           (orientation reporte) ;;
        let '(success, msg) := r in
        if success : bool
        then descargar_loop output_dir rest
               (downloaded_files ++ [output_path output_dir reporte])%list errors
        else descargar_loop output_dir rest downloaded_files
               (errors ++ [(name reporte ++ ": " ++ msg)%string])%list
  end.

(** [TableauClient.descargar_todos_reportes], over the download of one
    workbook. *)
Definition descargar_todos_reportes (today : nat -> Today) (output_dir : string)
    : M (bool * string * list string) :=
  r <- descargar_loop output_dir (reportes today) [] [] ;;
  let '(downloaded_files, errors) := r in
  if negb (Nat.eqb (List.length errors) 0)
  then ret (false,
            "Errores en " ++ str_nat (List.length errors) ++ " reportes: "
            ++ join "; " errors,
            downloaded_files)
  else ret (true, str_nat (List.length downloaded_files) ++ " reportes descargados",
            downloaded_files).

End Descarga.

End Reportes.

(** *** The success notification ([notifier.py]) *)

Module Notificacion.

Import Config.

(** [Notifier.enviar_notificacion_exito]; the list of reports only shapes
    the body of the mail. *)
Definition enviar_notificacion_exito (mensaje : string) : M (bool * string) :=
  c <- get_config ;;
  _ <- now_text ;;
  Notifier._send_via_dbmail (success_recipients (email c))
    ("✅ Reportes MP: " ++ mensaje).

End Notificacion.

(** *** The summary of a run ([workflow.py]) *)

Module Resumen.

(** [s.success] for a recorded step. *)
Definition succeeded (s : StepResult) : bool := success s.

(** The dictionary [StepResult.to_dict] builds, by its keys. *)
Record StepDict : Type := mkStepDict {
  nombre : string;
  success : bool;
  estado : string;
  duracion : string;
  detalles : dict
}.

(** [StepResult.to_dict] *)
Definition to_dict (self : StepResult) : StepDict :=
  let '(mkStepResult nombre success mensaje duracion detalles) := self in
  mkStepDict nombre success mensaje (fmt_2f duracion ++ "s") detalles.

(** The dictionary [get_summary] builds, by its keys. *)
Record RunSummary : Type := mkRunSummary {
  total_pasos : nat;
  pasos_exitosos : nat;
  pasos_fallidos : nat;
  tiempo_total : Z;
  ticket_jira : option string;
  pasos : list StepDict
}.

(** [time.time() - self.start_time if self.start_time else 0]: the clock
    is read only when [self.start_time] is truthy. *)
Definition tiempo (start_time : option Z) : M Z :=
  match start_time with
  | Some t0 =>
      if Z.eqb t0 0 then ret 0%Z
      else now <- time_time ;; ret (now - t0)%Z
  | None => ret 0%Z
  end.

(** [ReportWorkflow.get_summary] *)
Definition get_summary : M RunSummary :=
  o <- get_self ;;
  let '(mkReportWorkflow steps start_time ticket) := o in
  tiempo_total <- tiempo start_time ;;
  ret (mkRunSummary
         (List.length steps)
         (List.length (List.filter succeeded steps))
         (List.length (List.filter (fun s => negb (succeeded s)) steps))
         tiempo_total
         ticket
         (List.map to_dict steps)).

End Resumen.
Import Config.
Local Open Scope list_scope.

(* ================================================================== *)
(** ** Observations on a trace *)
(* ================================================================== *)

(** Calls of [JiraClient.crear_ticket_error]: title and description. *)
Definition tickets_of (tr : list Event) : list (string * string) :=
  flat_map (fun ev => match ev with EvCrearTicket t d => [(t, d)] | _ => [] end) tr.

(** Calls of [Notifier.enviar_alerta_error]: title, message, ticket. *)
Definition alerts_of (tr : list Event) : list (string * string * option string) :=
  flat_map (fun ev => match ev with EvAlertaError t m k => [(t, m, k)] | _ => [] end) tr.

(** Identifiers assigned to [self.ticket_jira]. *)
Definition stored_of (tr : list Event) : list string :=
  flat_map (fun ev => match ev with EvTicketStored (Some k) => [k] | _ => [] end) tr.

(** Results handed to the observer. *)
Definition observed_of (tr : list Event) : list StepResult :=
  flat_map (fun ev => match ev with EvObserver r => [r] | _ => [] end) tr.

(** Success summaries sent. *)
Definition summaries_of (tr : list Event) : list (list StepResult) :=
  flat_map (fun ev => match ev with EvResumen _ l _ => [l] | _ => [] end) tr.

(** Jobs handed to [execute_job], in order. *)
Definition jobs_of (tr : list Event) : list string :=
  flat_map (fun ev => match ev with EvExecuteJob j => [j] | _ => [] end) tr.

(** What [execute_job] returned, in order. *)
Definition results_of (tr : list Event) : list (string * bool * string) :=
  flat_map (fun ev => match ev with EvJobResult j ok m => [(j, ok, m)] | _ => [] end) tr.

(** Events of a poll loop on SQL Server. *)
Definition poll_event (ev : Event) : bool :=
  match ev with
  | EvQuery _ _ _ _ | EvSleep _ => true
  | _ => false
  end.

(** Events of the clock and of Tableau Server. *)
Definition tableau_event (ev : Event) : bool :=
  match ev with
  | EvTime | EvSleep _ | EvSignIn | EvSignOut | EvFindDatasource _
  | EvFreshness _ | EvRefresh _ | EvJobStatus _ | EvDownloadAll _ => true
  | _ => false
  end.

(** Events of the step operations of the full flow: everything but the
    observer, the escalation, the summary and the mail. *)
Definition operation_event (ev : Event) : bool :=
  match ev with
  | EvObserver _ | EvCrearTicket _ _ | EvJiraConnect _ | EvCreateIssue _ _ _
  | EvTicketStored _ | EvAlertaError _ _ _ | EvResumen _ _ _ | EvDbMail _ _
  | EvNow => false
  | _ => true
  end.

(** Events below the escalation calls: Jira and the mail relay. *)
Definition relay_event (ev : Event) : bool :=
  match ev with
  | EvNow | EvJiraConnect _ | EvCreateIssue _ _ _ | EvDbMail _ _ => true
  | _ => false
  end.

(** Events a validation-only run may produce. *)
Definition validation_event (ev : Event) : bool :=
  match ev with
  | EvObserver _ => true
  | _ => tableau_event ev
  end.

(** A computation that leaves [self] alone, only adds events of a given
    class to the trace, and does not hang. *)
Definition confined {A : Type} (P : Event -> bool) (m : M A) : Prop :=
  forall w s, exists o tr k,
    m w s = (o, mkSt (self s) (trace s ++ tr) k)
    /\ forallb P tr = true
    /\ o <> OutOfFuel.


(** A computation that always returns, leaves [self] alone and only adds
    events of a given class. *)
Definition calm {A : Type} (P : Event -> bool) (m : M A) : Prop :=
  forall w s, exists a tr k,
    m w s = (Ret a, mkSt (self s) (trace s ++ tr) k)
    /\ forallb P tr = true.

(* ================================================================== *)
(** ** Summary of a run, and specifications over summaries *)
(* ================================================================== *)

(** What a run has done so far: the fields of [self] and what the events
    added since the start of the run amount to. *)
Record Summary : Type := mkSummary {
  sm_steps : list StepResult;
  sm_start : option Z;
  sm_ticket : option string;
  sm_observed : list StepResult;
  sm_tickets : list (string * string);
  sm_alerts : list (string * string * option string);
  sm_stored : list string;
  sm_summaries : list (list StepResult)
}.

Definition reaches (s0 s : St) (sm : Summary) : Prop :=
  self s = mkReportWorkflow (sm_steps sm) (sm_start sm) (sm_ticket sm)
  /\ exists tr,
       trace s = trace s0 ++ tr
       /\ observed_of tr = sm_observed sm
       /\ tickets_of tr = sm_tickets sm
       /\ alerts_of tr = sm_alerts sm
       /\ stored_of tr = sm_stored sm
       /\ summaries_of tr = sm_summaries sm.

(** The summary at the start of a run. *)
Definition sm_begin (s : St) : Summary :=
  mkSummary (steps (self s)) (start_time (self s)) (ticket_jira (self s)) [] [] [] [] [].

Definition sm_with_self (sm : Summary) (o : ReportWorkflow) : Summary :=
  mkSummary (steps o) (start_time o) (ticket_jira o)
            (sm_observed sm) (sm_tickets sm) (sm_alerts sm) (sm_stored sm)
            (sm_summaries sm).

Definition sm_self (sm : Summary) : ReportWorkflow :=
  mkReportWorkflow (sm_steps sm) (sm_start sm) (sm_ticket sm).

(** After [_execute_step] recorded [r]. *)
Definition sm_step (sm : Summary) (r : StepResult) : Summary :=
  mkSummary (sm_steps sm ++ [r])%list (sm_start sm) (sm_ticket sm)
            (sm_observed sm ++ [r])%list (sm_tickets sm) (sm_alerts sm) (sm_stored sm)
            (sm_summaries sm).

(** After [_handle_error paso error] left [ticket] in [self.ticket_jira],
    having stored the keys [stored]. *)
Definition sm_escalated (sm : Summary) (paso error : string) (ticket : option string)
    (stored : list string) : Summary :=
  mkSummary (sm_steps sm) (sm_start sm) ticket (sm_observed sm)
            (sm_tickets sm ++ [(("[AUTO] Error en Reportes MP: " ++ paso)%string, error)])
            (sm_alerts sm ++ [(("Error en: " ++ paso)%string, error, ticket)])
            (sm_stored sm ++ stored)%list
            (sm_summaries sm).

(** After a summary mail for the steps [pasos]. *)
Definition sm_summarised (sm : Summary) (pasos : list StepResult) : Summary :=
  mkSummary (sm_steps sm) (sm_start sm) (sm_ticket sm) (sm_observed sm)
            (sm_tickets sm) (sm_alerts sm) (sm_stored sm)
            (sm_summaries sm ++ [pasos])%list.

(** [triple w s0 sm m Q]: started in a state that the run from [s0] has
    reached with summary [sm], [m] ends with an outcome and a summary
    related by [Q]. *)
Definition triple {A : Type} (w : World) (s0 : St) (sm : Summary) (m : M A)
    (Q : Outcome A -> Summary -> Prop) : Prop :=
  forall s, reaches s0 s sm ->
    exists o s' sm', m w s = (o, s') /\ reaches s0 s' sm' /\ Q o sm'.

(* ================================================================== *)
(** ** The paths of the full flow *)
(* ================================================================== *)

(** The signature of a step list: names and success flags. *)
Definition Sig : Type := list (string * bool).

Definition signature (rs : list StepResult) : Sig :=
  List.map (fun r => (nombre r, success r)) rs.

(** An abstract run: signature of the recorded steps, verdict, number of
    escalations, and whether the run was ended by an exception of the
    observer. *)
Definition arun : Type := (Sig * bool * nat * bool)%type.

(** A step is recorded as a success or as a failure; right after the
    record the observer may raise, which ends the run by the
    [except Exception] clause: one escalation, verdict false. *)
Definition astep (name : string) (pre : Sig) (next : bool -> Sig -> list arun)
    : list arun :=
  flat_map (fun ok => let sg := (pre ++ [(name, ok)])%list in
                      (sg, false, 1, true) :: next ok sg) [true; false].

(** A failed gate: one escalation, verdict false. *)
Definition astop (sg : Sig) : list arun := [(sg, false, 1, false)].

Definition apaso_5 (sg : Sig) : list arun :=
  astep "5. Enviar Correos" sg
    (fun ok sg => if ok then [(sg, true, 0, false)] else astop sg).

Definition apaso_4 (sg : Sig) : list arun :=
  astep "4. Copiar a DEADWH" sg (fun ok sg => if ok then apaso_5 sg else astop sg).

Definition apaso_3 (sg : Sig) : list arun :=
  astep "3. Descargar PDFs" sg (fun ok sg => if ok then apaso_4 sg else astop sg).

Definition apaso_2 (sg : Sig) : list arun :=
  astep "2. Validar Inventario SQL" sg
    (fun ok sg =>
       if ok then apaso_3 sg
       else
         (apaso_3 sg
          ++ astep "2.1 Ejecutar Jobs Correctivos" sg
               (fun ok sg =>
                  if ok then
                    astep "2.2 Actualizar Cubo" sg
                      (fun ok sg => if ok then apaso_3 sg else astop sg)
                  else astop sg))%list).

Definition apaso_1 : list arun :=
  astep "1. Validar Extracto Tableau" []
    (fun ok sg =>
       if ok then apaso_2 sg
       else
         astep "1.1 Refresh Extracto" sg
           (fun ok sg =>
              if ok then
                astep "1.2 Revalidar Extracto" sg
                  (fun ok sg => if ok then apaso_2 sg else astop sg)
              else astop sg)).

Definition full_paths : list arun := apaso_1.

(** Decidable membership in a list of abstract runs. *)
Definition entry_eqb (a b : string * bool) : bool :=
  String.eqb (fst a) (fst b) && Bool.eqb (snd a) (snd b).

Fixpoint sig_eqb (a b : Sig) : bool :=
  match a, b with
  | [], [] => true
  | x :: a', y :: b' => entry_eqb x y && sig_eqb a' b'
  | _, _ => false
  end.

Definition arun_eqb (a b : arun) : bool :=
  let '(sa, va, ea, xa) := a in
  let '(sb, vb, eb, xb) := b in
  sig_eqb sa sb && Bool.eqb va vb && Nat.eqb ea eb && Bool.eqb xa xb.

Definition mem (a : arun) (l : list arun) : bool := existsb (arun_eqb a) l.

(* ================================================================== *)
(** ** Pieces of state and of trace named in the statements *)
(* ================================================================== *)

(** The mail of the alert for a failed step, as handed to the relay. *)
Definition alert_mail (w : World) (paso : string) : Event :=
  EvDbMail (error_recipients (email (config w)))
           ("🔴 ALERTA MP: " ++ ("Error en: " ++ paso))%string.

(** The state after one reading of the clock. *)
Definition after_clock (s : St) : St :=
  mkSt (self s) (trace s ++ [EvTime]) (S (tick s)).

(** The state after [self.steps.append(r)] and the call of the observer. *)
Definition with_step (s : St) (r : StepResult) : St :=
  mkSt (mkReportWorkflow (steps (self s) ++ [r]) (start_time (self s)) (ticket_jira (self s)))
       (trace s ++ [EvObserver r])
       (S (tick s)).

(** The record [_execute_step] builds from what the operation did. *)
Definition step_record (nombre : string) (o : Outcome (bool * string * option dict))
    (duracion : Z) : option StepResult :=
  match o with
  | Ret (ok, msg, d) => Some (mkStepResult nombre ok msg duracion (or_empty d))
  | Raise e => Some (mkStepResult nombre false (str e) duracion [])
  | OutOfFuel => None
  end.

(** What the call of the observer at tick [k] yields. *)
Definition observer_outcome (w : World) (k : nat) (r : StepResult) : Outcome StepResult :=
  match observer w k with
  | Some e => Raise e
  | None => Ret r
  end.

(** The summary after events [tr] that left [self] as [rw]. *)
Definition sm_extend (sm : Summary) (rw : ReportWorkflow) (tr : list Event) : Summary :=
  mkSummary (steps rw) (start_time rw) (ticket_jira rw)
            (sm_observed sm ++ observed_of tr)
            (sm_tickets sm ++ tickets_of tr)
            (sm_alerts sm ++ alerts_of tr)
            (sm_stored sm ++ stored_of tr)
            (sm_summaries sm ++ summaries_of tr).

(* ================================================================== *)
(** ** What a finished run looks like *)
(* ================================================================== *)

(** A run that succeeds escalates nothing and sends one summary of its
    steps; a run that fails has made exactly one ticket call and sent
    exactly one alert, which carries the identifier left in [self]; that
    identifier is the one found at the start ([ticket0]) unless this run
    stored one, and a run stores at most one. *)
Definition escalation_ok (ticket0 : option string) (b : bool) (sm : Summary) : Prop :=
  if b then
    sm_tickets sm = [] /\ sm_alerts sm = [] /\ sm_stored sm = []
    /\ sm_ticket sm = ticket0 /\ sm_summaries sm = [sm_steps sm]
  else
    (exists t d, sm_tickets sm = [(t, d)])
    /\ (exists t m, sm_alerts sm = [(t, m, sm_ticket sm)])
    /\ sm_summaries sm = []
    /\ ((sm_stored sm = [] /\ sm_ticket sm = ticket0)
        \/ (exists k, sm_stored sm = [k] /\ sm_ticket sm = Some k)).

Definition full_post (w : World) (o : Outcome (bool * string)) (sm : Summary) : Prop :=
  exists b msg aborted,
    o = Ret (b, msg)
    /\ mem (signature (sm_steps sm), b, List.length (sm_tickets sm), aborted) full_paths = true
    /\ sm_observed sm = sm_steps sm
    /\ escalation_ok None b sm
    /\ (aborted = true -> exists e k, observer w k = Some e /\ msg = str e)
    /\ (exists t0, sm_start sm = Some t0).

Definition send_post (ticket0 : option string) (o : Outcome (bool * string))
    (sm : Summary) : Prop :=
  exists b msg r,
    o = Ret (b, msg)
    /\ sm_steps sm = [r]
    /\ nombre r = "Enviar Correos"%string
    /\ sm_observed sm = [r]
    /\ (b = true -> success r = true)
    /\ escalation_ok ticket0 b sm
    /\ (exists t0, sm_start sm = Some t0).

(** A validation-only run ends with a verdict, or with the exception the
    observer raised; it escalates nothing and leaves the ticket alone. *)
Definition validation_post (w : World) (ticket0 : option string)
    (o : Outcome (bool * string)) (sm : Summary) : Prop :=
  ((exists b msg, o = Ret (b, msg))
   \/ (exists e k, o = Raise e /\ observer w k = Some e))
  /\ sm_tickets sm = [] /\ sm_alerts sm = [] /\ sm_stored sm = []
  /\ sm_summaries sm = [] /\ sm_ticket sm = ticket0
  /\ sm_observed sm = sm_steps sm.

(** The summary of a finished run, read off its final state and the events
    it added. *)
Definition summary_of (s' : St) (tr : list Event) : Summary :=
  mkSummary (steps (self s')) (start_time (self s')) (ticket_jira (self s'))
            (observed_of tr) (tickets_of tr) (alerts_of tr) (stored_of tr)
            (summaries_of tr).

(** A run from [s] to [s'] stores at most one ticket identifier, and the
    one it stored is the one found in [self] at the end. *)
Definition stores_at_most_once (s s' : St) : Prop :=
  exists tr,
    trace s' = trace s ++ tr
    /\ (stored_of tr = []
        \/ exists k, stored_of tr = [k] /\ ticket_jira (self s') = Some k).

(* ================================================================== *)
(** ** Concrete worlds *)
(* ================================================================== *)

Definition cfg0 : Config.t :=
  mkConfig "Datamart Materias Primas"
    (mkSQLServerConfig "INFOCENTRAL" "InfoCentral")
    (mkSQLServerConfig "DEADWH" "TIMonitorSQL")
    (mkSQLServerConfig "SrvCubosOfi" "msdb")
    (mkEmailConfig "SRVMODMEM" "MEM_Profile" "errores@example.com" "exito@example.com")
    (mkJiraConfig "https://jira.example.com" "bot" "token" "DDF")
    (mkPathsConfig "/reportes/" "/compartida/").

Definition boom : exn := mkExn RuntimeError "boom".

Definition fresh_extract : bool * string * option datetime :=
  (true, "Extracto válido: 2.00h", Some (mkDatetime "2024-01-01 10:00" "2024-01-01 04:00")).

Definition stale_extract : bool * string * option datetime :=
  (false, "Extracto desactualizado: 30.00h (máximo: 24h)",
   Some (mkDatetime "2024-01-01 10:00" "2024-01-01 04:00")).

Definition the_datasource : Datasource := mkDatasource "ds-1" "Datamart Materias Primas".

Definition no_differences : list row :=
  [[("DiferenciasOrigenDestino", SqlStr "No hay diferencias contra el origen")]].

Definition two_actions : list row :=
  [ [("NombreUbicacion", SqlStr "A"); ("Accion1", SqlStr "JobA1"); ("Accion2", SqlStr "JobA2")];
    [("NombreUbicacion", SqlStr "B"); ("Accion1", SqlStr "JobB1"); ("Accion2", SqlNull)] ].

Definition stopped_ok : JobActivity := mkJobActivity "2024-01-01 05:15" (Some "2024-01-01 05:20") 1.
Definition stopped_failed : JobActivity := mkJobActivity "2024-01-01 05:15" (Some "2024-01-01 05:16") 0.
Definition still_running : JobActivity := mkJobActivity "2024-01-01 05:15" None 1.

(** Everything works; the inventory has no differences. *)
Definition world_ok : World :=
  mkWorld cfg0
    (fun n => Z.of_nat n * 100)%Z
    (fun _ => "2024-01-01 12:00:00")
    (fun _ => None)
    (fun _ => true)
    (fun _ => None)
    (fun _ => inr ["a.pdf"])
    (fun _ => inr no_differences)
    (fun _ => inr [stopped_ok])
    (fun _ => inr (Some the_datasource))
    (fun _ => inr fresh_extract)
    (fun _ => inr (mkJobItem "job-1" 0 ""))
    (fun _ => inr "DDF-101")
    (fun _ => (true, "8 reportes descargados", ["a.pdf"])).

(** Everything works; the inventory has differences with two actions. *)
Definition world_differences : World :=
  mkWorld cfg0 (clock world_ok) (wall_text world_ok) (observer world_ok) (flag world_ok)
    (effect world_ok) (names world_ok)
    (fun _ => inr two_actions)
    (activity world_ok) (datasource world_ok) (freshness world_ok) (job_item world_ok)
    (issue world_ok) (downloads world_ok).

(** The observer raises on every step. *)
Definition world_observer_raises : World :=
  mkWorld cfg0 (clock world_ok) (wall_text world_ok)
    (fun _ => Some boom)
    (flag world_ok) (effect world_ok) (names world_ok) (rows world_ok)
    (activity world_ok) (datasource world_ok) (freshness world_ok) (job_item world_ok)
    (issue world_ok) (downloads world_ok).

(** The extract is stale and its refresh is cancelled. *)
Definition world_refresh_cancelled : World :=
  mkWorld cfg0 (clock world_ok) (wall_text world_ok) (observer world_ok) (flag world_ok)
    (effect world_ok) (names world_ok) (rows world_ok) (activity world_ok)
    (datasource world_ok)
    (fun _ => inr stale_extract)
    (fun _ => inr (mkJobItem "job-1" 2 ""))
    (issue world_ok) (downloads world_ok).

(** SQL Server rejects every query and Jira rejects every issue. *)
Definition world_sql_and_jira_down : World :=
  mkWorld cfg0 (clock world_ok) (wall_text world_ok) (observer world_ok) (flag world_ok)
    (effect world_ok) (names world_ok)
    (fun _ => inl (mkExn Exception "SQL Server no disponible"))
    (activity world_ok) (datasource world_ok) (freshness world_ok) (job_item world_ok)
    (fun _ => inl (mkExn Exception "Jira no disponible"))
    (downloads world_ok).

(** SQL Server rejects the first and the fourth request it gets and
    accepts the others; a job that was started is found stopped. *)
Definition world_two_starts_rejected : World :=
  mkWorld cfg0 (clock world_ok) (wall_text world_ok) (observer world_ok) (flag world_ok)
    (effect world_ok) (names world_ok)
    (fun k => match k with
              | 0 => inl (mkExn Exception "El job no existe")
              | 3 => inl (mkExn Exception "El job ya esta en ejecucion")
              | _ => inr []
              end)
    (activity world_ok) (datasource world_ok) (freshness world_ok) (job_item world_ok)
    (issue world_ok) (downloads world_ok).

(** A fresh [ReportWorkflow]. *)
Definition st_init : St := mkSt Workflow.init [] 0.

(** A [ReportWorkflow] after an earlier run that failed: it holds the
    step, the start time and the ticket of that run. *)
Definition st_used : St :=
  mkSt (mkReportWorkflow
          [mkStepResult "Enviar Correos" false "SQL Server no disponible" 1 []]
          (Some 0%Z) (Some "DDF-7"))
       [] 3.

(* ================================================================== *)
(** ** Checks on the paths of the full flow *)
(* ================================================================== *)

(** The steps whose failure ends the run. *)
Definition gates : list string :=
  [ "1.1 Refresh Extracto"; "1.2 Revalidar Extracto"; "2.1 Ejecutar Jobs Correctivos";
    "2.2 Actualizar Cubo"; "3. Descargar PDFs"; "4. Copiar a DEADWH";
    "5. Enviar Correos" ]%string.

Definition is_gate (name : string) : bool := existsb (String.eqb name) gates.

Definition failed_gate (x : string * bool) : bool := is_gate (fst x) && negb (snd x).

(** No step is recorded after a failed gate. *)
Fixpoint failed_gate_is_last (sg : Sig) : bool :=
  match sg with
  | [] => true
  | x :: rest =>
      (if failed_gate x then match rest with [] => true | _ => false end else true)
      && failed_gate_is_last rest
  end.

(** A path with a failed gate has verdict false and one escalation. *)
Definition gate_check (a : arun) : bool :=
  let '(sg, b, e, _) := a in
  failed_gate_is_last sg
  && (if existsb failed_gate sg then negb b && Nat.eqb e 1 else true).

Definition inventory_step : string := "2. Validar Inventario SQL".
Definition jobs_step : string := "2.1 Ejecutar Jobs Correctivos".
Definition cube_step : string := "2.2 Actualizar Cubo".
Definition pdf_step : string := "3. Descargar PDFs".

Definition inventory_ok (x : string * bool) : bool :=
  String.eqb (fst x) inventory_step && snd x.

(** The step recorded after a successful inventory validation is the PDF
    download; nothing is recorded after it only when the observer ended
    the run. *)
Fixpoint pdfs_follow_inventory (aborted : bool) (sg : Sig) : bool :=
  match sg with
  | [] => true
  | x :: rest =>
      (if inventory_ok x
       then match rest with
            | [] => aborted
            | y :: _ => String.eqb (fst y) pdf_step
            end
       else true)
      && pdfs_follow_inventory aborted rest
  end.

Definition corrective (x : string * bool) : bool :=
  String.eqb (fst x) jobs_step || String.eqb (fst x) cube_step.

(** A path with a successful inventory validation has no corrective
    step. *)
Definition skip_check (a : arun) : bool :=
  let '(sg, _, _, aborted) := a in
  if existsb inventory_ok sg
  then negb (existsb corrective sg) && pdfs_follow_inventory aborted sg
  else true.

(** A computation that keeps [self.ticket_jira], only adds events of a
    given class, and does not hang; it may change the other fields of
    [self]. *)
Definition stays {A : Type} (P : Event -> bool) (m : M A) : Prop :=
  forall w s, exists o rw tr k,
    m w s = (o, mkSt rw (trace s ++ tr) k)
    /\ forallb P tr = true
    /\ ticket_jira rw = ticket_jira (self s)
    /\ o <> OutOfFuel.

(* ================================================================== *)
(** ** The corrective jobs of an action *)
(* ================================================================== *)

(** The jobs an action names: its [Accion1], then its [Accion2], each when
    truthy. *)
Definition named_jobs (accion : row) : list string :=
  (if sql_truthy (get accion "Accion1" (SqlStr "")) 
   then [sql_str (get accion "Accion1" (SqlStr ""))] else [])
  ++ (if sql_truthy (get accion "Accion2" (SqlStr ""))
      then [sql_str (get accion "Accion2" (SqlStr ""))] else []).

(** The job a cell of an action names: none when the cell is empty
    ([None], [0] or ['']), else the cell, by its text. *)
Definition named_by (cell : sqlval) : list string :=
  match cell with
  | SqlNull => []
  | SqlInt z => if Z.eqb z 0 then [] else [str_Z z]
  | SqlStr name => if String.eqb name "" then [] else [name]
  end.

(** The jobs a list of actions names: action by action, the job of
    [Accion1], then the job of [Accion2]; a missing key names none. *)
Definition attempted (acciones : list row) : list string :=
  flat_map (fun accion =>
              named_by (get accion "Accion1" (SqlStr ""))
              ++ named_by (get accion "Accion2" (SqlStr "")))
           acciones.

Definition job_name_of (r : string * bool * string) : string := fst (fst r).
Definition job_ok (r : string * bool * string) : bool := snd (fst r).

(** The text recorded for a job that failed. *)
Definition failure_text (r : string * bool * string) : list string :=
  if job_ok r then [] else [(job_name_of r ++ ": " ++ snd r)%string].

(* ================================================================== *)
(** ** What a poll loop sees *)
(* ================================================================== *)

(** The answer to a status request for a refresh job that is still going:
    a finish code other than 0, 1 and 2. *)
Definition refresh_pending (a : exn + JobItem) : bool :=
  match a with
  | inr j =>
      negb (Z.eqb (finish_code j) 0) && negb (Z.eqb (finish_code j) 1)
      && negb (Z.eqb (finish_code j) 2)
  | inl _ => false
  end.

(** What the refresh wait yields on an answer that is not pending. *)
Definition refresh_decides (a : exn + JobItem) (o : Outcome (bool * string)) : Prop :=
  match a with
  | inl e => o = Raise e
  | inr j =>
      (finish_code j = 0%Z -> o = Ret (true, "Refresh completado"%string))
      /\ (finish_code j = 1%Z -> o = Ret (false, ("Refresh falló: " ++ notes j)%string))
      /\ (finish_code j = 2%Z -> o = Ret (false, "Refresh cancelado"%string))
  end.

(** The answer to the status query for a job that has not stopped: no
    line, or a first line without stop date. *)
Definition job_pending (a : exn + list JobActivity) : bool :=
  match a with
  | inr [] => true
  | inr (ja :: _) =>
      match stop_execution_date ja with None => true | Some _ => false end
  | inl _ => false
  end.

(** What the job wait yields on an answer that is not pending: the first
    line has a stop date, and that is all the wait looks at. *)
Definition job_decides (a : exn + list JobActivity) (o : Outcome (bool * string)) : Prop :=
  match a with
  | inl e => o = Raise e
  | inr [] => True
  | inr (ja :: _) =>
      stop_execution_date ja <> None ->
      o = Ret (true, "Job completado exitosamente"%string)
  end.

Definition refresh_timeout (max_wait : Z) : Outcome (bool * string) :=
  Ret (false, ("Timeout después de " ++ str_Z max_wait ++ "s")%string).

Definition job_timeout (max_wait : Z) : Outcome (bool * string) :=
  Ret (false, ("Timeout esperando job después de " ++ str_Z max_wait ++ "s")%string).

(** The job stopped in failure, and the status query says so nowhere. *)
Definition world_job_failed : World :=
  mkWorld cfg0 (clock world_ok) (wall_text world_ok) (observer world_ok) (flag world_ok)
    (effect world_ok) (names world_ok) (rows world_ok)
    (fun _ => inr [stopped_failed])
    (datasource world_ok) (freshness world_ok) (job_item world_ok)
    (issue world_ok) (downloads world_ok).

(** The refresh job never finishes. *)
Definition world_refresh_hangs : World :=
  mkWorld cfg0 (clock world_ok) (wall_text world_ok) (observer world_ok) (flag world_ok)
    (effect world_ok) (names world_ok) (rows world_ok) (activity world_ok)
    (datasource world_ok) (freshness world_ok)
    (fun _ => inr (mkJobItem "job-1" (-1) ""))
    (issue world_ok) (downloads world_ok).

(** The events of a round of the refresh wait: a sleep of the fixed
    interval, a status request. *)
Definition refresh_round_event (ev : Event) : bool :=
  match ev with
  | EvSleep z => Z.eqb z TableauClient.wait_interval
  | EvJobStatus _ => true
  | _ => false
  end.

(** The events of a round of the job wait: a sleep of the check interval,
    the status query. *)
Definition job_round_event (interval : Z) (ev : Event) : bool :=
  match ev with
  | EvSleep z => Z.eqb z interval
  | EvQuery _ _ q _ => String.eqb q SQLClient.job_status_query
  | _ => false
  end.

(** A round of the refresh wait on the job [id]: the sleep of the fixed
    interval, then the status request. *)
Definition refresh_round (id : string) : list Event :=
  [EvSleep TableauClient.wait_interval; EvJobStatus id].

(** A round of the job wait: the sleep of the check interval, then the
    status query for the job. *)
Definition job_round (cfg : SQLServerConfig) (name : sqlval) (interval : Z) : list Event :=
  [EvSleep interval;
   EvQuery (sql_server cfg) "msdb" SQLClient.job_status_query [name]].

(* ================================================================== *)
(** ** The step list of a finished run *)
(* ================================================================== *)

(** The step names of the full flow, in the order of the pipeline. *)
Definition pipeline : list string :=
  [ "1. Validar Extracto Tableau"; "1.1 Refresh Extracto"; "1.2 Revalidar Extracto";
    "2. Validar Inventario SQL"; "2.1 Ejecutar Jobs Correctivos"; "2.2 Actualizar Cubo";
    "3. Descargar PDFs"; "4. Copiar a DEADWH"; "5. Enviar Correos" ]%string.

(** [a] is [b] with some entries left out. *)
Fixpoint subsequence (a b : list string) {struct b} : bool :=
  match b with
  | [] => match a with [] => true | _ :: _ => false end
  | y :: b' =>
      match a with
      | [] => true
      | x :: a' => if String.eqb x y then subsequence a' b' else subsequence a b'
      end
  end.

(** The step names of a path follow the pipeline. *)
Definition order_check (a : arun) : bool :=
  let '(sg, _, _, _) := a in subsequence (List.map fst sg) pipeline.

(** The two validations, whose failure does not end the full flow. *)
Definition is_validation (name : string) : bool :=
  String.eqb name "1. Validar Extracto Tableau" || String.eqb name inventory_step.

(** A step list, last step first, that ends with the download, the copy
    and the mails, all successful, and whose failed steps are
    validations. *)
Definition delivered (reversed : Sig) : bool :=
  match reversed with
  | (n5, ok5) :: (n4, ok4) :: (n3, ok3) :: rest =>
      String.eqb n5 "5. Enviar Correos" && ok5
      && String.eqb n4 "4. Copiar a DEADWH" && ok4
      && String.eqb n3 pdf_step && ok3
      && forallb (fun x => snd x || is_validation (fst x)) rest
  | _ => false
  end.

(** A path with verdict true has delivered, without escalation and
    without an exception of the observer. *)
Definition success_check (a : arun) : bool :=
  let '(sg, b, e, aborted) := a in
  if b then delivered (rev sg) && Nat.eqb e 0 && negb aborted else true.

(** How a send-only run ends: the mails went out and the observer kept
    quiet; or the stored procedure failed; or the observer raised, whatever
    the stored procedure did. *)
Definition send_verdict (w : World) (o : Outcome (bool * string)) (sm : Summary) : Prop :=
  exists b msg r,
    o = Ret (b, msg)
    /\ sm_steps sm = [r]
    /\ nombre r = "Enviar Correos"%string
    /\ ((b = true /\ success r = true
         /\ sm_tickets sm = [] /\ sm_alerts sm = [] /\ sm_summaries sm = [[r]]
         /\ exists t, msg = ("Correos enviados exitosamente en " ++ fmt_2f t ++ "s")%string)
        \/ (b = false /\ success r = false /\ msg = mensaje r
            /\ sm_tickets sm
               = [("[AUTO] Error en Reportes MP: Envío de Correos"%string, mensaje r)]
            /\ sm_summaries sm = [])
        \/ (b = false /\ (exists e k, observer w k = Some e /\ msg = str e)
            /\ sm_tickets sm = [("[AUTO] Error en Reportes MP: Error Inesperado"%string, msg)]
            /\ sm_summaries sm = [])).

(** SQL Server rejects every query; Jira works. *)
Definition world_sql_down : World :=
  mkWorld cfg0 (clock world_ok) (wall_text world_ok) (observer world_ok) (flag world_ok)
    (effect world_ok) (names world_ok)
    (fun _ => inl (mkExn Exception "SQL Server no disponible"))
    (activity world_ok) (datasource world_ok) (freshness world_ok) (job_item world_ok)
    (issue world_ok) (downloads world_ok).

(* ================================================================== *)
(** ** States named in the statements *)
(* ================================================================== *)

(** The state after one external call [ev] that the world answered. *)
Definition asked (s : St) (ev : Event) : St :=
  mkSt (self s) (trace s ++ [ev]) (S (tick s)).

(** The state after an event that asks the world nothing. *)
Definition logged (s : St) (ev : Event) : St :=
  mkSt (self s) (trace s ++ [ev]) (tick s).

(** Whether the sign-in answered at tick [k] succeeds. *)
Definition signs_in (w : World) (k : nat) : bool :=
  match effect w k with
  | None => true
  | Some _ => false
  end.

(** Requests to Tableau Server that need a session. *)
Definition tableau_request (ev : Event) : bool :=
  match ev with
  | EvSignOut | EvFindDatasource _ | EvFreshness _ | EvRefresh _ | EvJobStatus _
  | EvDownloadAll _ => true
  | _ => false
  end.

(** Tableau Server refuses the sign-in (the second external call of a
    run); everything else works. *)
Definition world_no_sign_in : World :=
  mkWorld cfg0 (clock world_ok) (wall_text world_ok) (observer world_ok) (flag world_ok)
    (fun k => if Nat.eqb k 1 then Some (mkExn Exception "401001: Signin Error") else None)
    (names world_ok) (rows world_ok) (activity world_ok) (datasource world_ok)
    (freshness world_ok) (job_item world_ok) (issue world_ok) (downloads world_ok).

(* ================================================================== *)
(** ** What the SQL clients send and see *)
(* ================================================================== *)

(** The call of the inventory procedure in one of its two modes, as it
    reaches the server. *)
Definition inventory_call (cfg : SQLServerConfig) (mode : string) : Event :=
  EvQuery (sql_server cfg) (sql_database cfg)
          "EXEC [db_owner].[RevisarProcesodeInventarioFinalDiario] %s" [SqlStr mode].

(** The first row of the answer says that origin and destination agree. *)
Definition reports_no_differences (result : list row) : bool :=
  match result with
  | first :: _ =>
      SQLClient.is_text (get first "DiferenciasOrigenDestino" SqlNull)
                        "No hay diferencias contra el origen"
  | [] => false
  end.

(** The call of the mailing procedure, as it reaches the server. *)
Definition mailing_call (cfg : SQLServerConfig) (es_prueba reporte : Z) : Event :=
  EvQuery (sql_server cfg) (sql_database cfg)
          "EXEC [dbo].[TiEnvioReportesTableauProc] %s, %s"
          [SqlInt es_prueba; SqlInt reporte].

(** The request to start an agent job, as it reaches the server. *)
Definition start_call (cfg : SQLServerConfig) (job_name : string) : Event :=
  EvQuery (sql_server cfg) "msdb" "EXEC msdb.dbo.sp_start_job @job_name = %s"
          [SqlStr job_name].

(** When [execute_job] is done right after the start request, and with
    what: the request failed, or the caller does not wait, or there is no
    time to wait. *)
Definition immediate_result (answer : exn + list row) (wait_for_completion : bool)
    (max_wait : Z) : option (bool * string) :=
  match answer with
  | inl e => Some (false, str e)
  | inr _ =>
      if negb wait_for_completion then Some (true, "Job iniciado (sin esperar)"%string)
      else if Z.leb max_wait 0
           then Some (false, ("Timeout esperando job después de "
                              ++ str_Z max_wait ++ "s")%string)
           else None
  end.

(** The job never stops. *)
Definition world_job_running : World :=
  mkWorld cfg0 (clock world_ok) (wall_text world_ok) (observer world_ok) (flag world_ok)
    (effect world_ok) (names world_ok) (rows world_ok)
    (fun _ => inr [still_running])
    (datasource world_ok) (freshness world_ok) (job_item world_ok)
    (issue world_ok) (downloads world_ok).

(* ================================================================== *)
(** ** What [refresh_extracto] reports *)
(* ================================================================== *)

(** What [refresh_extracto] returns on the first answer to a status
    request that is not pending: an error of the request becomes a
    failure with its text. *)
Definition refresh_reports (a : exn + JobItem) (ok : bool) (msg : string) : Prop :=
  match a with
  | inl e => ok = false /\ msg = str e
  | inr j =>
      (finish_code j = 0%Z -> ok = true /\ msg = "Refresh completado"%string)
      /\ (finish_code j = 1%Z ->
          ok = false /\ msg = ("Refresh falló: " ++ notes j)%string)
      /\ (finish_code j = 2%Z -> ok = false /\ msg = "Refresh cancelado"%string)
  end.

(** The refresh job is still going at the first status request; the
    second status request fails. *)
Definition world_status_fails : World :=
  mkWorld cfg0 (clock world_ok) (wall_text world_ok) (observer world_ok) (flag world_ok)
    (effect world_ok) (names world_ok) (rows world_ok) (activity world_ok)
    (datasource world_ok) (freshness world_ok)
    (fun k => match k with
              | 3 => inl (mkExn Exception "Tableau Server no responde")
              | _ => inr (mkJobItem "job-1" (-1) "")
              end)
    (issue world_ok) (downloads world_ok).

(* ================================================================== *)
(** ** The files of a run *)
(* ================================================================== *)

(** The removal of an entry of a folder, and the copy of an entry from
    the source folder to the destination. *)
Definition removal (path f : string) : Event := EvRemove (path_join path f).

Definition copy_of (source dest f : string) : Event :=
  EvCopy (path_join source f) (path_join dest f).

(** The cleaning of the destination, from the [k]-th answer of the world
    on: every entry of the listing is tested, in order, and removed when
    the test says it is a file. *)
Fixpoint cleaning (w : World) (dest : string) (old : list string) (k : nat) : list Event :=
  match old with
  | [] => []
  | f :: rest =>
      if flag w k
      then EvIsFile (path_join dest f) :: EvRemove (path_join dest f)
           :: cleaning w dest rest (S (S k))
      else EvIsFile (path_join dest f) :: cleaning w dest rest (S k)
  end.

(** The first block of [_descargar_pdfs]: the source folder is emptied,
    or created when it does not exist. *)
Definition clean_source (source_path : string) : M unit :=
  (present <- ask flag (EvExists source_path) ;;
   if present : bool
   then files <- ask_exn names (EvListDir source_path) ;;
        Workflow.remove_each source_path files
   else ask_effect (EvMakeDirs source_path))%monad.

(** What the first block of [_descargar_pdfs] has done when it went
    through, started in [s]: when the folder exists, it was listed and
    every entry of the listing was removed, in order; else it was
    created. *)
Definition prepared (w : World) (s : St) (source_path : string) (prep : list Event)
    : Prop :=
  if flag w (tick s)
  then exists files,
         names w (S (tick s)) = inr files
         /\ prep = EvExists source_path :: EvListDir source_path
                   :: List.map (removal source_path) files
  else prep = [EvExists source_path; EvMakeDirs source_path].

(* ================================================================== *)
(** ** Tickets and mails *)
(* ================================================================== *)

(** What a mail function returns, from the answer of the relay. *)
Definition relay_result (answer : option exn) : bool * string :=
  match answer with
  | None => (true, "Email enviado exitosamente"%string)
  | Some e => (false, str e)
  end.

(** The state after a mail function: the time was read, the relay was
    called. *)
Definition mailed (s : St) (call : list Event) (recipients subject : string) : St :=
  mkSt (self s) (trace s ++ call ++ [EvNow; EvDbMail recipients subject]) (S (S (tick s))).

(** The subject of a summary. *)
Definition summary_subject (exito : bool) (fecha : string) : string :=
  ((if exito then "✅" else "❌") ++ " Resumen Reportes MP: "
   ++ (if exito then "EXITOSO" else "FALLIDO") ++ " - " ++ fecha)%string.

(** The Jira account has no API token. *)
Definition cfg_no_token : Config.t :=
  mkConfig "Datamart Materias Primas"
    (mkSQLServerConfig "INFOCENTRAL" "InfoCentral")
    (mkSQLServerConfig "DEADWH" "TIMonitorSQL")
    (mkSQLServerConfig "SrvCubosOfi" "msdb")
    (mkEmailConfig "SRVMODMEM" "MEM_Profile" "errores@example.com" "exito@example.com")
    (mkJiraConfig "https://jira.example.com" "bot" "" "DDF")
    (mkPathsConfig "/reportes/" "/compartida/").

Definition world_no_token : World :=
  mkWorld cfg_no_token (clock world_ok) (wall_text world_ok) (observer world_ok)
    (flag world_ok) (effect world_ok) (names world_ok) (rows world_ok) (activity world_ok)
    (datasource world_ok) (freshness world_ok) (job_item world_ok) (issue world_ok)
    (downloads world_ok).

(* ================================================================== *)
(** ** The reports of a day *)
(* ================================================================== *)

(** The five files a day's download writes, whatever the day. *)
Definition aliases : list string :=
  [ "Reporte Costo Puesto en Patios";
    "Reporte Inventario Diario";
    "Reporte Compra Chatarra Prom Dia Habil";
    "Reporte de Compras e Inventario por Tipo de Material";
    "Reporte NUEVO Patios - Compras Nacionales + Importaciones" ]%string.

(** The five workbooks asked for on a day. *)
Definition workbooks (d : Reportes.Today) : list string :=
  let monday := Nat.eqb (Reportes.weekday d) 0 in
  let first := Nat.eqb (Reportes.day d) 1 in
  [ if monday then "Reporte Costo Puesto en Patios (Inicio Semana)"
    else "Reporte Costo Puesto en Patios";
    "Reporte Inventario Diario";
    if first then "Reporte Compra Chatarra Prom Dia Habil Dia Primero"
    else "Reporte Compra Chatarra Prom Dia Habil";
    "Reporte de Compras e Inventario por Tipo de Material";
    if monday then "Reporte NUEVO Patios - Compras Nacionales + Importaciones_InicioSem"
    else "Reporte NUEVO Patios - Compras Nacionales + Importaciones" ]%string.

(** The reports whose condition holds. *)
Definition selected (rs : list Reportes.Reporte) : list Reportes.Reporte :=
  List.filter Reportes.condition rs.

(** A Monday that is the first of the month. *)
Definition monday_the_first : Reportes.Today := Reportes.mkToday 0 1.

(** A download that always works. *)
Definition descarga_ok (workbook_name output_path orientation : string)
    : M (bool * string) :=
  ret (true, output_path).

(** How a validation-only run ends when the observer keeps quiet: the
    verdict is the last recorded step, and the steps are the validation
    alone (valid), the validation and the refresh (refresh failed), or
    the validation, the refresh and the revalidation. *)
Definition validation_verdict (w : World) (o : Outcome (bool * string)) (sm : Summary)
    : Prop :=
  (exists e k, o = Raise e /\ observer w k = Some e)
  \/ exists last,
       o = Ret (success last, mensaje last)
       /\ ((sm_steps sm = [last]
            /\ nombre last = "Validar Extracto Tableau"%string /\ success last = true)
           \/ (exists v,
                 sm_steps sm = [v; last]
                 /\ nombre v = "Validar Extracto Tableau"%string /\ success v = false
                 /\ nombre last = "Refresh Extracto"%string /\ success last = false)
           \/ (exists v r,
                 sm_steps sm = [v; r; last]
                 /\ nombre v = "Validar Extracto Tableau"%string /\ success v = false
                 /\ nombre r = "Refresh Extracto"%string /\ success r = true
                 /\ nombre last = "Revalidar Extracto"%string)).

(* ================================================================== *)
(** ** The inventory step of the full flow *)
(* ================================================================== *)

(** The block of [run_full] that runs when the inventory has
    differences: the corrective jobs, then the cube. *)
Definition corrections (infocentral : SQLServerConfig) (acciones : pyval)
    : Workflow.Block :=
  (result <- Workflow._execute_step "2.1 Ejecutar Jobs Correctivos"
               (rs <- Workflow.rows_of acciones ;;
                Workflow._ejecutar_jobs_correctivos infocentral rs) ;;
   if negb (success result) then
     Workflow.escalate_and_return "Jobs Correctivos" "Error en jobs correctivos: " result
   else
     cubosofi <- SQLClient.CubosOfiClient ;;
     result <- Workflow._execute_step "2.2 Actualizar Cubo"
                 (Workflow.with_empty_details
                    (SQLClient.ejecutar_job_inventario cubosofi)) ;;
     if negb (success result) then
       Workflow.escalate_and_return "Actualización de Cubo" "Error actualizando cubo: "
                                    result
     else ret None)%monad.

(** The job of the cube. *)
Definition cube_job : string := "BI Inventario Chatarra 5:15 am".

(** Events that start no job. *)
Definition starts_no_job (ev : Event) : bool :=
  match ev with
  | EvExecuteJob _ => false
  | _ => true
  end.

(* ================================================================== *)
(** ** How long a wait sleeps *)
(* ================================================================== *)

(** The sleeps of a trace, in seconds. *)
Definition sleeps_of (tr : list Event) : list Z :=
  flat_map (fun ev => match ev with EvSleep z => [z] | _ => [] end) tr.

(** [n] rounds of a wait that started at [total]: the last one began
    before the maximum was reached. *)
Definition within (n : nat) (interval max_wait total : Z) : Prop :=
  n = 0 \/ (total + (Z.of_nat n - 1) * interval < max_wait)%Z.
(* ================================================================== *)
(** * Part II: reasoning about the model *)
(* ================================================================== *)


(** ** Traces *)

Section TraceFacts.

Variables (B : Type) (f : Event -> list B).

Lemma flat_map_silent (P : Event -> bool) (tr : list Event) :
  (forall ev, P ev = true -> f ev = []) ->
  forallb P tr = true -> flat_map f tr = [].
Proof.
  intros HP. induction tr as [|ev tr IH]; simpl; intros H; [reflexivity|].
  apply andb_prop in H. destruct H as [H1 H2].
  rewrite (HP ev H1), (IH H2). reflexivity.
Qed.

End TraceFacts.

Lemma tickets_of_app a b : tickets_of (a ++ b) = tickets_of a ++ tickets_of b.
Proof. apply flat_map_app. Qed.

Lemma alerts_of_app a b : alerts_of (a ++ b) = alerts_of a ++ alerts_of b.
Proof. apply flat_map_app. Qed.

Lemma stored_of_app a b : stored_of (a ++ b) = stored_of a ++ stored_of b.
Proof. apply flat_map_app. Qed.

Lemma observed_of_app a b : observed_of (a ++ b) = observed_of a ++ observed_of b.
Proof. apply flat_map_app. Qed.

Lemma summaries_of_app a b : summaries_of (a ++ b) = summaries_of a ++ summaries_of b.
Proof. apply flat_map_app. Qed.

Lemma jobs_of_app a b : jobs_of (a ++ b) = jobs_of a ++ jobs_of b.
Proof. apply flat_map_app. Qed.

Lemma results_of_app a b : results_of (a ++ b) = results_of a ++ results_of b.
Proof. apply flat_map_app. Qed.

Lemma poll_is_operation ev : poll_event ev = true -> operation_event ev = true.
Proof. destruct ev; simpl; congruence. Qed.

Lemma poll_jobs tr : forallb poll_event tr = true -> jobs_of tr = [].
Proof. apply flat_map_silent. intros []; simpl; congruence. Qed.

Lemma poll_results tr : forallb poll_event tr = true -> results_of tr = [].
Proof. apply flat_map_silent. intros []; simpl; congruence. Qed.

Lemma forallb_weaken (P Q : Event -> bool) (tr : list Event) :
  (forall ev, P ev = true -> Q ev = true) ->
  forallb P tr = true -> forallb Q tr = true.
Proof.
  intros HPQ H. rewrite forallb_forall in *. auto.
Qed.

Lemma tableau_is_operation ev : tableau_event ev = true -> operation_event ev = true.
Proof. destruct ev; simpl; congruence. Qed.

Lemma tableau_is_validation ev : tableau_event ev = true -> validation_event ev = true.
Proof. destruct ev; simpl; congruence. Qed.

Lemma operation_tickets tr : forallb operation_event tr = true -> tickets_of tr = [].
Proof. apply flat_map_silent. intros []; simpl; congruence. Qed.

Lemma operation_alerts tr : forallb operation_event tr = true -> alerts_of tr = [].
Proof. apply flat_map_silent. intros []; simpl; congruence. Qed.

Lemma operation_stored tr : forallb operation_event tr = true -> stored_of tr = [].
Proof. apply flat_map_silent. intros []; simpl; congruence. Qed.

Lemma operation_observed tr : forallb operation_event tr = true -> observed_of tr = [].
Proof. apply flat_map_silent. intros []; simpl; congruence. Qed.

Lemma operation_summaries tr : forallb operation_event tr = true -> summaries_of tr = [].
Proof. apply flat_map_silent. intros []; simpl; congruence. Qed.

Lemma relay_tickets tr : forallb relay_event tr = true -> tickets_of tr = [].
Proof. apply flat_map_silent. intros []; simpl; congruence. Qed.

Lemma relay_alerts tr : forallb relay_event tr = true -> alerts_of tr = [].
Proof. apply flat_map_silent. intros []; simpl; congruence. Qed.

Lemma relay_stored tr : forallb relay_event tr = true -> stored_of tr = [].
Proof. apply flat_map_silent. intros []; simpl; congruence. Qed.

Lemma relay_observed tr : forallb relay_event tr = true -> observed_of tr = [].
Proof. apply flat_map_silent. intros []; simpl; congruence. Qed.

Lemma relay_summaries tr : forallb relay_event tr = true -> summaries_of tr = [].
Proof. apply flat_map_silent. intros []; simpl; congruence. Qed.

Lemma validation_tickets tr : forallb validation_event tr = true -> tickets_of tr = [].
Proof. apply flat_map_silent. intros []; simpl; congruence. Qed.

Lemma validation_alerts tr : forallb validation_event tr = true -> alerts_of tr = [].
Proof. apply flat_map_silent. intros []; simpl; congruence. Qed.

Lemma validation_stored tr : forallb validation_event tr = true -> stored_of tr = [].
Proof. apply flat_map_silent. intros []; simpl; congruence. Qed.

(** ** Confined computations *)

Lemma St_eta s : mkSt (self s) (trace s) (tick s) = s.
Proof. destruct s; reflexivity. Qed.

Lemma ReportWorkflow_eta o :
  mkReportWorkflow (steps o) (start_time o) (ticket_jira o) = o.
Proof. destruct o; reflexivity. Qed.

Section Confined.

Variable P : Event -> bool.

Lemma confined_ret {A} (a : A) : confined P (ret a).
Proof.
  intros w s. exists (Ret a), [], (tick s). rewrite app_nil_r, St_eta.
  repeat split; discriminate.
Qed.

Lemma confined_raise {A} (e : exn) : confined P (@raise A e).
Proof.
  intros w s. exists (Raise e), [], (tick s). rewrite app_nil_r, St_eta.
  repeat split; discriminate.
Qed.

Lemma confined_get_config : confined P get_config.
Proof.
  intros w s. exists (Ret (config w)), [], (tick s). rewrite app_nil_r, St_eta.
  repeat split; discriminate.
Qed.

Lemma confined_bind {A B} (m : M A) (k : A -> M B) :
  confined P m -> (forall a, confined P (k a)) -> confined P (bind m k).
Proof.
  intros Hm Hk w s. unfold bind.
  destruct (Hm w s) as (o & tr & n & E & Htr & Ho). rewrite E.
  destruct o as [a|e|]; [| |congruence].
  - destruct (Hk a w (mkSt (self s) (trace s ++ tr) n)) as (o2 & tr2 & n2 & E2 & Htr2 & Ho2).
    simpl in E2. rewrite E2. exists o2, (tr ++ tr2), n2.
    rewrite app_assoc, forallb_app, Htr, Htr2. auto.
  - exists (Raise e), tr, n. repeat split; auto. discriminate.
Qed.

Lemma confined_try {A} (m : M A) (h : exn -> M A) :
  confined P m -> (forall e, confined P (h e)) -> confined P (try_except m h).
Proof.
  intros Hm Hh w s. unfold try_except.
  destruct (Hm w s) as (o & tr & n & E & Htr & Ho). rewrite E.
  destruct o as [a|e|]; [| |congruence].
  - exists (Ret a), tr, n. repeat split; auto.
  - destruct (Hh e w (mkSt (self s) (trace s ++ tr) n)) as (o2 & tr2 & n2 & E2 & Htr2 & Ho2).
    simpl in E2. rewrite E2. exists o2, (tr ++ tr2), n2.
    rewrite app_assoc, forallb_app, Htr, Htr2. auto.
Qed.

Lemma confined_finally {A} (m : M A) (fin : M unit) :
  confined P m -> confined P fin -> confined P (finally m fin).
Proof.
  intros Hm Hf w s. unfold finally.
  destruct (Hm w s) as (o & tr & n & E & Htr & Ho). rewrite E.
  destruct (Hf w (mkSt (self s) (trace s ++ tr) n)) as (o2 & tr2 & n2 & E2 & Htr2 & Ho2).
  simpl in E2.
  destruct o as [a|e|]; [| |congruence]; rewrite E2;
    destruct o2 as [[]|e2|]; try congruence;
    eexists _, (tr ++ tr2), n2;
    rewrite app_assoc, forallb_app, Htr, Htr2; repeat split; discriminate.
Qed.

Lemma confined_emit ev : P ev = true -> confined P (emit ev).
Proof.
  intros H w s. exists (Ret tt), [ev], (tick s). simpl. rewrite H.
  repeat split. discriminate.
Qed.

Lemma confined_ask {A} (oracle : World -> nat -> A) ev :
  P ev = true -> confined P (ask oracle ev).
Proof.
  intros H w s. exists (Ret (oracle w (tick s))), [ev], (S (tick s)). simpl. rewrite H.
  repeat split. discriminate.
Qed.

Lemma confined_ask_exn {A} (oracle : World -> nat -> exn + A) ev :
  P ev = true -> confined P (ask_exn oracle ev).
Proof.
  intros H. unfold ask_exn. apply confined_bind; [apply confined_ask; exact H|].
  intros [e|a]; [apply confined_raise|apply confined_ret].
Qed.

Lemma confined_ask_effect ev : P ev = true -> confined P (ask_effect ev).
Proof.
  intros H. unfold ask_effect. apply confined_bind; [apply confined_ask; exact H|].
  intros [e|]; [apply confined_raise|apply confined_ret].
Qed.

Lemma confined_time_sleep z : P (EvSleep z) = true -> confined P (time_sleep z).
Proof.
  intros H. unfold time_sleep. destruct (Z.ltb z 0);
    [apply confined_raise|apply confined_emit; exact H].
Qed.

End Confined.

Lemma confined_weaken {A} (P Q : Event -> bool) (m : M A) :
  (forall ev, P ev = true -> Q ev = true) -> confined P m -> confined Q m.
Proof.
  intros HPQ Hm w s. destruct (Hm w s) as (o & tr & n & E & Htr & Ho).
  exists o, tr, n. repeat split; auto. eapply forallb_weaken; eauto.
Qed.

Create HintDb confined.

Ltac confine :=
  repeat first
    [ solve [auto with confined]
    | apply confined_ret
    | apply confined_raise
    | apply confined_get_config
    | apply confined_emit; reflexivity
    | apply confined_ask; reflexivity
    | apply confined_ask_exn; reflexivity
    | apply confined_ask_effect; reflexivity
    | apply confined_time_sleep; reflexivity
    | apply confined_bind; [|intros ?]
    | apply confined_try; [|intros ?]
    | apply confined_finally
    | match goal with
      | |- confined _ (if ?b then _ else _) => destruct b
      | |- confined _ (match ?x with _ => _ end) => destruct x
      end ].

(** ** The SQL clients poll within queries and sleeps *)

Lemma execute_query_confined cfg q ps db :
  confined poll_event (SQLClient.execute_query cfg q ps db).
Proof. unfold SQLClient.execute_query. confine. Qed.
#[export] Hint Resolve execute_query_confined : confined.

Lemma execute_sp_confined cfg sp ps db :
  confined poll_event (SQLClient.execute_sp cfg sp ps db).
Proof. unfold SQLClient.execute_sp. confine. Qed.
#[export] Hint Resolve execute_sp_confined : confined.

Lemma query_job_status_confined cfg name :
  confined poll_event (SQLClient.query_job_status cfg name).
Proof. unfold SQLClient.query_job_status. confine. Qed.
#[export] Hint Resolve query_job_status_confined : confined.

(** With a positive interval, fuel for the remaining wait is enough. *)
Lemma wait_job_confined fuel cfg name interval max_wait total :
  (0 < interval)%Z ->
  (max_wait - total <= Z.of_nat fuel * interval)%Z ->
  confined poll_event (SQLClient.wait_job fuel cfg name interval max_wait total).
Proof.
  intros Hpos. revert total.
  induction fuel as [|fuel IH]; intros total Hfuel; simpl;
    destruct (Z.ltb_spec total max_wait) as [Hlt|Hge]; try solve [confine].
  - exfalso. simpl in Hfuel. lia.
  - assert (Hnext : (max_wait - (total + interval) <= Z.of_nat fuel * interval)%Z) by lia.
    specialize (IH _ Hnext). confine.
Qed.

Lemma poll_budget_enough interval max_wait :
  (0 < interval)%Z ->
  (max_wait - 0 <= Z.of_nat (SQLClient.poll_budget interval max_wait) * interval)%Z.
Proof.
  intros Hpos. unfold SQLClient.poll_budget.
  destruct (Z.le_gt_cases 0 max_wait) as [Hnn|Hneg].
  - rewrite Nat2Z.inj_succ, Z2Nat.id by (apply Z.div_pos; lia).
    pose proof (Z.mod_pos_bound max_wait interval Hpos).
    pose proof (Z.div_mod max_wait interval ltac:(lia)). nia.
  - assert (0 <= Z.of_nat (S (Z.to_nat (max_wait / interval))) * interval)%Z by nia. lia.
Qed.

Lemma execute_job_fuel_confined fuel cfg name wait interval max_wait :
  (0 < interval)%Z ->
  (max_wait - 0 <= Z.of_nat fuel * interval)%Z ->
  confined operation_event (SQLClient.execute_job_fuel fuel cfg name wait interval max_wait).
Proof.
  intros Hpos Hfuel. unfold SQLClient.execute_job_fuel.
  pose proof (confined_weaken _ _ _ poll_is_operation
                (wait_job_confined fuel cfg name interval max_wait 0 Hpos Hfuel)).
  confine.
Qed.

Lemma execute_job_confined cfg name :
  confined operation_event (SQLClient.execute_job cfg name).
Proof.
  unfold SQLClient.execute_job.
  apply execute_job_fuel_confined; [lia|apply poll_budget_enough; lia].
Qed.
#[export] Hint Resolve execute_job_confined : confined.

Lemma validar_inventario_confined cfg :
  confined operation_event (SQLClient.validar_inventario cfg).
Proof. unfold SQLClient.validar_inventario. confine. Qed.
#[export] Hint Resolve validar_inventario_confined : confined.

Lemma enviar_reportes_confined cfg a b :
  confined operation_event (SQLClient.enviar_reportes cfg a b).
Proof. unfold SQLClient.enviar_reportes. confine. Qed.
#[export] Hint Resolve enviar_reportes_confined : confined.

Lemma ejecutar_job_inventario_confined cfg :
  confined operation_event (SQLClient.ejecutar_job_inventario cfg).
Proof. unfold SQLClient.ejecutar_job_inventario. confine. Qed.
#[export] Hint Resolve ejecutar_job_inventario_confined : confined.

(** ** The Tableau client stays within the Tableau events *)

Lemma connect_confined : confined tableau_event TableauClient.connect.
Proof. unfold TableauClient.connect. confine. Qed.
#[export] Hint Resolve connect_confined : confined.

Lemma disconnect_confined t : confined tableau_event (TableauClient.disconnect t).
Proof. unfold TableauClient.disconnect. confine. Qed.
#[export] Hint Resolve disconnect_confined : confined.

Lemma find_datasource_confined t name :
  confined tableau_event (TableauClient.find_datasource t name).
Proof. unfold TableauClient.find_datasource. confine. Qed.
#[export] Hint Resolve find_datasource_confined : confined.

Lemma validar_extracto_confined t :
  confined tableau_event (TableauClient.validar_extracto t).
Proof. unfold TableauClient.validar_extracto. confine. Qed.
#[export] Hint Resolve validar_extracto_confined : confined.

Lemma wait_refresh_confined fuel job max_wait total :
  (max_wait - total <= Z.of_nat fuel * TableauClient.wait_interval)%Z ->
  confined tableau_event (TableauClient.wait_refresh fuel job max_wait total).
Proof.
  revert job total. unfold TableauClient.wait_interval.
  induction fuel as [|fuel IH]; intros job total Hfuel; simpl;
    destruct (Z.ltb_spec total max_wait) as [Hlt|Hge]; try solve [confine].
  - exfalso. simpl in Hfuel. lia.
  - assert (Hnext : forall j,
        confined tableau_event
          (TableauClient.wait_refresh fuel j max_wait (total + TableauClient.wait_interval))).
    { intros j. apply IH. unfold TableauClient.wait_interval. lia. }
    confine.
Qed.

Lemma refresh_extracto_fuel_confined fuel t max_wait :
  (max_wait - 0 <= Z.of_nat fuel * TableauClient.wait_interval)%Z ->
  confined tableau_event (TableauClient.refresh_extracto_fuel fuel t max_wait).
Proof.
  intros Hfuel. unfold TableauClient.refresh_extracto_fuel.
  pose proof (fun j => wait_refresh_confined fuel j max_wait 0 Hfuel).
  confine.
Qed.

Lemma refresh_extracto_confined t :
  confined tableau_event (TableauClient.refresh_extracto t).
Proof.
  unfold TableauClient.refresh_extracto.
  apply refresh_extracto_fuel_confined, poll_budget_enough.
  unfold TableauClient.wait_interval. lia.
Qed.
#[export] Hint Resolve refresh_extracto_confined : confined.

Lemma descargar_todos_reportes_confined t dir :
  confined tableau_event (TableauClient.descargar_todos_reportes t dir).
Proof. unfold TableauClient.descargar_todos_reportes. confine. Qed.
#[export] Hint Resolve descargar_todos_reportes_confined : confined.

Lemma poll_within_operation {A} (m : M A) :
  confined poll_event m -> confined operation_event m.
Proof. apply confined_weaken, poll_is_operation. Qed.

Lemma tableau_within_operation {A} (m : M A) :
  confined tableau_event m -> confined operation_event m.
Proof. apply confined_weaken, tableau_is_operation. Qed.

Lemma tableau_within_validation {A} (m : M A) :
  confined tableau_event m -> confined validation_event m.
Proof. apply confined_weaken, tableau_is_validation. Qed.

(** ** The step operations of the orchestrator *)

Lemma op_validar_confined t : confined tableau_event (Workflow.op_validar t).
Proof. unfold Workflow.op_validar. confine. Qed.
#[export] Hint Resolve op_validar_confined : confined.

Lemma with_empty_details_confined P (pair : M (bool * string)) :
  confined P pair -> confined P (Workflow.with_empty_details pair).
Proof. intros H. unfold Workflow.with_empty_details. confine. Qed.
#[export] Hint Resolve with_empty_details_confined : confined.

Lemma _validar_inventario_confined cfg :
  confined operation_event (Workflow._validar_inventario cfg).
Proof. unfold Workflow._validar_inventario. confine. Qed.
#[export] Hint Resolve _validar_inventario_confined : confined.

Lemma run_named_job_confined cfg v errores :
  confined operation_event (Workflow.run_named_job cfg v errores).
Proof. unfold Workflow.run_named_job. confine. Qed.
#[export] Hint Resolve run_named_job_confined : confined.

Lemma jobs_loop_confined cfg acciones errores :
  confined operation_event (Workflow.jobs_loop cfg acciones errores).
Proof.
  revert errores. induction acciones as [|a rest IH]; intros errores; simpl; confine.
Qed.
#[export] Hint Resolve jobs_loop_confined : confined.

Lemma _ejecutar_jobs_correctivos_confined cfg acciones :
  confined operation_event (Workflow._ejecutar_jobs_correctivos cfg acciones).
Proof. unfold Workflow._ejecutar_jobs_correctivos. confine. Qed.
#[export] Hint Resolve _ejecutar_jobs_correctivos_confined : confined.

Lemma rows_of_confined P v : confined P (Workflow.rows_of v).
Proof. unfold Workflow.rows_of. confine. Qed.
#[export] Hint Resolve rows_of_confined : confined.

Lemma remove_each_confined path files :
  confined operation_event (Workflow.remove_each path files).
Proof. induction files as [|f rest IH]; simpl; confine. Qed.
#[export] Hint Resolve remove_each_confined : confined.

Lemma _descargar_pdfs_confined t : confined operation_event (Workflow._descargar_pdfs t).
Proof.
  unfold Workflow._descargar_pdfs.
  pose proof (fun dir => tableau_within_operation _
                (descargar_todos_reportes_confined t dir)).
  confine.
Qed.
#[export] Hint Resolve _descargar_pdfs_confined : confined.

Lemma remove_files_confined dest files :
  confined operation_event (Workflow.remove_files dest files).
Proof. induction files as [|f rest IH]; simpl; confine. Qed.
#[export] Hint Resolve remove_files_confined : confined.

Lemma copy_each_confined source dest files copiados :
  confined operation_event (Workflow.copy_each source dest files copiados).
Proof. revert copiados. induction files as [|f rest IH]; intros copiados; simpl; confine. Qed.
#[export] Hint Resolve copy_each_confined : confined.

Lemma _copiar_archivos_confined : confined operation_event Workflow._copiar_archivos.
Proof. unfold Workflow._copiar_archivos. confine. Qed.
#[export] Hint Resolve _copiar_archivos_confined : confined.

(** ** Escalation: the ticket, the alert, the summary *)

Ltac reassoc := repeat rewrite <- app_assoc; simpl.

Lemma _send_via_dbmail_spec recipients subject w s :
  exists res,
    Notifier._send_via_dbmail recipients subject w s
    = (Ret res, mkSt (self s) (trace s ++ [EvDbMail recipients subject]) (S (tick s))).
Proof.
  unfold Notifier._send_via_dbmail, try_except, bind, ask_effect, bind, ask. simpl.
  destruct (effect w (tick s)); simpl; eexists; reflexivity.
Qed.

(** The mail of an alert, as handed to the relay. *)
Lemma enviar_alerta_error_spec titulo mensaje ticket w s :
  exists res k,
    Notifier.enviar_alerta_error titulo mensaje ticket w s
    = (Ret res,
       mkSt (self s)
            (trace s ++ [EvAlertaError titulo mensaje ticket; EvNow;
                         EvDbMail (error_recipients (email (config w)))
                                  ("🔴 ALERTA MP: " ++ titulo)%string])
            k).
Proof.
  unfold Notifier.enviar_alerta_error, bind, emit, get_config, now_text, ask. simpl.
  match goal with |- context [Notifier._send_via_dbmail ?r ?sj w ?st] =>
    destruct (_send_via_dbmail_spec r sj w st) as (res & E); rewrite E end.
  simpl. exists res. eexists. reassoc. reflexivity.
Qed.

Lemma enviar_resumen_proceso_spec exito pasos total w s :
  exists res relay k,
    Notifier.enviar_resumen_proceso exito pasos total w s
    = (Ret res, mkSt (self s) (trace s ++ EvResumen exito pasos total :: relay) k)
    /\ forallb relay_event relay = true.
Proof.
  unfold Notifier.enviar_resumen_proceso, bind, emit, get_config, now_text, ask. simpl.
  match goal with |- context [Notifier._send_via_dbmail ?r ?sj w ?st] =>
    destruct (_send_via_dbmail_spec r sj w st) as (res & E); rewrite E end.
  simpl. exists res. eexists. eexists. split.
  - reassoc. reflexivity.
  - reflexivity.
Qed.

(** [crear_ticket_error] always returns a triple; a success carries the
    key of the issue. *)
Lemma crear_ticket_error_spec titulo descripcion componente prioridad w s :
  exists ok msg key relay k,
    JiraClient.crear_ticket_error titulo descripcion componente prioridad w s
    = (Ret (ok, msg, key), mkSt (self s) (trace s ++ EvCrearTicket titulo descripcion :: relay) k)
    /\ forallb relay_event relay = true
    /\ (ok = true -> exists issue_key, key = Some issue_key).
Proof.
  unfold JiraClient.crear_ticket_error, bind, emit, get_config. simpl.
  match goal with |- context [if ?c then _ else _] => destruct c end; simpl;
    [do 5 eexists; split; [reflexivity|]; split; [reflexivity|discriminate]|].
  unfold try_except, bind, ask_effect, bind, ask, now_text, ask_exn, bind, ask. simpl.
  destruct (effect w (tick s)) as [e|]; simpl.
  - do 5 eexists. split; [reassoc; reflexivity|]. split; [reflexivity|discriminate].
  - destruct (issue w (S (S (tick s)))) as [e|issue_key]; simpl.
    + do 5 eexists. split; [reassoc; reflexivity|]. split; [reflexivity|discriminate].
    + do 5 eexists. split; [reassoc; reflexivity|]. split; [reflexivity|]. eauto.
Qed.

(** What [_handle_error] does, in every world: one ticket call, the key
    stored when the ticket was created, one alert carrying the stored key
    and handed to the mail relay. *)
Lemma _handle_error_spec paso error w s :
  exists relay1 stored ticket k,
    Workflow._handle_error paso error w s
    = (Ret tt,
       mkSt (mkReportWorkflow (steps (self s)) (start_time (self s)) ticket)
            (trace s
             ++ EvCrearTicket ("[AUTO] Error en Reportes MP: " ++ paso)%string error :: relay1
             ++ stored
             ++ [EvAlertaError ("Error en: " ++ paso)%string error ticket; EvNow;
                 alert_mail w paso])
            k)
    /\ forallb relay_event relay1 = true
    /\ ((stored = [] /\ ticket = ticket_jira (self s))
        \/ (exists key, stored = [EvTicketStored (Some key)] /\ ticket = Some key)).
Proof.
  unfold Workflow._handle_error. unfold bind at 1.
  destruct (crear_ticket_error_spec ("[AUTO] Error en Reportes MP: " ++ paso)%string
              error "Reportes MP"%string "High"%string w s)
    as (ok & msg & key & relay1 & k1 & E1 & Hr1 & Hkey).
  rewrite E1. destruct ok.
  - destruct (Hkey eq_refl) as (issue_key & ->).
    unfold bind, set_ticket_jira, bind, get_self, put_self, emit. simpl.
    match goal with |- context [Notifier.enviar_alerta_error ?t ?m ?tk w ?st] =>
      destruct (enviar_alerta_error_spec t m tk w st) as (res & k2 & E2);
      rewrite E2 end.
    simpl. exists relay1, [EvTicketStored (Some issue_key)], (Some issue_key), k2.
    split; [reassoc; reflexivity|]. repeat split; auto. right. eauto.
  - unfold bind, ret, get_self. simpl.
    match goal with |- context [Notifier.enviar_alerta_error ?t ?m ?tk w ?st] =>
      destruct (enviar_alerta_error_spec t m tk w st) as (res & k2 & E2);
      rewrite E2 end.
    simpl. exists relay1, [], (ticket_jira (self s)), k2.
    split; [rewrite ReportWorkflow_eta; reassoc; reflexivity|]. repeat split; auto.
Qed.

(** ** The step wrapper, exactly *)

Lemma _execute_step_eq nombre func w s :
  Workflow._execute_step nombre func w s
  = let (o, s2) := func w (after_clock s) in
    match step_record nombre o (clock w (tick s2) - clock w (tick s)) with
    | Some r => (observer_outcome w (S (tick s2)) r, with_step (after_clock s2) r)
    | None => (OutOfFuel, s2)
    end.
Proof.
  unfold Workflow._execute_step, bind at 1, time_time, ask. fold (after_clock s).
  unfold bind at 1, try_except, bind at 1.
  destruct (func w (after_clock s)) as [o s2].
  destruct o as [[[ok msg] d]|e|]; simpl; try reflexivity.
  - unfold bind, time_time, ask, Workflow.steps_append, Workflow.on_step_complete,
      bind, get_self, set_steps, bind, get_self, put_self, ask, observer_outcome. simpl.
    destruct (observer w (S (tick s2))); reflexivity.
  - unfold bind, time_time, ask, Workflow.steps_append, Workflow.on_step_complete,
      bind, get_self, set_steps, bind, get_self, put_self, ask, observer_outcome. simpl.
    destruct (observer w (S (tick s2))); reflexivity.
Qed.

(** For an operation that stays within a class of events containing the
    clock: the step is recorded, the observer is called, nothing else
    changes. *)
Lemma _execute_step_confined P name func w s :
  P EvTime = true ->
  confined P func ->
  exists r tr k,
    Workflow._execute_step name func w s
    = (observer_outcome w k r,
       mkSt (mkReportWorkflow (steps (self s) ++ [r]) (start_time (self s))
                              (ticket_jira (self s)))
            (trace s ++ tr ++ [EvObserver r])
            (S k))
    /\ forallb P tr = true
    /\ nombre r = name.
Proof.
  intros HP Hc. rewrite _execute_step_eq.
  destruct (Hc w (after_clock s)) as (o & tr & k & E & Htr & Ho). rewrite E.
  destruct o as [[[ok msg] d]|e|]; [| |congruence]; simpl;
    eexists; exists (EvTime :: tr ++ [EvTime]); eexists;
    (split; [unfold with_step; simpl; reassoc; reflexivity|]);
    simpl; rewrite HP, forallb_app, Htr; simpl; rewrite HP; auto.
Qed.

(** ** Rules for specifications over summaries *)

Lemma reaches_begin s : reaches s s (sm_begin s).
Proof.
  split; [symmetry; apply ReportWorkflow_eta|].
  exists []. rewrite app_nil_r. repeat split.
Qed.

Lemma reaches_extend s0 s sm rw tr k :
  reaches s0 s sm -> reaches s0 (mkSt rw (trace s ++ tr) k) (sm_extend sm rw tr).
Proof.
  intros (Hself & tr0 & Htr & Ho & Ht & Ha & Hs & Hm).
  split; [simpl; symmetry; apply ReportWorkflow_eta|].
  exists (tr0 ++ tr). simpl. rewrite Htr, app_assoc.
  rewrite observed_of_app, tickets_of_app, alerts_of_app, stored_of_app, summaries_of_app.
  rewrite Ho, Ht, Ha, Hs, Hm. repeat split.
Qed.

Lemma sm_extend_silent sm tr :
  observed_of tr = [] -> tickets_of tr = [] -> alerts_of tr = [] ->
  stored_of tr = [] -> summaries_of tr = [] ->
  sm_extend sm (sm_self sm) tr = sm.
Proof.
  unfold sm_extend. intros -> -> -> -> ->. rewrite !app_nil_r.
  destruct sm; reflexivity.
Qed.

Lemma sm_extend_operation sm tr :
  forallb operation_event tr = true -> sm_extend sm (sm_self sm) tr = sm.
Proof.
  intros H. apply sm_extend_silent;
    auto using operation_observed, operation_tickets, operation_alerts,
               operation_stored, operation_summaries.
Qed.

(** What the trace of one escalation amounts to. *)
Lemma escalation_extend sm rw t d relay1 stored t' e ticket mail :
  forallb relay_event relay1 = true ->
  (stored = [] \/ exists key, stored = [EvTicketStored (Some key)]) ->
  relay_event mail = true ->
  sm_extend sm rw
    (EvCrearTicket t d :: relay1 ++ stored ++ [EvAlertaError t' e ticket; EvNow; mail])
  = mkSummary (steps rw) (start_time rw) (ticket_jira rw) (sm_observed sm)
      (sm_tickets sm ++ [(t, d)]) (sm_alerts sm ++ [(t', e, ticket)])
      (sm_stored sm ++ stored_of stored) (sm_summaries sm).
Proof.
  intros Hr1 Hst Hmail.
  change (EvCrearTicket t d :: relay1 ++ stored ++ [EvAlertaError t' e ticket; EvNow; mail])
    with ([EvCrearTicket t d] ++ relay1 ++ stored
          ++ [EvAlertaError t' e ticket] ++ [EvNow; mail]).
  assert (Hr2 : forallb relay_event [EvNow; mail] = true) by (simpl; rewrite Hmail; auto).
  unfold sm_extend.
  rewrite !observed_of_app, !tickets_of_app, !alerts_of_app, !stored_of_app,
    !summaries_of_app.
  rewrite (relay_tickets _ Hr1), (relay_alerts _ Hr1), (relay_stored _ Hr1),
    (relay_observed _ Hr1), (relay_summaries _ Hr1).
  rewrite (relay_tickets _ Hr2), (relay_alerts _ Hr2), (relay_stored _ Hr2),
    (relay_observed _ Hr2), (relay_summaries _ Hr2).
  destruct Hst as [->|(key & ->)]; simpl; rewrite !app_nil_r; reflexivity.
Qed.

(** Expose the fields of [self] fixed by [reaches]. *)
Ltac open_state s Hs :=
  let Hself := fresh "Hself" in
  let rw := fresh "rw" in
  pose proof (proj1 Hs) as Hself;
  destruct s as [rw ? ?]; simpl in Hself; subst rw.

Section Rules.

Variables (w : World) (s0 : St).

Lemma triple_ret {A} sm (a : A) (Q : Outcome A -> Summary -> Prop) :
  Q (Ret a) sm -> triple w s0 sm (ret a) Q.
Proof. intros HQ s Hs. exists (Ret a), s, sm. auto. Qed.

Lemma triple_conseq {A} sm (m : M A) (Q1 Q2 : Outcome A -> Summary -> Prop) :
  triple w s0 sm m Q1 -> (forall o sm', Q1 o sm' -> Q2 o sm') -> triple w s0 sm m Q2.
Proof.
  intros Hm HQ s Hs. destruct (Hm s Hs) as (o & s' & sm' & E & Hr & H1).
  exists o, s', sm'. auto.
Qed.

Lemma triple_bind {A B} sm (m : M A) (k : A -> M B) Q1 (Q : Outcome B -> Summary -> Prop) :
  triple w s0 sm m Q1 ->
  (forall a sm1, Q1 (Ret a) sm1 -> triple w s0 sm1 (k a) Q) ->
  (forall e sm1, Q1 (Raise e) sm1 -> Q (Raise e) sm1) ->
  (forall sm1, Q1 OutOfFuel sm1 -> Q OutOfFuel sm1) ->
  triple w s0 sm (bind m k) Q.
Proof.
  intros Hm Hk He Hf s Hs. unfold bind.
  destruct (Hm s Hs) as (o & s1 & sm1 & E & Hr & H1). rewrite E.
  destruct o as [a|e|].
  - apply (Hk a sm1 H1 s1 Hr).
  - exists (Raise e), s1, sm1. auto.
  - exists OutOfFuel, s1, sm1. auto.
Qed.

Lemma triple_try {A} sm (m : M A) (h : exn -> M A) Q1 (Q : Outcome A -> Summary -> Prop) :
  triple w s0 sm m Q1 ->
  (forall a sm1, Q1 (Ret a) sm1 -> Q (Ret a) sm1) ->
  (forall e sm1, Q1 (Raise e) sm1 -> triple w s0 sm1 (h e) Q) ->
  (forall sm1, Q1 OutOfFuel sm1 -> Q OutOfFuel sm1) ->
  triple w s0 sm (try_except m h) Q.
Proof.
  intros Hm Ha Hh Hf s Hs. unfold try_except.
  destruct (Hm s Hs) as (o & s1 & sm1 & E & Hr & H1). rewrite E.
  destruct o as [a|e|].
  - exists (Ret a), s1, sm1. auto.
  - apply (Hh e sm1 H1 s1 Hr).
  - exists OutOfFuel, s1, sm1. auto.
Qed.

(** A [finally] clause that is calm keeps the outcome and the summary. *)
Lemma triple_finally {A} sm (m : M A) (fin : M unit) (Q : Outcome A -> Summary -> Prop) :
  calm operation_event fin ->
  triple w s0 sm m Q ->
  triple w s0 sm (finally m fin) Q.
Proof.
  intros Hfin Hm s Hs. unfold finally.
  destruct (Hm s Hs) as (o & s1 & sm1 & E & Hr & H1). rewrite E.
  destruct (Hfin w s1) as ([] & tr & k & Ef & Htr). rewrite Ef.
  pose proof (reaches_extend s0 s1 sm1 (self s1) tr k Hr) as Hr'.
  rewrite (proj1 Hr) in Hr' at 2.
  change (mkReportWorkflow (sm_steps sm1) (sm_start sm1) (sm_ticket sm1))
    with (sm_self sm1) in Hr'.
  rewrite sm_extend_operation in Hr' by exact Htr.
  destruct o as [a|e|].
  - exists (Ret a), (mkSt (self s1) (trace s1 ++ tr) k), sm1. auto.
  - exists (Raise e), (mkSt (self s1) (trace s1 ++ tr) k), sm1. auto.
  - exists OutOfFuel, s1, sm1. auto.
Qed.

Lemma triple_confined {A} sm (m : M A) :
  confined operation_event m ->
  triple w s0 sm m (fun o sm' => sm' = sm /\ o <> OutOfFuel).
Proof.
  intros Hc s Hs. destruct (Hc w s) as (o & tr & k & E & Htr & Ho).
  exists o, (mkSt (self s) (trace s ++ tr) k), sm. split; [exact E|].
  split; [|auto].
  pose proof (reaches_extend s0 s sm (self s) tr k Hs) as Hr.
  rewrite (proj1 Hs) in Hr at 2.
  change (mkReportWorkflow (sm_steps sm) (sm_start sm) (sm_ticket sm))
    with (sm_self sm) in Hr.
  rewrite sm_extend_operation in Hr by exact Htr. exact Hr.
Qed.

Lemma triple_calm {A} sm (m : M A) :
  calm operation_event m ->
  triple w s0 sm m (fun o sm' => sm' = sm /\ exists a, o = Ret a).
Proof.
  intros Hc s Hs. destruct (Hc w s) as (a & tr & k & E & Htr).
  exists (Ret a), (mkSt (self s) (trace s ++ tr) k), sm. split; [exact E|].
  split; [|eauto].
  pose proof (reaches_extend s0 s sm (self s) tr k Hs) as Hr.
  rewrite (proj1 Hs) in Hr at 2.
  change (mkReportWorkflow (sm_steps sm) (sm_start sm) (sm_ticket sm))
    with (sm_self sm) in Hr.
  rewrite sm_extend_operation in Hr by exact Htr. exact Hr.
Qed.

Lemma triple_step sm name func :
  confined operation_event func ->
  triple w s0 sm (Workflow._execute_step name func)
    (fun o sm' =>
       exists r, nombre r = name /\ sm' = sm_step sm r
                 /\ (o = Ret r \/ exists e k, o = Raise e /\ observer w k = Some e)).
Proof.
  intros Hc s Hs. open_state s Hs.
  match goal with |- context [Workflow._execute_step _ _ _ ?st] =>
    destruct (_execute_step_confined operation_event name func w st eq_refl Hc)
      as (r & tr & k & E & Htr & Hn) end.
  simpl in E.
  eexists _, _, (sm_step sm r). split; [exact E|]. split.
  - match type of E with _ = (_, mkSt ?rw (_ ++ ?tr') ?k') =>
      pose proof (reaches_extend s0 _ sm rw tr' k' Hs) as Hr end.
    unfold sm_extend in Hr.
    rewrite observed_of_app, tickets_of_app, alerts_of_app, stored_of_app,
      summaries_of_app in Hr.
    rewrite operation_observed, operation_tickets, operation_alerts,
      operation_stored, operation_summaries in Hr by exact Htr.
    simpl in Hr. rewrite !app_nil_r in Hr. exact Hr.
  - exists r. split; [exact Hn|]. split; [reflexivity|].
    unfold observer_outcome. destruct (observer w k) eqn:Eo; eauto.
Qed.

Lemma triple_handle_error sm paso error :
  triple w s0 sm (Workflow._handle_error paso error)
    (fun o sm' =>
       o = Ret tt /\
       exists ticket stored,
         sm' = sm_escalated sm paso error ticket stored
         /\ ((stored = [] /\ ticket = sm_ticket sm)
             \/ (exists key, stored = [key] /\ ticket = Some key))).
Proof.
  intros s Hs. open_state s Hs.
  match goal with |- context [Workflow._handle_error _ _ _ ?st] =>
    destruct (_handle_error_spec paso error w st)
      as (relay1 & stored & ticket & k & E & Hr1 & Hst) end.
  simpl in E, Hst.
  eexists (Ret tt), _, (sm_escalated sm paso error ticket (stored_of stored)).
  split; [exact E|]. split.
  - match type of E with _ = (_, mkSt ?rw (_ ++ ?tr) _) =>
      pose proof (reaches_extend s0 _ sm rw tr k Hs) as Hr end.
    rewrite escalation_extend in Hr; [exact Hr|exact Hr1| |reflexivity].
    destruct Hst as [[-> _]|(key & -> & _)]; eauto.
  - split; [reflexivity|]. exists ticket, (stored_of stored). split; [reflexivity|].
    destruct Hst as [[-> ->]|(key & -> & ->)]; simpl; [left; auto|right; eauto].
Qed.

Lemma triple_resumen sm pasos total :
  triple w s0 sm (Notifier.enviar_resumen_proceso true pasos total)
    (fun o sm' => sm' = sm_summarised sm pasos /\ exists res, o = Ret res).
Proof.
  intros s Hs. open_state s Hs.
  match goal with |- context [Notifier.enviar_resumen_proceso _ _ _ _ ?st] =>
    destruct (enviar_resumen_proceso_spec true pasos total w st)
      as (res & relay & k & E & Hr1) end.
  simpl in E.
  eexists (Ret res), _, (sm_summarised sm pasos). split; [exact E|]. split; [|eauto].
  match type of E with _ = (_, mkSt ?rw (_ ++ ?tr) _) =>
    pose proof (reaches_extend s0 _ sm rw tr k Hs) as Hr end.
  unfold sm_extend in Hr. simpl in Hr.
  rewrite relay_tickets, relay_alerts, relay_stored, relay_observed,
    relay_summaries in Hr by exact Hr1.
  rewrite !app_nil_r in Hr. exact Hr.
Qed.

Lemma triple_get_self sm :
  triple w s0 sm get_self (fun o sm' => sm' = sm /\ o = Ret (sm_self sm)).
Proof.
  intros s Hs. exists (Ret (self s)), s, sm. split; [reflexivity|].
  split; [exact Hs|]. split; [reflexivity|]. rewrite (proj1 Hs). reflexivity.
Qed.

Lemma triple_put_self sm o :
  triple w s0 sm (put_self o) (fun r sm' => sm' = sm_with_self sm o /\ r = Ret tt).
Proof.
  intros s Hs. eexists (Ret tt), _, (sm_with_self sm o). split; [reflexivity|].
  split; [|auto]. destruct Hs as (Hself & tr & Htr & Hrest).
  split; [simpl; symmetry; apply ReportWorkflow_eta|].
  exists tr. simpl. auto.
Qed.

End Rules.

(** The same rules, with the postcondition of the first part computed from
    the continuation. *)
Section Backward.

Variables (w : World) (s0 : St).

Lemma triple_bind_wp {A B} sm (m : M A) (k : A -> M B)
    (Q : Outcome B -> Summary -> Prop) :
  triple w s0 sm m
    (fun o sm1 =>
       match o with
       | Ret a => triple w s0 sm1 (k a) Q
       | Raise e => Q (Raise e) sm1
       | OutOfFuel => Q OutOfFuel sm1
       end) ->
  triple w s0 sm (bind m k) Q.
Proof.
  intros H. eapply triple_bind; [exact H| | |]; simpl; auto.
Qed.

Lemma triple_try_wp {A} sm (m : M A) (h : exn -> M A)
    (Q : Outcome A -> Summary -> Prop) :
  triple w s0 sm m
    (fun o sm1 =>
       match o with
       | Ret a => Q (Ret a) sm1
       | Raise e => triple w s0 sm1 (h e) Q
       | OutOfFuel => Q OutOfFuel sm1
       end) ->
  triple w s0 sm (try_except m h) Q.
Proof.
  intros H. eapply triple_try; [exact H| | |]; simpl; auto.
Qed.

Lemma triple_emit_stored_none sm (Q : Outcome unit -> Summary -> Prop) :
  Q (Ret tt) sm -> triple w s0 sm (emit (EvTicketStored None)) Q.
Proof.
  intros HQ s Hs. open_state s Hs.
  eexists (Ret tt), _, sm. split; [reflexivity|]. split; [|exact HQ].
  match goal with |- reaches _ (mkSt _ _ ?k) _ =>
    pose proof (reaches_extend s0 _ sm (sm_self sm) [EvTicketStored None] k Hs) as Hr end.
  rewrite sm_extend_silent in Hr by reflexivity. exact Hr.
Qed.

End Backward.

Lemma calm_ret P {A} (a : A) : calm P (ret a).
Proof.
  intros w s. exists a, [], (tick s). rewrite app_nil_r, St_eta. auto.
Qed.

Lemma calm_bind P {A B} (m : M A) (k : A -> M B) :
  calm P m -> (forall a, calm P (k a)) -> calm P (bind m k).
Proof.
  intros Hm Hk w s. unfold bind.
  destruct (Hm w s) as (a & tr & n & E & Htr). rewrite E.
  destruct (Hk a w (mkSt (self s) (trace s ++ tr) n)) as (b & tr2 & n2 & E2 & Htr2).
  simpl in E2. rewrite E2. exists b, (tr ++ tr2), n2.
  rewrite app_assoc, forallb_app, Htr, Htr2. auto.
Qed.

Lemma calm_get_config P : calm P get_config.
Proof.
  intros w s. exists (config w), [], (tick s). rewrite app_nil_r, St_eta. auto.
Qed.

Lemma calm_ask P {A} (oracle : World -> nat -> A) ev : P ev = true -> calm P (ask oracle ev).
Proof.
  intros H w s. exists (oracle w (tick s)), [ev], (S (tick s)). simpl. rewrite H. auto.
Qed.

Lemma calm_try P {A} (m : M A) (h : exn -> M A) :
  confined P m -> (forall e, calm P (h e)) -> calm P (try_except m h).
Proof.
  intros Hm Hh w s. unfold try_except.
  destruct (Hm w s) as (o & tr & n & E & Htr & Ho). rewrite E.
  destruct o as [a|e|]; [| |congruence].
  - exists a, tr, n. auto.
  - destruct (Hh e w (mkSt (self s) (trace s ++ tr) n)) as (b & tr2 & n2 & E2 & Htr2).
    simpl in E2. rewrite E2. exists b, (tr ++ tr2), n2.
    rewrite app_assoc, forallb_app, Htr, Htr2. auto.
Qed.

Lemma calm_weaken {A} (P Q : Event -> bool) (m : M A) :
  (forall ev, P ev = true -> Q ev = true) -> calm P m -> calm Q m.
Proof.
  intros HPQ Hm w s. destruct (Hm w s) as (a & tr & n & E & Htr).
  exists a, tr, n. split; auto. eapply forallb_weaken; eauto.
Qed.

Lemma connect_calm : calm tableau_event TableauClient.connect.
Proof.
  unfold TableauClient.connect. apply calm_try; [confine|]. intros e. apply calm_ret.
Qed.

Lemma disconnect_calm t : calm tableau_event (TableauClient.disconnect t).
Proof.
  unfold TableauClient.disconnect. destruct t; [|apply calm_ret].
  apply calm_try; [confine|]. intros e. apply calm_ret.
Qed.

Lemma time_time_calm : calm tableau_event time_time.
Proof. apply calm_ask. reflexivity. Qed.

Lemma InfoCentralClient_calm P : calm P SQLClient.InfoCentralClient.
Proof.
  unfold SQLClient.InfoCentralClient.
  apply calm_bind; [apply calm_get_config|]. intros c. apply calm_ret.
Qed.

Lemma DEADWHClient_calm P : calm P SQLClient.DEADWHClient.
Proof.
  unfold SQLClient.DEADWHClient.
  apply calm_bind; [apply calm_get_config|]. intros c. apply calm_ret.
Qed.

Lemma CubosOfiClient_calm P : calm P SQLClient.CubosOfiClient.
Proof.
  unfold SQLClient.CubosOfiClient.
  apply calm_bind; [apply calm_get_config|]. intros c. apply calm_ret.
Qed.

Lemma tableau_calm_operation {A} (m : M A) :
  calm tableau_event m -> calm operation_event m.
Proof. apply calm_weaken, tableau_is_operation. Qed.

Create HintDb calm.
#[export] Hint Resolve connect_calm disconnect_calm time_time_calm InfoCentralClient_calm
  DEADWHClient_calm CubosOfiClient_calm : calm.
#[export] Hint Extern 4 (calm operation_event _) =>
  apply tableau_calm_operation : calm.
#[export] Hint Extern 4 (confined operation_event _) =>
  apply tableau_within_operation : confined.
#[export] Hint Extern 4 (confined operation_event _) =>
  apply poll_within_operation : confined.

(** ** Walking through a flow *)

Ltac step_post :=
  let H := fresh "H" in
  let r := fresh "r" in
  let Hn := fresh "Hn" in
  let e := fresh "e" in
  let k := fresh "k" in
  let Hobs := fresh "Hobs" in
  cbv beta; intros ? ? H;
  destruct H as (r & Hn & -> & [-> | (e & k & -> & Hobs)]); cbv beta iota.

Ltac esc_post :=
  let H := fresh "H" in
  let ticket := fresh "ticket" in
  let stored := fresh "stored" in
  let key := fresh "key" in
  cbv beta; intros ? ? H;
  destruct H as (-> & ticket & stored & -> & [[-> ->] | (key & -> & ->)]); cbv beta iota.

Ltac calm_post :=
  let H := fresh "H" in
  let a := fresh "a" in
  cbv beta; intros ? ? H; destruct H as (-> & a & ->); cbv beta iota.

Ltac walk1 :=
  lazymatch goal with
  | |- triple _ _ _ (ret _) _ => apply triple_ret
  | |- triple _ _ _ (bind _ _) _ => apply triple_bind_wp
  | |- triple _ _ _ (try_except _ _) _ => apply triple_try_wp
  | |- triple _ _ _ (finally _ _) _ => apply triple_finally; [solve [auto with calm]|]
  | |- triple _ _ _ (Workflow._execute_step _ _) _ =>
      eapply triple_conseq; [apply triple_step; solve [confine]|step_post]
  | |- triple _ _ _ (Workflow._handle_error _ _) _ =>
      eapply triple_conseq; [apply triple_handle_error|esc_post]
  | |- triple _ _ _ (Notifier.enviar_resumen_proceso _ _ _) _ =>
      eapply triple_conseq;
      [apply triple_resumen
      |let H := fresh "H" in let res := fresh "res" in
       cbv beta; intros ? ? H; destruct H as (-> & res & ->); cbv beta iota]
  | |- triple _ _ _ get_self _ =>
      eapply triple_conseq;
      [apply triple_get_self
      |let H := fresh "H" in cbv beta; intros ? ? H; destruct H as (-> & ->); cbv beta iota]
  | |- triple _ _ _ (put_self _) _ =>
      eapply triple_conseq;
      [apply triple_put_self
      |let H := fresh "H" in cbv beta; intros ? ? H; destruct H as (-> & ->); cbv beta iota]
  | |- triple _ _ _ (emit (EvTicketStored None)) _ => apply triple_emit_stored_none
  | |- triple _ _ _ (if ?b then _ else _) _ =>
      lazymatch b with
      | context [success ?r] => destruct (success r) eqn:?; cbn [negb andb]
      | _ => destruct b eqn:?
      end
  | |- triple _ _ _ (match ?x with _ => _ end) _ => progress cbn
  | |- triple _ _ _ ?m _ =>
      first
        [ eapply triple_conseq; [apply triple_calm; solve [auto with calm]|calm_post]
        | let h := eval cbv delta [Workflow.unexpected Workflow.elapsed Workflow.then_
                                    Workflow.escalate_and_return Workflow.exito
                                    Workflow.paso_1 Workflow.paso_2 Workflow.paso_3
                                    Workflow.paso_4 Workflow.paso_5
                                    TableauClient.with_client set_steps set_start_time
                                    set_ticket_jira] in m in
          progress change m with h; cbv beta ]
  end.

Ltac norm :=
  cbn [sm_self sm_with_self sm_begin sm_step sm_escalated sm_summarised
       sm_steps sm_start sm_ticket sm_observed sm_tickets sm_alerts sm_stored
       sm_summaries steps start_time ticket_jira app].

Ltac walk := norm; repeat (walk1; norm).

Ltac close_escalation :=
  unfold escalation_ok; norm;
  repeat match goal with
         | |- _ /\ _ => split
         | |- exists _, _ => eexists
         | |- _ = _ => reflexivity
         | |- _ \/ _ => first [left; split; reflexivity | right; eexists; split; reflexivity]
         end.

Ltac close_signature :=
  cbn [signature map length];
  repeat match goal with H : nombre _ = _ |- _ => rewrite H; clear H end;
  repeat match goal with H : success _ = _ |- _ => rewrite H; clear H end;
  repeat match goal with |- context [success ?r] => destruct (success r) end;
  vm_compute; reflexivity.

(** The send-only flow. *)
Lemma run_send_only_triple es_prueba reporte w s :
  triple w s (sm_begin s) (Workflow.run_send_only es_prueba reporte)
    (send_post (ticket_jira (self s))).
Proof.
  unfold Workflow.run_send_only. walk.
  all: unfold send_post; norm; do 3 eexists; split; [reflexivity|];
    (split; [reflexivity|]); (split; [assumption|]); (split; [reflexivity|]);
    (split; [try discriminate; auto|]); (split; [close_escalation|]); eauto.
Qed.

(** The full flow: every run is one of the paths of [full_paths]. *)
Lemma run_full_triple w s :
  triple w s (sm_begin s) Workflow.run_full (full_post w).
Proof.
  unfold Workflow.run_full. walk.
  all: unfold full_post; norm;
    let ab := match goal with
              | _ : observer _ _ = Some _ |- _ => constr:(true)
              | _ => constr:(false)
              end in
    eexists; eexists; exists ab; (split; [reflexivity|]);
    (split; [close_signature|]); (split; [reflexivity|]);
    (split; [close_escalation|]);
    (split; [try discriminate; intros _; eauto|]); eauto.
Qed.

(** The validation-only flow. *)
Lemma run_validation_only_triple w s :
  triple w s (sm_begin s) Workflow.run_validation_only
    (validation_post w (ticket_jira (self s))).
Proof.
  unfold Workflow.run_validation_only. walk.
  all: unfold validation_post; norm; repeat split; eauto.
Qed.

(** From a specification over summaries to a statement about the run. *)
Lemma triple_run {A} w s (m : M A) (Q : Outcome A -> Summary -> Prop) :
  triple w s (sm_begin s) m Q ->
  exists o s' tr,
    m w s = (o, s') /\ trace s' = trace s ++ tr /\ Q o (summary_of s' tr).
Proof.
  intros H. destruct (H s (reaches_begin s)) as (o & s' & sm' & E & Hr & HQ).
  destruct Hr as (Hself & tr & Htr & Ho & Ht & Ha & Hs & Hm).
  exists o, s', tr. split; [exact E|]. split; [exact Htr|].
  unfold summary_of. rewrite Hself, Ho, Ht, Ha, Hs, Hm. simpl.
  destruct sm'; exact HQ.
Qed.

(** ** From the paths to the step list *)

Lemma entry_eqb_eq a b : entry_eqb a b = true -> a = b.
Proof.
  destruct a as [n1 b1], b as [n2 b2]. unfold entry_eqb. simpl.
  intros H. apply andb_prop in H. destruct H as [Hn Hb].
  apply String.eqb_eq in Hn. apply Bool.eqb_prop in Hb. congruence.
Qed.

Lemma sig_eqb_eq a b : sig_eqb a b = true -> a = b.
Proof.
  revert b. induction a as [|x a IH]; intros [|y b]; simpl; try discriminate; auto.
  intros H. apply andb_prop in H. destruct H as [Hx Ha].
  apply entry_eqb_eq in Hx. apply IH in Ha. congruence.
Qed.

Lemma arun_eqb_eq a b : arun_eqb a b = true -> a = b.
Proof.
  destruct a as [[[sa va] ea] xa], b as [[[sb vb] eb] xb]. unfold arun_eqb.
  intros H. repeat (apply andb_prop in H; destruct H as [H ?]).
  apply sig_eqb_eq in H.
  repeat match goal with
         | H : Bool.eqb _ _ = true |- _ => apply Bool.eqb_prop in H
         | H : Nat.eqb _ _ = true |- _ => apply Nat.eqb_eq in H
         end.
  congruence.
Qed.

Lemma mem_forallb (P : arun -> bool) a l :
  mem a l = true -> forallb P l = true -> P a = true.
Proof.
  unfold mem. intros Hm Hall. apply existsb_exists in Hm.
  destruct Hm as (x & Hin & Heq). apply arun_eqb_eq in Heq. subst x.
  rewrite forallb_forall in Hall. auto.
Qed.

Lemma full_paths_gate_check : forallb gate_check full_paths = true.
Proof. vm_compute. reflexivity. Qed.

Lemma full_paths_skip_check : forallb skip_check full_paths = true.
Proof. vm_compute. reflexivity. Qed.

Lemma signature_app a b : signature (a ++ b) = signature a ++ signature b.
Proof. apply map_app. Qed.

Lemma failed_gate_is_last_split p x q :
  failed_gate_is_last (p ++ x :: q) = true -> failed_gate x = true -> q = [].
Proof.
  induction p as [|y p IH]; simpl; intros H Hx.
  - rewrite Hx in H. destruct q; [reflexivity|discriminate].
  - apply andb_prop in H. destruct H as [_ H]. auto.
Qed.

Lemma existsb_middle {A} (f : A -> bool) p x q :
  f x = true -> existsb f (p ++ x :: q) = true.
Proof.
  intros H. rewrite existsb_app. simpl. rewrite H. apply orb_true_r.
Qed.

Lemma pdfs_follow_inventory_split aborted p x q :
  pdfs_follow_inventory aborted (p ++ x :: q) = true -> inventory_ok x = true ->
  match q with
  | [] => aborted = true
  | y :: _ => fst y = pdf_step
  end.
Proof.
  induction p as [|z p IH]; simpl; intros H Hx.
  - rewrite Hx in H. apply andb_prop in H. destruct H as [H _].
    destruct q as [|y q]; [exact H|]. apply String.eqb_eq. exact H.
  - apply andb_prop in H. destruct H as [_ H]. exact (IH H Hx).
Qed.

Lemma no_corrective_in sg x :
  existsb corrective sg = false -> In x sg ->
  fst x <> jobs_step /\ fst x <> cube_step.
Proof.
  intros H Hin.
  assert (Hx : corrective x = false).
  { destruct (corrective x) eqn:E; [|reflexivity].
    assert (existsb corrective sg = true) by (apply existsb_exists; eauto).
    congruence. }
  unfold corrective in Hx. apply orb_false_elim in Hx. destruct Hx as [H1 H2].
  split; intros Heq; rewrite Heq in *; rewrite String.eqb_refl in *; discriminate.
Qed.

(** ** Computations that leave the ticket alone *)

Lemma stays_confined {A} P (m : M A) : confined P m -> stays P m.
Proof.
  intros H w s. destruct (H w s) as (o & tr & k & E & Htr & Ho).
  exists o, (self s), tr, k. auto.
Qed.

Lemma stays_ret {A} P (a : A) : stays P (ret a).
Proof. apply stays_confined, confined_ret. Qed.

Lemma stays_bind {A B} P (m : M A) (k : A -> M B) :
  stays P m -> (forall a, stays P (k a)) -> stays P (bind m k).
Proof.
  intros Hm Hk w s. unfold bind.
  destruct (Hm w s) as (o & rw & tr & n & E & Htr & Hrw & Ho). rewrite E.
  destruct o as [a|e|]; [| |congruence].
  - destruct (Hk a w (mkSt rw (trace s ++ tr) n))
      as (o2 & rw2 & tr2 & n2 & E2 & Htr2 & Hrw2 & Ho2).
    simpl in E2, Hrw2. rewrite E2. exists o2, rw2, (tr ++ tr2), n2.
    rewrite app_assoc, forallb_app, Htr, Htr2. repeat split; auto. congruence.
  - exists (Raise e), rw, tr, n. repeat split; auto. discriminate.
Qed.

Lemma stays_finally {A} P (m : M A) (fin : M unit) :
  stays P m -> calm P fin -> stays P (finally m fin).
Proof.
  intros Hm Hf w s. unfold finally.
  destruct (Hm w s) as (o & rw & tr & n & E & Htr & Hrw & Ho). rewrite E.
  destruct (Hf w (mkSt rw (trace s ++ tr) n)) as ([] & tr2 & n2 & E2 & Htr2).
  simpl in E2.
  destruct o as [a|e|]; [| |congruence]; rewrite E2;
    eexists _, rw, (tr ++ tr2), n2;
    rewrite app_assoc, forallb_app, Htr, Htr2; repeat split; auto; discriminate.
Qed.

Lemma stays_set_start_time P t : stays P (set_start_time t).
Proof.
  intros w s. eexists (Ret tt), _, [], (tick s). rewrite app_nil_r.
  split; [reflexivity|]. repeat split. discriminate.
Qed.

Lemma stays_set_steps P l : stays P (set_steps l).
Proof.
  intros w s. eexists (Ret tt), _, [], (tick s). rewrite app_nil_r.
  split; [reflexivity|]. repeat split. discriminate.
Qed.

Lemma stays_step P name func :
  P EvTime = true -> (forall r, P (EvObserver r) = true) ->
  confined P func -> stays P (Workflow._execute_step name func).
Proof.
  intros Ht Hobs Hc w s.
  destruct (_execute_step_confined P name func w s Ht Hc) as (r & tr & k & E & Htr & _).
  eexists _, _, (tr ++ [EvObserver r]), (S k). split; [exact E|].
  rewrite forallb_app, Htr. simpl. rewrite Hobs. repeat split.
  unfold observer_outcome. destruct (observer w k); discriminate.
Qed.

Lemma run_validation_only_stays : stays validation_event Workflow.run_validation_only.
Proof.
  assert (Hop : forall name (func : Workflow.Operation),
             confined tableau_event func ->
             stays validation_event (Workflow._execute_step name func)).
  { intros name func Hc. apply stays_step; [reflexivity|reflexivity|].
    apply tableau_within_validation, Hc. }
  unfold Workflow.run_validation_only, TableauClient.with_client.
  apply stays_bind;
    [apply stays_confined, tableau_within_validation; unfold time_time; confine|].
  intros t0. apply stays_bind; [apply stays_set_start_time|]. intros _.
  apply stays_bind; [apply stays_set_steps|]. intros _.
  apply stays_bind; [apply stays_confined, tableau_within_validation, connect_confined|].
  intros tableau. apply stays_finally;
    [|apply (calm_weaken _ _ _ tableau_is_validation), disconnect_calm].
  apply stays_bind; [apply Hop; auto with confined|]. intros r1.
  destruct (success r1); [apply stays_ret|].
  apply stays_bind; [apply Hop; auto with confined|]. intros r2.
  destruct (success r2); [|apply stays_ret].
  apply stays_bind; [apply Hop; auto with confined|]. intros r3.
  apply stays_ret.
Qed.

Lemma validation_not_relay tr ev :
  forallb validation_event tr = true -> In ev tr -> relay_event ev = false.
Proof.
  intros H Hin. rewrite forallb_forall in H. specialize (H ev Hin).
  destruct ev; simpl in *; congruence.
Qed.

(** ** The corrective jobs *)

(** [execute_job] always returns: the start and every poll are inside its
    [try], the default interval is positive. *)
Lemma execute_job_spec cfg (name : sqlval) w s :
  exists ok msg tr k,
    SQLClient.execute_job cfg name w s
    = (Ret (ok, msg),
       mkSt (self s) (trace s ++ EvExecuteJob (sql_str name) :: tr
                      ++ [EvJobResult (sql_str name) ok msg]) k)
    /\ forallb poll_event tr = true.
Proof.
  unfold SQLClient.execute_job, SQLClient.execute_job_fuel.
  unfold bind at 1, emit. unfold bind at 1.
  match goal with |- context [try_except ?m ?h w ?st] =>
    assert (Hc : calm poll_event (try_except m h)) end.
  { apply calm_try; [|intros e; apply calm_ret].
    pose proof (wait_job_confined (SQLClient.poll_budget 10 600) cfg name 10 600 0
                  ltac:(lia) (poll_budget_enough 10 600 ltac:(lia))).
    confine. }
  match goal with |- context [try_except ?m ?h w ?st] =>
    destruct (Hc w st) as ([ok msg] & tr & k & E & Htr); rewrite E end.
  simpl. exists ok, msg, tr, k. split; [|exact Htr].
  unfold bind, emit, ret. simpl. reassoc. reflexivity.
Qed.

Lemma run_named_job_spec cfg v errores w s :
  exists tr k,
    Workflow.run_named_job cfg v errores w s
    = (Ret (errores ++ flat_map failure_text (results_of tr)),
       mkSt (self s) (trace s ++ tr) k)
    /\ jobs_of tr = (if sql_truthy v then [sql_str v] else [])
    /\ map job_name_of (results_of tr) = (if sql_truthy v then [sql_str v] else []).
Proof.
  unfold Workflow.run_named_job. destruct (sql_truthy v).
  - unfold bind. destruct (execute_job_spec cfg v w s)
      as (ok & msg & tr & k & E & Htr). rewrite E.
    exists (EvExecuteJob (sql_str v) :: tr ++ [EvJobResult (sql_str v) ok msg]), k.
    assert (Hres : results_of (EvExecuteJob (sql_str v) :: tr
                               ++ [EvJobResult (sql_str v) ok msg])
                   = [(sql_str v, ok, msg)]).
    { change (EvExecuteJob (sql_str v) :: tr ++ [EvJobResult (sql_str v) ok msg])
        with ([EvExecuteJob (sql_str v)] ++ tr ++ [EvJobResult (sql_str v) ok msg]).
      rewrite !results_of_app, (poll_results _ Htr). reflexivity. }
    assert (Hjobs : jobs_of (EvExecuteJob (sql_str v) :: tr
                             ++ [EvJobResult (sql_str v) ok msg])
                    = [sql_str v]).
    { change (EvExecuteJob (sql_str v) :: tr ++ [EvJobResult (sql_str v) ok msg])
        with ([EvExecuteJob (sql_str v)] ++ tr ++ [EvJobResult (sql_str v) ok msg]).
      rewrite !jobs_of_app, (poll_jobs _ Htr). reflexivity. }
    rewrite Hres, Hjobs. split; [|split; reflexivity].
    destruct ok; simpl; [rewrite app_nil_r|]; reflexivity.
  - exists [], (tick s). simpl. rewrite !app_nil_r, St_eta. auto.
Qed.

Lemma named_jobs_attempted acciones : flat_map named_jobs acciones = attempted acciones.
Proof.
  unfold attempted. apply flat_map_ext. intros accion. unfold named_jobs.
  assert (H : forall cell, (if sql_truthy cell then [sql_str cell] else []) = named_by cell).
  { intros [|z|name]; simpl; [reflexivity|destruct (Z.eqb z 0)|destruct (String.eqb name "")];
      reflexivity. }
  rewrite !H. reflexivity.
Qed.

Lemma jobs_loop_spec cfg acciones : forall errores w s,
  exists tr k,
    Workflow.jobs_loop cfg acciones errores w s
    = (Ret (errores ++ flat_map failure_text (results_of tr)),
       mkSt (self s) (trace s ++ tr) k)
    /\ jobs_of tr = flat_map named_jobs acciones
    /\ map job_name_of (results_of tr) = flat_map named_jobs acciones.
Proof.
  induction acciones as [|accion rest IH]; intros errores w s.
  - exists [], (tick s). simpl. rewrite !app_nil_r, St_eta. auto.
  - simpl. unfold bind at 1.
    destruct (run_named_job_spec cfg (get accion "Accion1" (SqlStr "")) errores w s)
      as (tr1 & k1 & E1 & Hj1 & Hr1). rewrite E1. unfold bind at 1.
    match goal with |- context [Workflow.run_named_job cfg ?v ?es w ?st] =>
      destruct (run_named_job_spec cfg v es w st) as (tr2 & k2 & E2 & Hj2 & Hr2) end.
    rewrite E2.
    match goal with |- context [Workflow.jobs_loop cfg rest ?es w ?st] =>
      destruct (IH es w st) as (tr3 & k3 & E3 & Hj3 & Hr3) end.
    rewrite E3. exists (tr1 ++ tr2 ++ tr3), k3. simpl.
    rewrite !results_of_app, !jobs_of_app, !flat_map_app, !map_app.
    rewrite Hj1, Hj2, Hj3, Hr1, Hr2, Hr3. unfold named_jobs.
    rewrite <- !app_assoc. repeat split.
Qed.

Lemma no_failure_text rs :
  flat_map failure_text rs = [] <-> forallb job_ok rs = true.
Proof.
  induction rs as [|r rs IH]; simpl; [tauto|].
  unfold failure_text at 1. destruct (job_ok r); simpl; [exact IH|].
  split; discriminate.
Qed.

(** ** The poll loops *)

(** One round of the refresh wait. *)
Lemma wait_refresh_round fuel job max_wait total w s :
  (total < max_wait)%Z ->
  TableauClient.wait_refresh (S fuel) job max_wait total w s
  = let s1 := mkSt (self s) ((trace s ++ [EvSleep 10]) ++ [EvJobStatus (job_id job)])
                   (S (tick s)) in
    match job_item w (tick s) with
    | inl e => (Raise e, s1)
    | inr j =>
        if Z.eqb (finish_code j) 0 then (Ret (true, "Refresh completado"%string), s1)
        else if Z.eqb (finish_code j) 1
             then (Ret (false, ("Refresh falló: " ++ notes j)%string), s1)
        else if Z.eqb (finish_code j) 2
             then (Ret (false, "Refresh cancelado"%string), s1)
        else TableauClient.wait_refresh fuel j max_wait (total + 10) w s1
    end.
Proof.
  intros Hlt. cbn [TableauClient.wait_refresh].
  destruct (Z.ltb_spec total max_wait) as [_|Hge]; [|lia].
  unfold bind at 1, time_sleep, TableauClient.wait_interval.
  change (Z.ltb 10 0) with false. cbv iota. unfold emit.
  unfold bind at 1, ask_exn, bind at 1, ask. cbn [self trace tick].
  destruct (job_item w (tick s)) as [e|j]; [reflexivity|]. unfold ret.
  destruct (Z.eqb (finish_code j) 0); [reflexivity|].
  destruct (Z.eqb (finish_code j) 1); [reflexivity|].
  destruct (Z.eqb (finish_code j) 2); reflexivity.
Qed.

Lemma refresh_pending_inv a :
  refresh_pending a = true ->
  exists j, a = inr j /\ Z.eqb (finish_code j) 0 = false
            /\ Z.eqb (finish_code j) 1 = false /\ Z.eqb (finish_code j) 2 = false.
Proof.
  destruct a as [e|j]; simpl; [discriminate|]. intros H.
  repeat (apply andb_prop in H; destruct H as [H ?]).
  repeat match goal with H : negb _ = true |- _ => apply negb_true_iff in H end.
  eauto.
Qed.

Lemma wait_refresh_timeout fuel : forall job max_wait total w s,
  (max_wait - total <= Z.of_nat fuel * 10)%Z ->
  (forall i, (total + 10 * Z.of_nat i < max_wait)%Z ->
             refresh_pending (job_item w (tick s + i)) = true) ->
  fst (TableauClient.wait_refresh fuel job max_wait total w s) = refresh_timeout max_wait.
Proof.
  induction fuel as [|fuel IH]; intros job max_wait total w s Hfuel Hpend;
    destruct (Z.lt_ge_cases total max_wait) as [Hlt|Hge].
  - exfalso. simpl in Hfuel. lia.
  - simpl. destruct (Z.ltb_spec total max_wait); [lia|reflexivity].
  - rewrite wait_refresh_round by exact Hlt. cbv zeta.
    pose proof (Hpend 0 ltac:(simpl; lia)) as H0. rewrite Nat.add_0_r in H0.
    destruct (refresh_pending_inv _ H0) as (j & -> & -> & -> & ->).
    apply IH; [lia|]. intros i Hi. cbn [tick].
    replace (S (tick s) + i) with (tick s + S i) by lia.
    apply Hpend. lia.
  - simpl. destruct (Z.ltb_spec total max_wait); [lia|reflexivity].
Qed.

Lemma wait_refresh_decided n : forall fuel job max_wait total w s,
  (max_wait - total <= Z.of_nat fuel * 10)%Z ->
  (forall i, i < n -> refresh_pending (job_item w (tick s + i)) = true) ->
  (total + 10 * Z.of_nat n < max_wait)%Z ->
  refresh_decides (job_item w (tick s + n))
                  (fst (TableauClient.wait_refresh fuel job max_wait total w s)).
Proof.
  induction n as [|n IH]; intros fuel job max_wait total w s Hfuel Hpend Hn;
    (destruct fuel as [|fuel]; [simpl in Hfuel; lia|]);
    rewrite wait_refresh_round by lia; cbv zeta.
  - rewrite Nat.add_0_r. destruct (job_item w (tick s)) as [e|j]; simpl; [reflexivity|].
    repeat split; intros Hc; rewrite Hc; reflexivity.
  - pose proof (Hpend 0 ltac:(lia)) as H0. rewrite Nat.add_0_r in H0.
    destruct (refresh_pending_inv _ H0) as (j & -> & -> & -> & ->).
    replace (tick s + S n) with (S (tick s) + n) by lia.
    match goal with |- context [TableauClient.wait_refresh fuel ?j _ ?t w ?st] =>
      apply (IH fuel j max_wait t w st) end.
    + lia.
    + intros i Hi. cbn [tick]. replace (S (tick s) + i) with (tick s + S i) by lia.
      apply Hpend. lia.
    + lia.
Qed.

(** One round of the job wait. *)
Lemma wait_job_round fuel cfg name interval max_wait total w s :
  (total < max_wait)%Z -> (0 <= interval)%Z ->
  SQLClient.wait_job (S fuel) cfg name interval max_wait total w s
  = let s1 := mkSt (self s)
                   ((trace s ++ [EvSleep interval])
                    ++ [EvQuery (sql_server cfg) "msdb" SQLClient.job_status_query
                                [name]])
                   (S (tick s)) in
    match activity w (tick s) with
    | inl e => (Raise e, s1)
    | inr [] => SQLClient.wait_job fuel cfg name interval max_wait (total + interval) w s1
    | inr (ja :: _) =>
        match stop_execution_date ja with
        | Some _ => (Ret (true, "Job completado exitosamente"%string), s1)
        | None => SQLClient.wait_job fuel cfg name interval max_wait (total + interval) w s1
        end
    end.
Proof.
  intros Hlt Hpos. cbn [SQLClient.wait_job].
  destruct (Z.ltb_spec total max_wait) as [_|Hge]; [|lia].
  unfold bind at 1, time_sleep.
  destruct (Z.ltb_spec interval 0) as [Hneg|_]; [lia|]. unfold emit.
  unfold bind at 1, SQLClient.query_job_status, try_except, bind at 1, ask_exn,
    bind at 1, ask. cbn [self trace tick].
  destruct (activity w (tick s)) as [e|[|ja found]]; try reflexivity.
  unfold ret, SQLClient.select_job_status. cbn [map].
  destruct (stop_execution_date ja); reflexivity.
Qed.

Lemma job_pending_inv a :
  job_pending a = true ->
  a = inr [] \/ exists ja found, a = inr (ja :: found) /\ stop_execution_date ja = None.
Proof.
  destruct a as [e|[|ja found]]; simpl; [discriminate|auto|].
  destruct (stop_execution_date ja) eqn:E; [discriminate|]. eauto.
Qed.

Lemma wait_job_timeout fuel : forall cfg name interval max_wait total w s,
  (0 < interval)%Z ->
  (max_wait - total <= Z.of_nat fuel * interval)%Z ->
  (forall i, (total + interval * Z.of_nat i < max_wait)%Z ->
             job_pending (activity w (tick s + i)) = true) ->
  fst (SQLClient.wait_job fuel cfg name interval max_wait total w s) = job_timeout max_wait.
Proof.
  induction fuel as [|fuel IH]; intros cfg name interval max_wait total w s Hpos Hfuel Hpend;
    destruct (Z.lt_ge_cases total max_wait) as [Hlt|Hge].
  - exfalso. simpl in Hfuel. lia.
  - simpl. destruct (Z.ltb_spec total max_wait); [lia|reflexivity].
  - rewrite wait_job_round by lia. cbv zeta.
    pose proof (Hpend 0 ltac:(simpl; lia)) as H0. rewrite Nat.add_0_r in H0.
    assert (Hnext : forall i,
               (total + interval + interval * Z.of_nat i < max_wait)%Z ->
               job_pending (activity w (S (tick s) + i)) = true).
    { intros i Hi. replace (S (tick s) + i) with (tick s + S i) by lia.
      apply Hpend. lia. }
    destruct (job_pending_inv _ H0) as [->|(ja & found & -> & ->)];
      (apply IH; [exact Hpos|nia|exact Hnext]).
  - simpl. destruct (Z.ltb_spec total max_wait); [lia|reflexivity].
Qed.

Lemma wait_job_decided n : forall fuel cfg name interval max_wait total w s,
  (0 < interval)%Z ->
  (max_wait - total <= Z.of_nat fuel * interval)%Z ->
  (forall i, i < n -> job_pending (activity w (tick s + i)) = true) ->
  (total + interval * Z.of_nat n < max_wait)%Z ->
  job_decides (activity w (tick s + n))
              (fst (SQLClient.wait_job fuel cfg name interval max_wait total w s)).
Proof.
  induction n as [|n IH];
    intros fuel cfg name interval max_wait total w s Hpos Hfuel Hpend Hn;
    (destruct fuel as [|fuel]; [simpl in Hfuel; nia|]);
    rewrite wait_job_round by nia; cbv zeta.
  - rewrite Nat.add_0_r. destruct (activity w (tick s)) as [e|[|ja found]]; simpl; auto.
    destruct (stop_execution_date ja); [reflexivity|congruence].
  - pose proof (Hpend 0 ltac:(lia)) as H0. rewrite Nat.add_0_r in H0.
    replace (tick s + S n) with (S (tick s) + n) by lia.
    assert (Hnext : forall i, i < n ->
               job_pending (activity w (S (tick s) + i)) = true).
    { intros i Hi. replace (S (tick s) + i) with (tick s + S i) by lia.
      apply Hpend. lia. }
    destruct (job_pending_inv _ H0) as [->|(ja & found & -> & ->)];
      match goal with |- context [SQLClient.wait_job fuel _ _ _ _ ?t w ?st] =>
        apply (IH fuel cfg name interval max_wait t w st); [exact Hpos|nia|exact Hnext|nia]
      end.
Qed.

Lemma wait_refresh_rounds fuel : forall job max_wait total,
  (max_wait - total <= Z.of_nat fuel * 10)%Z ->
  confined refresh_round_event (TableauClient.wait_refresh fuel job max_wait total).
Proof.
  induction fuel as [|fuel IH]; intros job max_wait total Hfuel; simpl;
    destruct (Z.ltb_spec total max_wait) as [Hlt|Hge]; try solve [confine].
  - exfalso. simpl in Hfuel. lia.
  - assert (Hnext : forall j,
        confined refresh_round_event
          (TableauClient.wait_refresh fuel j max_wait (total + TableauClient.wait_interval))).
    { intros j. apply IH. unfold TableauClient.wait_interval. lia. }
    confine.
Qed.

Lemma wait_job_rounds fuel : forall cfg name interval max_wait total,
  (0 < interval)%Z ->
  (max_wait - total <= Z.of_nat fuel * interval)%Z ->
  confined (job_round_event interval)
           (SQLClient.wait_job fuel cfg name interval max_wait total).
Proof.
  induction fuel as [|fuel IH]; intros cfg name interval max_wait total Hpos Hfuel; simpl;
    destruct (Z.ltb_spec total max_wait) as [Hlt|Hge]; try solve [confine].
  - exfalso. simpl in Hfuel. lia.
  - assert (Hnext : confined (job_round_event interval)
                      (SQLClient.wait_job fuel cfg name interval max_wait (total + interval)))
      by (apply IH; [exact Hpos|lia]).
    assert (Hsleep : confined (job_round_event interval) (time_sleep interval)).
    { apply confined_time_sleep. simpl. apply Z.eqb_refl. }
    assert (Hquery : confined (job_round_event interval)
                       (SQLClient.query_job_status cfg name)).
    { unfold SQLClient.query_job_status. confine. }
    confine.
Qed.

(** ** The rounds of the two waits *)

Lemma within_round n interval max_wait total :
  (total < max_wait)%Z ->
  within n interval max_wait (total + interval) ->
  within (S n) interval max_wait total.
Proof.
  intros Hlt [->|H]; right; [simpl; lia|].
  rewrite Nat2Z.inj_succ. lia.
Qed.

(** The job wait is a sequence of rounds, each a sleep followed by the
    status query, one answer of the server per round; no round starts
    once the accumulated wait has reached the maximum. *)
Lemma wait_job_shape fuel : forall cfg name interval max_wait total w s,
  (0 <= interval)%Z ->
  exists o n,
    SQLClient.wait_job fuel cfg name interval max_wait total w s
    = (o, mkSt (self s)
               (trace s ++ List.concat (List.repeat (job_round cfg name interval) n))
               (tick s + n))
    /\ within n interval max_wait total.
Proof.
  induction fuel as [|fuel IH]; intros cfg name interval max_wait total w s Hpos.
  - exists (if Z.ltb total max_wait then OutOfFuel else job_timeout max_wait), 0.
    cbn [List.repeat List.concat]. rewrite app_nil_r, Nat.add_0_r, St_eta.
    split; [|left; reflexivity].
    cbn [SQLClient.wait_job]. destruct (Z.ltb total max_wait); reflexivity.
  - destruct (Z.lt_ge_cases total max_wait) as [Hlt|Hge].
    + rewrite wait_job_round by lia. cbv zeta.
      match goal with |- context [SQLClient.wait_job fuel cfg name interval max_wait ?t w ?st] =>
        destruct (IH cfg name interval max_wait t w st Hpos) as (o & n & E & Hin) end.
      cbn [self trace tick] in E.
      assert (Hone : forall o' : Outcome (bool * string),
                 exists o1 n1,
                   (o', mkSt (self s)
                             ((trace s ++ [EvSleep interval])
                              ++ [EvQuery (sql_server cfg) "msdb"
                                          SQLClient.job_status_query [name]])
                             (S (tick s)))
                   = (o1, mkSt (self s)
                               (trace s
                                ++ List.concat (List.repeat (job_round cfg name interval) n1))
                               (tick s + n1))
                   /\ within n1 interval max_wait total).
      { intros o'. exists o', 1. cbn [List.repeat List.concat job_round app].
        rewrite <- app_assoc, Nat.add_1_r. split; [reflexivity|].
        right. simpl. lia. }
      assert (Hmore : exists o1 n1,
                 SQLClient.wait_job fuel cfg name interval max_wait (total + interval) w
                   (mkSt (self s)
                         ((trace s ++ [EvSleep interval])
                          ++ [EvQuery (sql_server cfg) "msdb"
                                      SQLClient.job_status_query [name]])
                         (S (tick s)))
                 = (o1, mkSt (self s)
                             (trace s
                              ++ List.concat (List.repeat (job_round cfg name interval) n1))
                             (tick s + n1))
                 /\ within n1 interval max_wait total).
      { exists o, (S n). rewrite E. cbn [List.repeat List.concat job_round app].
        repeat rewrite <- app_assoc. cbn [app].
        replace (S (tick s) + n) with (tick s + S n) by lia.
        split; [reflexivity|]. apply within_round; assumption. }
      destruct (activity w (tick s)) as [e|[|ja found]]; [apply Hone|exact Hmore|].
      destruct (stop_execution_date ja); [apply Hone|exact Hmore].
    + exists (job_timeout max_wait), 0.
      cbn [List.repeat List.concat]. rewrite app_nil_r, Nat.add_0_r, St_eta.
      split; [|left; reflexivity].
      cbn [SQLClient.wait_job]. destruct (Z.ltb_spec total max_wait); [lia|reflexivity].
Qed.

(** The same for the refresh wait; the status of a round is asked for
    the job the round before answered with, the first one for the job
    the wait was given. *)
Lemma wait_refresh_shape fuel : forall job max_wait total w s,
  exists o ids,
    TableauClient.wait_refresh fuel job max_wait total w s
    = (o, mkSt (self s) (trace s ++ flat_map refresh_round ids)
               (tick s + List.length ids))
    /\ within (List.length ids) 10 max_wait total
    /\ (forall id, hd_error ids = Some id -> id = job_id job).
Proof.
  induction fuel as [|fuel IH]; intros job max_wait total w s.
  - exists (if Z.ltb total max_wait then OutOfFuel else refresh_timeout max_wait), [].
    cbn [flat_map List.length]. rewrite app_nil_r, Nat.add_0_r, St_eta.
    split; [|split; [left; reflexivity|discriminate]].
    cbn [TableauClient.wait_refresh]. destruct (Z.ltb total max_wait); reflexivity.
  - destruct (Z.lt_ge_cases total max_wait) as [Hlt|Hge].
    + rewrite wait_refresh_round by lia. cbv zeta.
      assert (Hone : forall o' : Outcome (bool * string),
                 exists o1 ids,
                   (o', mkSt (self s)
                             ((trace s ++ [EvSleep 10]) ++ [EvJobStatus (job_id job)])
                             (S (tick s)))
                   = (o1, mkSt (self s) (trace s ++ flat_map refresh_round ids)
                               (tick s + List.length ids))
                   /\ within (List.length ids) 10 max_wait total
                   /\ (forall id, hd_error ids = Some id -> id = job_id job)).
      { intros o'. exists o', [job_id job].
        cbn [flat_map refresh_round app List.length].
        rewrite <- app_assoc, Nat.add_1_r. split; [reflexivity|].
        split; [right; simpl; lia|]. intros id H. injection H as <-. reflexivity. }
      destruct (job_item w (tick s)) as [e|j]; [apply Hone|].
      destruct (Z.eqb (finish_code j) 0); [apply Hone|].
      destruct (Z.eqb (finish_code j) 1); [apply Hone|].
      destruct (Z.eqb (finish_code j) 2); [apply Hone|].
      match goal with |- context [TableauClient.wait_refresh fuel j max_wait ?t w ?st] =>
        destruct (IH j max_wait t w st) as (o & ids & E & Hin & _) end.
      cbn [self trace tick] in E. rewrite E. exists o, (job_id job :: ids).
      cbn [flat_map refresh_round app List.length].
      repeat rewrite <- app_assoc. cbn [app].
      replace (S (tick s) + List.length ids) with (tick s + S (List.length ids)) by lia.
      split; [reflexivity|]. split; [apply within_round; assumption|].
      intros id H. injection H as <-. reflexivity.
    + exists (refresh_timeout max_wait), [].
      cbn [flat_map List.length]. rewrite app_nil_r, Nat.add_0_r, St_eta.
      split; [|split; [left; reflexivity|discriminate]].
      cbn [TableauClient.wait_refresh].
      destruct (Z.ltb_spec total max_wait); [lia|reflexivity].
Qed.

(** ** The first statements of the entry points *)

(** [run_full] reads the clock, then sets the three fields of [self]. *)
Lemma run_full_start w s :
  Workflow.run_full w s
  = try_except
      (Workflow.then_ Workflow.paso_1
         (Workflow.then_ Workflow.paso_2
            (Workflow.then_ Workflow.paso_3
               (Workflow.then_ Workflow.paso_4
                  (Workflow.then_ Workflow.paso_5 Workflow.exito)))))
      Workflow.unexpected w
      (mkSt (mkReportWorkflow [] (Some (clock w (tick s))) None)
            ((trace s ++ [EvTime]) ++ [EvTicketStored None]) (S (tick s))).
Proof. reflexivity. Qed.

(** [run_send_only] reads the clock, then sets two of them. *)
Lemma run_send_only_start es_prueba reporte w s :
  Workflow.run_send_only es_prueba reporte w s
  = try_except
      (deadwh <- SQLClient.DEADWHClient ;;
       result <- Workflow._execute_step "Enviar Correos"
                   (Workflow.with_empty_details
                      (SQLClient.enviar_reportes deadwh es_prueba reporte)) ;;
       if negb (success result) then
         Workflow._handle_error "Envío de Correos" (mensaje result) ;;
         ret (false, mensaje result)
       else
         tiempo_total <- Workflow.elapsed ;;
         o <- get_self ;;
         _ <- Notifier.enviar_resumen_proceso true (steps o) tiempo_total ;;
         ret (true, ("Correos enviados exitosamente en " ++ fmt_2f tiempo_total ++ "s")%string))
      Workflow.unexpected w
      (mkSt (mkReportWorkflow [] (Some (clock w (tick s))) (ticket_jira (self s)))
            (trace s ++ [EvTime]) (S (tick s))).
Proof. reflexivity. Qed.

(** From a specification over summaries to a statement about a run that
    is under way. *)
Lemma triple_from {A} w s0 s1 sm1 (m : M A) (Q : Outcome A -> Summary -> Prop) :
  reaches s0 s1 sm1 ->
  triple w s0 sm1 m Q ->
  exists o s' tr,
    m w s1 = (o, s') /\ trace s' = trace s0 ++ tr /\ Q o (summary_of s' tr).
Proof.
  intros Hr H. destruct (H s1 Hr) as (o & s' & sm' & E & Hr' & HQ).
  destruct Hr' as (Hself & tr & Htr & Ho & Ht & Ha & Hs & Hm).
  exists o, s', tr. split; [exact E|]. split; [exact Htr|].
  unfold summary_of. rewrite Hself, Ho, Ht, Ha, Hs, Hm. simpl.
  destruct sm'; exact HQ.
Qed.

(** What follows the first statements keeps the start time. *)
Lemma run_full_body_triple w s0 (t : Z) :
  triple w s0 (mkSummary [] (Some t) None [] [] [] [] [])
    (try_except
       (Workflow.then_ Workflow.paso_1
          (Workflow.then_ Workflow.paso_2
             (Workflow.then_ Workflow.paso_3
                (Workflow.then_ Workflow.paso_4
                   (Workflow.then_ Workflow.paso_5 Workflow.exito)))))
       Workflow.unexpected)
    (fun o sm => full_post w o sm /\ sm_start sm = Some t).
Proof.
  walk.
  all: split; [|reflexivity].
  all: unfold full_post; norm;
    let ab := match goal with
              | _ : observer _ _ = Some _ |- _ => constr:(true)
              | _ => constr:(false)
              end in
    eexists; eexists; exists ab; (split; [reflexivity|]);
    (split; [close_signature|]); (split; [reflexivity|]);
    (split; [close_escalation|]);
    (split; [try discriminate; intros _; eauto|]); eauto.
Qed.

Lemma run_send_only_body_triple es_prueba reporte w s0 (t : Z) (ticket0 : option string) :
  triple w s0 (mkSummary [] (Some t) ticket0 [] [] [] [] [])
    (try_except
       (deadwh <- SQLClient.DEADWHClient ;;
        result <- Workflow._execute_step "Enviar Correos"
                    (Workflow.with_empty_details
                       (SQLClient.enviar_reportes deadwh es_prueba reporte)) ;;
        if negb (success result) then
          Workflow._handle_error "Envío de Correos" (mensaje result) ;;
          ret (false, mensaje result)
        else
          tiempo_total <- Workflow.elapsed ;;
          o <- get_self ;;
          _ <- Notifier.enviar_resumen_proceso true (steps o) tiempo_total ;;
          ret (true, ("Correos enviados exitosamente en " ++ fmt_2f tiempo_total ++ "s")%string))
       Workflow.unexpected)
    (fun o sm => send_post ticket0 o sm /\ sm_start sm = Some t).
Proof.
  walk.
  all: split; [|reflexivity].
  all: unfold send_post; norm; do 3 eexists; split; [reflexivity|];
    (split; [reflexivity|]); (split; [assumption|]); (split; [reflexivity|]);
    (split; [try discriminate; auto|]); (split; [close_escalation|]); eauto.
Qed.

(* ================================================================== *)
(** * Part III: the properties of the specification *)
(* ================================================================== *)

(** ** The step wrapper *)

(** C2: [_execute_step] never propagates an exception of the operation.
    Whatever the step name and the operation: when the operation raises
    [e], the step is recorded with [success = false], [mensaje = str e]
    and empty details; when it returns [(ok, msg, d)], these are recorded
    unchanged: a dictionary [d] as it is, and the empty dictionary when the
    operation returned [None] for the details.  In both cases the record
    is appended to [self.steps], and the call yields the record unless the
    observer, called after the append, raises an exception of its own. *)
Theorem execute_step_absorbs (name : string) (func : Workflow.Operation)
    (w : World) (s : St) :
  match func w (after_clock s) with
  | (Ret (ok, msg, d), s2) =>
      exists r s',
        Workflow._execute_step name func w s = (observer_outcome w (S (tick s2)) r, s')
        /\ nombre r = name /\ success r = ok /\ mensaje r = msg
        /\ match d with
           | Some entries => detalles r = entries
           | None => detalles r = []
           end
        /\ steps (self s') = steps (self s2) ++ [r]
  | (Raise e, s2) =>
      exists r s',
        Workflow._execute_step name func w s = (observer_outcome w (S (tick s2)) r, s')
        /\ nombre r = name /\ success r = false /\ mensaje r = str e
        /\ detalles r = []
        /\ steps (self s') = steps (self s2) ++ [r]
  | (OutOfFuel, s2) => Workflow._execute_step name func w s = (OutOfFuel, s2)
  end.
Proof.
  rewrite _execute_step_eq.
  destruct (func w (after_clock s)) as [[[[ok msg] d]|e|] s2]; simpl.
  - eexists _, _. split; [reflexivity|]. repeat split. destruct d; reflexivity.
  - eexists _, _. split; [reflexivity|]. repeat split.
  - reflexivity.
Qed.

(** C2 at work: an operation that returns a dictionary of details, and one
    that raises. *)
Lemma execute_step_absorbs_witness :
  (exists r s',
     Workflow._execute_step "3. Descargar PDFs"
       (ret (true, "1 reportes descargados", Some [("archivos", VStrList ["a.pdf"])]))
       world_ok st_init
     = (Ret r, s')
     /\ success r = true /\ mensaje r = "1 reportes descargados"%string
     /\ detalles r = [("archivos"%string, VStrList ["a.pdf"%string])]
     /\ steps (self s') = [r])
  /\ (exists r s',
        Workflow._execute_step "3. Descargar PDFs" (raise boom) world_ok st_init
        = (Ret r, s')
        /\ success r = false /\ mensaje r = "boom"%string /\ detalles r = []
        /\ steps (self s') = [r]).
Proof.
  split.
  - destruct (execute_step_absorbs "3. Descargar PDFs"
                (ret (true, "1 reportes descargados"%string,
                      Some [("archivos"%string, VStrList ["a.pdf"%string])]))
                world_ok st_init)
      as (r & s' & E & _ & Hok & Hmsg & Hdet & Hsteps).
    exists r, s'. repeat split; assumption.
  - destruct (execute_step_absorbs "3. Descargar PDFs" (raise boom) world_ok st_init)
      as (r & s' & E & _ & Hok & Hmsg & Hdet & Hsteps).
    exists r, s'. repeat split; assumption.
Defined.

(** ** Escalation *)

(** C6: for every failed-step name and error text, in every world,
    [_handle_error] returns normally; it has called
    [crear_ticket_error] once, with the title built from the step name and
    the error as description, and [enviar_alerta_error] once, with the
    step name, the error text and the ticket identifier then stored in
    [self] (the one just created, else the one already there, else none);
    the alert was handed to the mail relay.  Failures of Jira or of the
    relay change none of this. *)
Theorem handle_error_always_escalates (paso error : string) (w : World) (s : St) :
  exists s' tr,
    Workflow._handle_error paso error w s = (Ret tt, s')
    /\ trace s' = trace s ++ tr
    /\ tickets_of tr = [(("[AUTO] Error en Reportes MP: " ++ paso)%string, error)]
    /\ alerts_of tr = [(("Error en: " ++ paso)%string, error, ticket_jira (self s'))]
    /\ In (alert_mail w paso) tr
    /\ ((stored_of tr = [] /\ ticket_jira (self s') = ticket_jira (self s))
        \/ (exists key, stored_of tr = [key] /\ ticket_jira (self s') = Some key))
    /\ steps (self s') = steps (self s)
    /\ start_time (self s') = start_time (self s).
Proof.
  destruct (_handle_error_spec paso error w s)
    as (relay1 & stored & ticket & k & E & Hr1 & Hst).
  eexists _, _. split; [exact E|]. split; [reflexivity|].
  assert (Hs : stored = [] \/ exists key, stored = [EvTicketStored (Some key)]).
  { destruct Hst as [[-> _]|(key & -> & _)]; eauto. }
  pose proof (escalation_extend (sm_begin s)
                (mkReportWorkflow (steps (self s)) (start_time (self s)) ticket)
                ("[AUTO] Error en Reportes MP: " ++ paso)%string error relay1 stored
                ("Error en: " ++ paso)%string error ticket (alert_mail w paso)
                Hr1 Hs eq_refl) as Hx.
  unfold sm_extend in Hx. simpl in Hx. injection Hx as _ Ht Ha Hsto _.
  simpl. rewrite Ht, Ha, Hsto. repeat split.
  - apply in_cons, in_or_app. right. apply in_or_app. right. simpl. auto.
  - destruct Hst as [[-> ->]|(key & -> & ->)]; simpl; eauto.
Qed.

(** ** Verdicts *)

(** C8, as the code has it: [run_full] and [run_send_only] return a
    [(success, message)] pair in every world, whatever the collaborators
    and the observer do.  [run_validation_only], which has no
    [try/except] of its own, returns such a pair or lets an exception
    escape, and an exception that escapes is one the observer raised. *)
Theorem entry_points_verdict (w : World) (s : St) (es_prueba reporte : Z) :
  (exists b msg s', Workflow.run_full w s = (Ret (b, msg), s'))
  /\ (exists b msg s', Workflow.run_send_only es_prueba reporte w s = (Ret (b, msg), s'))
  /\ ((exists b msg s', Workflow.run_validation_only w s = (Ret (b, msg), s'))
      \/ (exists e k s',
            Workflow.run_validation_only w s = (Raise e, s')
            /\ observer w k = Some e)).
Proof.
  split; [|split].
  - destruct (triple_run _ _ _ _ (run_full_triple w s))
      as (o & s' & tr & E & _ & (b & msg & ab & -> & _)). eauto.
  - destruct (triple_run _ _ _ _ (run_send_only_triple es_prueba reporte w s))
      as (o & s' & tr & E & _ & (b & msg & r & -> & _)). eauto.
  - destruct (triple_run _ _ _ _ (run_validation_only_triple w s))
      as (o & s' & tr & E & _ & ([(b & msg & ->)|(e & k & -> & Hobs)] & _)).
    + left. eauto.
    + right. eauto.
Qed.

(** C8 fails as stated: with an observer that raises, the validation-only
    flow hands no verdict to its caller; the exception escapes. *)
Lemma validation_only_lets_observer_exception_escape :
  fst (Workflow.run_validation_only world_observer_raises st_init) = Raise boom
  /\ ~ (exists b msg s',
          Workflow.run_validation_only world_observer_raises st_init = (Ret (b, msg), s')).
Proof.
  split; [vm_compute; reflexivity|].
  intros (b & msg & s' & E). vm_compute in E. discriminate E.
Qed.

(** ** The ticket identifier *)

(** C5: within one run of any entry point, at most one ticket identifier
    is assigned to [self.ticket_jira], and an identifier assigned during
    the run is still the one stored when the run ends. *)
Theorem ticket_set_at_most_once (w : World) (s : St) (es_prueba reporte : Z) :
  stores_at_most_once s (snd (Workflow.run_full w s))
  /\ stores_at_most_once s (snd (Workflow.run_send_only es_prueba reporte w s))
  /\ stores_at_most_once s (snd (Workflow.run_validation_only w s)).
Proof.
  split; [|split].
  - destruct (triple_run _ _ _ _ (run_full_triple w s))
      as (o & s' & tr & E & Htr & (b & msg & ab & -> & _ & _ & Hesc & _)).
    rewrite E. exists tr. split; [exact Htr|].
    destruct b; simpl in Hesc.
    + left. tauto.
    + destruct Hesc as (_ & _ & _ & [[H _]|H]); auto.
  - destruct (triple_run _ _ _ _ (run_send_only_triple es_prueba reporte w s))
      as (o & s' & tr & E & Htr & (b & msg & r & -> & _ & _ & _ & _ & Hesc & _)).
    rewrite E. exists tr. split; [exact Htr|].
    destruct b; simpl in Hesc.
    + left. tauto.
    + destruct Hesc as (_ & _ & _ & [[H _]|H]); auto.
  - destruct (triple_run _ _ _ _ (run_validation_only_triple w s))
      as (o & s' & tr & E & Htr & (_ & _ & _ & H & _)).
    rewrite E. exists tr. split; [exact Htr|]. left. exact H.
Qed.

(** C10: [run_send_only] starts a new step list and a new start time but
    keeps the ticket identifier found in [self], whereas [run_full] also
    clears the identifier.  On an instance that holds the identifier [k0]
    of an earlier run, in every world, both runs return a verdict and
    - the step list at the end holds the steps recorded during this run
      and nothing else (for [run_send_only], its one step), whatever the
      list held at the start;
    - the start time at the end is the reading of the clock the run began
      with;
    - when the run stored no identifier of its own, [self.ticket_jira] at
      the end is still [k0] after [run_send_only] and is [None] after
      [run_full]; so a [run_send_only] that fails without creating a
      ticket sends its alert with [k0], and a [run_full] that does so
      sends its alert without a ticket. *)
Theorem send_only_alert_carries_stale_ticket (w : World) (s : St)
    (es_prueba reporte : Z) (k0 : string) :
  ticket_jira (self s) = Some k0 ->
  (exists b msg s' tr r,
     Workflow.run_send_only es_prueba reporte w s = (Ret (b, msg), s')
     /\ trace s' = trace s ++ tr
     /\ steps (self s') = [r] /\ observed_of tr = [r]
     /\ start_time (self s') = Some (clock w (tick s))
     /\ (stored_of tr = [] -> ticket_jira (self s') = Some k0)
     /\ (b = false -> stored_of tr = [] ->
         exists t m, alerts_of tr = [(t, m, Some k0)]))
  /\ (exists b msg s' tr,
        Workflow.run_full w s = (Ret (b, msg), s')
        /\ trace s' = trace s ++ tr
        /\ steps (self s') = observed_of tr
        /\ start_time (self s') = Some (clock w (tick s))
        /\ (stored_of tr = [] -> ticket_jira (self s') = None)
        /\ (b = false -> stored_of tr = [] ->
            exists t m, alerts_of tr = [(t, m, None)])).
Proof.
  intros Hk0. split.
  - rewrite run_send_only_start.
    match goal with |- context [try_except ?m ?h w ?s1] =>
      destruct (triple_from w s s1
                  (mkSummary [] (Some (clock w (tick s))) (ticket_jira (self s))
                             [] [] [] [] [])
                  (try_except m h) _
                  ltac:(split; [reflexivity|exists [EvTime]; repeat split])
                  (run_send_only_body_triple es_prueba reporte w s (clock w (tick s))
                     (ticket_jira (self s))))
        as (o & s' & tr & E & Htr
            & (b & msg & r & -> & Hsteps & _ & Hobs & _ & Hesc & _) & Hstart)
    end.
    rewrite E. simpl in Hsteps, Hobs, Hstart.
    exists b, msg, s', tr, r. split; [reflexivity|]. split; [exact Htr|].
    split; [exact Hsteps|]. split; [exact Hobs|]. split; [exact Hstart|].
    rewrite Hk0 in Hesc. destruct b; simpl in Hesc.
    + destruct Hesc as (_ & _ & _ & Ht & _). split; [auto|discriminate].
    + destruct Hesc as (_ & (t & m & Ha) & _ & [[Hs Ht]|(k & Hs & Ht)]).
      * split; [auto|]. intros _ _. rewrite Ht in Ha. eauto.
      * split; intros; congruence.
  - rewrite run_full_start.
    match goal with |- context [try_except ?m ?h w ?s1] =>
      destruct (triple_from w s s1
                  (mkSummary [] (Some (clock w (tick s))) None [] [] [] [] [])
                  (try_except m h) _
                  ltac:(split; [reflexivity
                               |exists [EvTime; EvTicketStored None];
                                rewrite <- app_assoc; repeat split])
                  (run_full_body_triple w s (clock w (tick s))))
        as (o & s' & tr & E & Htr
            & (b & msg & ab & -> & _ & Hobs & Hesc & _) & Hstart)
    end.
    rewrite E. simpl in Hobs, Hstart.
    exists b, msg, s', tr. split; [reflexivity|]. split; [exact Htr|].
    split; [symmetry; exact Hobs|]. split; [exact Hstart|].
    destruct b; simpl in Hesc.
    + destruct Hesc as (_ & _ & _ & Ht & _). split; [auto|discriminate].
    + destruct Hesc as (_ & (t & m & Ha) & _ & [[Hs Ht]|(k & Hs & Ht)]).
      * split; [auto|]. intros _ _. rewrite Ht in Ha. eauto.
      * split; intros; congruence.
Qed.

(** C10 at work: an instance that kept the step, the start time and the
    ticket ["DDF-7"] of an earlier run is used again while SQL Server and
    Jira are down.  [run_send_only] sends its alert with ["DDF-7"];
    [run_full] sends its alert without a ticket; both end with the steps
    and the start time of the new run only. *)
Lemma send_only_alert_carries_stale_ticket_witness :
  ticket_jira (self st_used) = Some "DDF-7"%string
  /\ (exists tr t m,
        trace (snd (Workflow.run_send_only 0 0 world_sql_and_jira_down st_used))
        = trace st_used ++ tr
        /\ alerts_of tr = [(t, m, Some "DDF-7"%string)]
        /\ List.length
             (steps (self (snd (Workflow.run_send_only 0 0 world_sql_and_jira_down
                                  st_used)))) = 1
        /\ start_time
             (self (snd (Workflow.run_send_only 0 0 world_sql_and_jira_down st_used)))
           = Some 300%Z)
  /\ (exists tr t m,
        trace (snd (Workflow.run_full world_sql_and_jira_down st_used))
        = trace st_used ++ tr
        /\ alerts_of tr = [(t, m, None)]
        /\ steps (self (snd (Workflow.run_full world_sql_and_jira_down st_used)))
           = observed_of tr
        /\ start_time (self (snd (Workflow.run_full world_sql_and_jira_down st_used)))
           = Some 300%Z).
Proof.
  split; [reflexivity|].
  destruct (send_only_alert_carries_stale_ticket world_sql_and_jira_down st_used 0 0
              "DDF-7"%string eq_refl)
    as [(b & msg & s' & tr & r & E & Htr & Hsteps & _ & Hstart & _ & Halert)
        (b2 & msg2 & s2 & tr2 & E2 & Htr2 & Hsteps2 & Hstart2 & _ & Halert2)].
  split.
  - assert (Hb : Ret (b, msg) = Ret (false, "SQL Server no disponible"%string)).
    { apply (f_equal fst) in E. vm_compute in E. symmetry. exact E. }
    injection Hb as -> ->.
    assert (Hst : stored_of (trace s') = []).
    { replace s' with (snd (Workflow.run_send_only 0 0 world_sql_and_jira_down st_used))
        by (rewrite E; reflexivity).
      vm_compute. reflexivity. }
    rewrite Htr in Hst. destruct (Halert eq_refl Hst) as (t & m & Ha).
    rewrite E. exists tr, t, m. cbn [snd]. rewrite Hsteps.
    split; [exact Htr|]. split; [exact Ha|]. split; [reflexivity|exact Hstart].
  - assert (Hb : b2 = false).
    { apply (f_equal fst) in E2. vm_compute in E2. congruence. }
    subst b2.
    assert (Hst : stored_of (trace s2) = []).
    { replace s2 with (snd (Workflow.run_full world_sql_and_jira_down st_used))
        by (rewrite E2; reflexivity).
      vm_compute. reflexivity. }
    rewrite Htr2 in Hst. destruct (Halert2 eq_refl Hst) as (t & m & Ha).
    rewrite E2. exists tr2, t, m. cbn [snd].
    split; [exact Htr2|]. split; [exact Ha|]. split; [exact Hsteps2|exact Hstart2].
Defined.

(** ** The gates of the full flow *)

(** C1, as the code has it: in [run_full], in every world, the run returns
    a verdict, and a failed record of any of the steps 1.1, 1.2, 2.1,
    2.2, 3, 4 and 5 is the last step of the run: no step is recorded after
    it, the verdict is [success = false], and the run has made exactly one
    ticket call and sent exactly one alert. *)
Theorem failed_gate_ends_run (w : World) (s : St) :
  exists b msg s' tr,
    Workflow.run_full w s = (Ret (b, msg), s')
    /\ trace s' = trace s ++ tr
    /\ forall pre r post,
         steps (self s') = pre ++ r :: post ->
         is_gate (nombre r) = true ->
         success r = false ->
         post = [] /\ b = false
         /\ List.length (tickets_of tr) = 1 /\ List.length (alerts_of tr) = 1.
Proof.
  destruct (triple_run _ _ _ _ (run_full_triple w s))
    as (o & s' & tr & E & Htr & (b & msg & ab & -> & Hmem & _ & Hesc & _)).
  exists b, msg, s', tr. split; [exact E|]. split; [exact Htr|].
  intros pre r post Hsteps Hgate Hfail.
  pose proof (mem_forallb gate_check _ _ Hmem full_paths_gate_check) as Hc.
  simpl in Hc. rewrite Hsteps, signature_app in Hc. simpl in Hc.
  assert (Hfg : failed_gate (nombre r, success r) = true).
  { unfold failed_gate. simpl. rewrite Hgate, Hfail. reflexivity. }
  apply andb_prop in Hc. destruct Hc as [Hlast Hverdict].
  apply failed_gate_is_last_split in Hlast; [|exact Hfg].
  rewrite (existsb_middle failed_gate _ _ _ Hfg) in Hverdict.
  apply andb_prop in Hverdict. destruct Hverdict as [Hb He].
  apply negb_true_iff in Hb. apply Nat.eqb_eq in He. subst b.
  assert (Hpost : post = []).
  { destruct post; [reflexivity|discriminate]. }
  simpl in Hesc. destruct Hesc as (_ & (t & m & Ha) & _).
  rewrite Ha. auto.
Qed.

(** C1 at work: the extract is stale and its refresh is cancelled. *)
Lemma failed_gate_ends_run_witness :
  exists msg s',
    Workflow.run_full world_refresh_cancelled st_init = (Ret (false, msg), s')
    /\ List.length (steps (self s')) = 2
    /\ List.length (tickets_of (trace s')) = 1
    /\ List.length (alerts_of (trace s')) = 1.
Proof.
  destruct (failed_gate_ends_run world_refresh_cancelled st_init)
    as (b & msg & s' & tr & E & Htr & H).
  assert (Hs : exists r1 r2,
             steps (self s') = [r1] ++ r2 :: []
             /\ is_gate (nombre r2) = true /\ success r2 = false).
  { replace s' with (snd (Workflow.run_full world_refresh_cancelled st_init))
      by (rewrite E; reflexivity).
    vm_compute. eexists _, _. split; [reflexivity|]. split; reflexivity. }
  destruct Hs as (r1 & r2 & Hs & Hg & Hf).
  destruct (H [r1] r2 [] Hs Hg Hf) as (_ & Hb & Ht & Ha). subst b.
  exists msg, s'. split; [exact E|]. rewrite Hs, Htr. simpl. auto.
Defined.

(** C1 fails as stated for the step "2. Validar Inventario SQL": when the
    inventory has differences the step is recorded as failed, and the run
    goes on with the corrective jobs, the cube, the PDFs, the copy and the
    mails, escalates nothing and ends with [success = true]. *)
Lemma failed_inventory_step_does_not_end_run :
  exists msg s' r,
    Workflow.run_full world_differences st_init = (Ret (true, msg), s')
    /\ nth_error (steps (self s')) 1 = Some r
    /\ nombre r = inventory_step /\ success r = false
    /\ List.length (steps (self s')) = 7
    /\ tickets_of (trace s') = [] /\ alerts_of (trace s') = [].
Proof.
  destruct (Workflow.run_full world_differences st_init) as [o s'] eqn:E.
  assert (Ho : o = fst (Workflow.run_full world_differences st_init))
    by (rewrite E; reflexivity).
  assert (Hs : s' = snd (Workflow.run_full world_differences st_init))
    by (rewrite E; reflexivity).
  vm_compute in Ho. subst o. eexists _, s', _. split; [reflexivity|].
  rewrite Hs. vm_compute. repeat split.
Qed.

(** C4: in [run_full], in every world, when the record of
    "2. Validar Inventario SQL" is a success (the reconciliation reported
    no differences), the step list of the run holds no
    "2.1 Ejecutar Jobs Correctivos" and no "2.2 Actualizar Cubo" record,
    and the step recorded next is "3. Descargar PDFs"; nothing is recorded
    next only when the observer raised on that record, which ends the
    run. *)
Theorem no_differences_skips_corrective_steps (w : World) (s : St) :
  exists b msg s',
    Workflow.run_full w s = (Ret (b, msg), s')
    /\ forall pre r post,
         steps (self s') = pre ++ r :: post ->
         nombre r = inventory_step ->
         success r = true ->
         (forall x, In x (steps (self s')) ->
                    nombre x <> jobs_step /\ nombre x <> cube_step)
         /\ match post with
            | next :: _ => nombre next = pdf_step
            | [] => exists e k, observer w k = Some e /\ msg = str e
            end.
Proof.
  destruct (triple_run _ _ _ _ (run_full_triple w s))
    as (o & s' & tr & E & Htr & (b & msg & ab & -> & Hmem & _ & _ & Hab & _)).
  exists b, msg, s'. split; [exact E|].
  intros pre r post Hsteps Hname Hok.
  pose proof (mem_forallb skip_check _ _ Hmem full_paths_skip_check) as Hc.
  simpl in Hc.
  assert (Hinv : inventory_ok (nombre r, success r) = true).
  { unfold inventory_ok. simpl. rewrite Hname, Hok, String.eqb_refl. reflexivity. }
  assert (Hex : existsb inventory_ok (signature (steps (self s'))) = true).
  { rewrite Hsteps, signature_app. simpl. apply existsb_middle. exact Hinv. }
  rewrite Hex in Hc. apply andb_prop in Hc. destruct Hc as [Hnone Hnext].
  apply negb_true_iff in Hnone. split.
  - intros x Hin.
    apply (no_corrective_in (signature (steps (self s'))) (nombre x, success x) Hnone).
    unfold signature. apply in_map_iff. eauto.
  - rewrite Hsteps, signature_app in Hnext. simpl in Hnext.
    apply pdfs_follow_inventory_split in Hnext; [|exact Hinv].
    destruct post as [|next post]; simpl in Hnext; auto.
Qed.

(** C4 at work: everything succeeds and the inventory has no
    differences. *)
Lemma no_differences_skips_corrective_steps_witness :
  exists msg s',
    Workflow.run_full world_ok st_init = (Ret (true, msg), s')
    /\ List.map nombre (steps (self s'))
       = [ "1. Validar Extracto Tableau"; inventory_step; pdf_step;
           "4. Copiar a DEADWH"; "5. Enviar Correos" ]%string
    /\ forall x, In x (steps (self s')) ->
                 nombre x <> jobs_step /\ nombre x <> cube_step.
Proof.
  destruct (no_differences_skips_corrective_steps world_ok st_init)
    as (b & msg & s' & E & H).
  assert (Hb : b = true).
  { apply (f_equal fst) in E. vm_compute in E. congruence. }
  subst b.
  assert (Hs : exists r1 r2 post,
             steps (self s') = [r1] ++ r2 :: post
             /\ nombre r2 = inventory_step /\ success r2 = true
             /\ List.map nombre (steps (self s'))
                = [ "1. Validar Extracto Tableau"; inventory_step; pdf_step;
                    "4. Copiar a DEADWH"; "5. Enviar Correos" ]%string).
  { replace s' with (snd (Workflow.run_full world_ok st_init))
      by (rewrite E; reflexivity).
    vm_compute. eexists _, _, _. split; [reflexivity|]. repeat split. }
  destruct Hs as (r1 & r2 & post & Hs & Hn & Hok & Hnames).
  destruct (H [r1] r2 post Hs Hn Hok) as (Hnone & _).
  exists msg, s'. auto.
Defined.

(** ** The validation-only flow *)

(** C7: [run_validation_only] never escalates.  In every world, whatever
    the freshness check, the refresh and the recheck do, the run ends
    (with a verdict or with the observer's exception) having made no
    ticket call, sent no alert and no mail, created no Jira issue and
    left [self.ticket_jira] as it was; every event of the run is a
    reading of the clock, a call to Tableau Server or the call of the
    observer on a recorded step. *)
Theorem validation_only_never_escalates (w : World) (s : St) :
  exists o s' tr,
    Workflow.run_validation_only w s = (o, s')
    /\ o <> OutOfFuel
    /\ trace s' = trace s ++ tr
    /\ forallb validation_event tr = true
    /\ tickets_of tr = [] /\ alerts_of tr = [] /\ stored_of tr = []
    /\ (forall ev, In ev tr -> relay_event ev = false)
    /\ ticket_jira (self s') = ticket_jira (self s).
Proof.
  destruct (run_validation_only_stays w s) as (o & rw & tr & k & E & Htr & Hrw & Ho).
  eexists o, _, tr. split; [exact E|]. simpl.
  repeat split; auto using validation_tickets, validation_alerts, validation_stored.
  intros ev Hin. eapply validation_not_relay; eauto.
Qed.

(** ** The corrective jobs *)

(** C3: for every list of corrective actions, in every world,
    [_ejecutar_jobs_correctivos] hands to [execute_job] the jobs named by
    every action (a cell that is [None], [0] or [''], or a missing key,
    names none), [Accion1] before [Accion2], actions in list order,
    whether or not earlier jobs failed, and every one of these calls
    returns.  It reports [success = true] exactly when no job failed,
    that is when the list of failure texts is empty; on failure its
    message is ["Errores en jobs: "] followed by the failure texts
    ["job: message"] of all failed jobs, in order, joined by ["; "]. *)
Theorem corrective_jobs_run_all (cfg : SQLServerConfig) (acciones : list row)
    (w : World) (s : St) :
  exists ok msg s' tr,
    Workflow._ejecutar_jobs_correctivos cfg acciones w s = (Ret (ok, msg, Some []), s')
    /\ trace s' = trace s ++ tr
    /\ jobs_of tr = attempted acciones
    /\ map job_name_of (results_of tr) = attempted acciones
    /\ (ok = true <-> flat_map failure_text (results_of tr) = [])
    /\ ok = forallb job_ok (results_of tr)
    /\ msg = (if ok
              then str_nat (List.length acciones) ++ " ubicaciones corregidas"
              else "Errores en jobs: "
                   ++ join "; " (flat_map failure_text (results_of tr)))%string.
Proof.
  unfold Workflow._ejecutar_jobs_correctivos, bind.
  destruct (jobs_loop_spec cfg acciones [] w s) as (tr & k & E & Hj & Hr).
  rewrite named_jobs_attempted in Hj, Hr.
  rewrite E. simpl app.
  pose proof (no_failure_text (results_of tr)) as Hnone.
  destruct (flat_map failure_text (results_of tr)) as [|x errores] eqn:Herr; simpl.
  - eexists true, _, _, tr. split; [reflexivity|]. simpl.
    repeat split; auto. symmetry. apply Hnone. reflexivity.
  - eexists false, _, _, tr. split; [reflexivity|]. simpl.
    repeat split; auto; try congruence.
    + destruct (forallb job_ok (results_of tr)); [|reflexivity].
      destruct Hnone as [_ Hnone]. discriminate (Hnone eq_refl).
    + rewrite Herr. reflexivity.
Qed.

(** C3 at work: SQL Server rejects the start of the first job and of the
    third; the three jobs are started all the same, in order, and the
    message joins the two failures. *)
Lemma corrective_jobs_run_all_witness :
  exists s' tr,
    Workflow._ejecutar_jobs_correctivos (sql_infocentral cfg0) two_actions
      world_two_starts_rejected st_init
    = (Ret (false,
            "Errores en jobs: JobA1: El job no existe; JobB1: El job ya esta en ejecucion"%string,
            Some []), s')
    /\ trace s' = tr
    /\ jobs_of tr = ["JobA1"; "JobA2"; "JobB1"]%string
    /\ results_of tr
       = [ ("JobA1", false, "El job no existe");
           ("JobA2", true, "Job completado exitosamente");
           ("JobB1", false, "El job ya esta en ejecucion") ]%string.
Proof.
  destruct (corrective_jobs_run_all (sql_infocentral cfg0) two_actions
              world_two_starts_rejected st_init)
    as (ok & msg & s' & tr & E & Htr & Hjobs & _ & _ & _ & _).
  assert (Ho : Ret (ok, msg, Some [])
               = Ret (false,
                      "Errores en jobs: JobA1: El job no existe; JobB1: El job ya esta en ejecucion"%string,
                      @Some dict [])).
  { apply (f_equal fst) in E. vm_compute in E. symmetry. exact E. }
  injection Ho as -> ->.
  exists s', tr. split; [exact E|]. simpl in Htr. split; [exact Htr|].
  split; [exact Hjobs|].
  rewrite <- Htr.
  replace s' with (snd (Workflow._ejecutar_jobs_correctivos (sql_infocentral cfg0)
                          two_actions world_two_starts_rejected st_init))
    by (rewrite E; reflexivity).
  vm_compute. reflexivity.
Defined.

(** ** The poll loops *)

(** C9, as the code has it.  With enough fuel for the remaining wait (and
    a positive check interval for the job wait; the default is 10), both
    waits end in every world.  What a wait does is a sequence of rounds
    and nothing else: each round is a sleep of the fixed interval (10 s
    for the refresh, the check interval for the job) followed by one
    status request, and no round starts once the accumulated wait has
    reached the maximum.
    - The refresh wait returns success on the first answer with finish
      code 0, failure on the first answer with finish code 1 (failed) or
      2 (cancelled), and the timeout failure when every round saw the job
      still going.
    - The job wait returns success on the first answer whose activity
      line has a stop date, whatever the outcome of the job, and the
      timeout failure when every round saw no line or no stop date: it
      has no exit on a failed or cancelled job.
    A timeout is a returned [(False, message)], not an exception; an
    exception of a status request leaves the loop, to be turned into a
    failure by the enclosing [try]. *)
Theorem poll_loops_are_bounded (w : World) (s : St) (fuel : nat) (job : JobItem)
    (cfg : SQLServerConfig) (name : string) (interval max_wait total : Z) :
  (0 < interval)%Z ->
  (max_wait - total <= Z.of_nat fuel * 10)%Z ->
  (max_wait - total <= Z.of_nat fuel * interval)%Z ->
  let refresh := TableauClient.wait_refresh fuel job max_wait total w s in
  let waited := SQLClient.wait_job fuel cfg name interval max_wait total w s in
  (fst refresh <> OutOfFuel
   /\ exists ids,
        trace (snd refresh) = trace s ++ flat_map refresh_round ids
        /\ within (List.length ids) 10 max_wait total
        /\ (forall id, hd_error ids = Some id -> id = job_id job))
  /\ (fst waited <> OutOfFuel
      /\ exists n,
           trace (snd waited)
           = trace s ++ List.concat (List.repeat (job_round cfg name interval) n)
           /\ within n interval max_wait total)
  /\ (forall n,
        (forall i, i < n -> refresh_pending (job_item w (tick s + i)) = true) ->
        (total + 10 * Z.of_nat n < max_wait)%Z ->
        refresh_decides (job_item w (tick s + n)) (fst refresh))
  /\ ((forall i, (total + 10 * Z.of_nat i < max_wait)%Z ->
                 refresh_pending (job_item w (tick s + i)) = true) ->
      fst refresh = refresh_timeout max_wait)
  /\ (forall n,
        (forall i, i < n -> job_pending (activity w (tick s + i)) = true) ->
        (total + interval * Z.of_nat n < max_wait)%Z ->
        job_decides (activity w (tick s + n)) (fst waited))
  /\ ((forall i, (total + interval * Z.of_nat i < max_wait)%Z ->
                 job_pending (activity w (tick s + i)) = true) ->
      fst waited = job_timeout max_wait).
Proof.
  intros Hpos Hfuel10 Hfuel refresh waited. subst refresh waited.
  split; [|split; [|split; [|split; [|split]]]].
  - destruct (wait_refresh_rounds fuel job max_wait total Hfuel10 w s)
      as (o & tr & k & E & _ & Ho).
    destruct (wait_refresh_shape fuel job max_wait total w s) as (o' & ids & E' & Hin & Hid).
    rewrite E'. rewrite E' in E. injection E as -> _ _. simpl. eauto.
  - destruct (wait_job_rounds fuel cfg name interval max_wait total Hpos Hfuel w s)
      as (o & tr & k & E & _ & Ho).
    destruct (wait_job_shape fuel cfg name interval max_wait total w s ltac:(lia))
      as (o' & n & E' & Hin).
    rewrite E'. rewrite E' in E. injection E as -> _ _. simpl. eauto.
  - intros n Hpend Hn. apply wait_refresh_decided; assumption.
  - intros Hpend. apply wait_refresh_timeout; assumption.
  - intros n Hpend Hn. apply wait_job_decided; assumption.
  - intros Hpend. apply wait_job_timeout; assumption.
Qed.

(** C9 at work: a refresh job that never finishes, waited for with the
    default maximum of 300 seconds, and a job found stopped at the first
    status query. *)
Lemma poll_loops_are_bounded_witness :
  fst (TableauClient.wait_refresh 31 (mkJobItem "job-1" (-1) "") 300 0
         world_refresh_hangs st_init)
  = Ret (false, "Timeout después de 300s"%string)
  /\ fst (SQLClient.wait_job 31 (sql_cubosofi cfg0) "JobA1" 10 300 0
            world_refresh_hangs st_init)
     = Ret (true, "Job completado exitosamente"%string)
  /\ (exists ids,
        trace (snd (TableauClient.wait_refresh 31 (mkJobItem "job-1" (-1) "") 300 0
                      world_refresh_hangs st_init))
        = flat_map refresh_round ids
        /\ List.length ids <= 30)
  /\ (exists n,
        trace (snd (SQLClient.wait_job 31 (sql_cubosofi cfg0) "JobA1" 10 300 0
                      world_refresh_hangs st_init))
        = List.concat (List.repeat (job_round (sql_cubosofi cfg0) "JobA1" 10) n)
        /\ n <= 30).
Proof.
  destruct (poll_loops_are_bounded world_refresh_hangs st_init 31
              (mkJobItem "job-1" (-1) "") (sql_cubosofi cfg0) "JobA1"%string 10 300 0)
    as ((_ & ids & Hids & Hin & _) & (_ & n & Hn & Hjn) & _ & Htimeout & Hdecided & _);
    [lia|lia|lia|].
  split; [|split; [|split]].
  - change (Ret (false, "Timeout después de 300s"%string)) with (refresh_timeout 300).
    apply Htimeout. intros i _. reflexivity.
  - apply (Hdecided 0); [intros i Hi; lia|lia|discriminate].
  - exists ids. split; [exact Hids|]. destruct Hin as [H|H]; lia.
  - exists n. split; [exact Hn|]. destruct Hjn as [H|H]; lia.
Defined.

(** C9 fails as stated for the job wait: a job that stopped in failure is
    reported as completed successfully; [execute_job] returns no
    failure. *)
Lemma failed_job_is_reported_completed :
  run_outcome stopped_failed = 0%Z
  /\ fst (SQLClient.execute_job (sql_cubosofi cfg0) "BI Inventario Chatarra 5:15 am"
            world_job_failed st_init)
     = Ret (true, "Job completado exitosamente"%string)
  /\ ~ (exists msg,
          fst (SQLClient.execute_job (sql_cubosofi cfg0) "BI Inventario Chatarra 5:15 am"
                 world_job_failed st_init)
          = Ret (false, msg)).
Proof.
  split; [reflexivity|]. split; [vm_compute; reflexivity|].
  intros (msg & E). vm_compute in E. discriminate E.
Qed.

(** The entry points of the two waits, with their default arguments,
    never hang either. *)
Lemma waits_with_defaults_end (cfg : SQLServerConfig) (name : string)
    (t : TableauClient.t) (w : World) (s : St) :
  (exists ok msg, fst (SQLClient.execute_job cfg name w s) = Ret (ok, msg))
  /\ fst (TableauClient.refresh_extracto t w s) <> OutOfFuel.
Proof.
  split.
  - destruct (execute_job_spec cfg name w s) as (ok & msg & tr & k & E & _).
    rewrite E. simpl. eauto.
  - destruct (refresh_extracto_confined t w s) as (o & tr & k & E & _ & Ho).
    rewrite E. exact Ho.
Qed.

(** The slip next to C1: when the inventory validation raises, its step is
    recorded as failed without details, nothing is escalated at that
    point and the run goes on with the PDF download. *)
Lemma inventory_exception_is_not_escalated :
  signature (steps (self (snd (Workflow.run_full world_sql_and_jira_down st_init))))
  = [ ("1. Validar Extracto Tableau", true); (inventory_step, false); (pdf_step, true);
      ("4. Copiar a DEADWH", true); ("5. Enviar Correos", false) ]%string
  /\ List.map fst (tickets_of (trace (snd (Workflow.run_full world_sql_and_jira_down st_init))))
     = [ "[AUTO] Error en Reportes MP: Envío de Correos" ]%string.
Proof. vm_compute. split; reflexivity. Qed.

(* ================================================================== *)
(** * Part IV: further properties of the code *)
(* ================================================================== *)

(** ** The step list and the observer *)

Lemma full_paths_order_check : forallb order_check full_paths = true.
Proof. vm_compute. reflexivity. Qed.

Lemma full_paths_success_check : forallb success_check full_paths = true.
Proof. vm_compute. reflexivity. Qed.

Lemma subsequence_nil b : subsequence [] b = true.
Proof. destruct b; reflexivity. Qed.

Lemma subsequence_length a b :
  subsequence a b = true -> List.length a <= List.length b.
Proof.
  revert a. induction b as [|y b IH]; intros [|x a]; simpl; intros H;
    try discriminate; try lia.
  destruct (String.eqb x y).
  - apply IH in H. lia.
  - apply IH in H. simpl in H. lia.
Qed.

Lemma subsequence_In a b x : subsequence a b = true -> In x a -> In x b.
Proof.
  revert a. induction b as [|y b IH]; intros [|z a]; simpl; intros H Hin;
    try contradiction; try discriminate.
  destruct (String.eqb_spec z y) as [->|Hne].
  - destruct Hin as [->|Hin]; [auto|]. right. eapply IH; eauto.
  - right. eapply IH; eauto.
Qed.

Lemma subsequence_NoDup a b : subsequence a b = true -> NoDup b -> NoDup a.
Proof.
  revert a. induction b as [|y b IH]; intros [|x a]; simpl; intros H Hb;
    try constructor; try discriminate.
  - inversion Hb as [|? ? Hy Hb']; subst.
    destruct (String.eqb_spec x y) as [->|Hne].
    + intros Hin. apply Hy. eapply subsequence_In; eauto.
    + specialize (IH _ H Hb'). inversion IH; assumption.
  - inversion Hb as [|? ? Hy Hb']; subst.
    destruct (String.eqb_spec x y) as [->|Hne].
    + apply IH; assumption.
    + specialize (IH _ H Hb'). inversion IH; assumption.
Qed.

Lemma pipeline_NoDup : NoDup pipeline.
Proof.
  unfold pipeline.
  repeat (constructor; [simpl; intros H;
                        repeat (destruct H as [H|H]; [discriminate H|]); exact H|]).
  constructor.
Qed.

Lemma signature_names rs : List.map fst (signature rs) = List.map nombre rs.
Proof. unfold signature. rewrite map_map. reflexivity. Qed.

Lemma signature_rev rs : rev (signature rs) = signature (rev rs).
Proof. unfold signature. symmetry. apply map_rev. Qed.

(** X1: In every world run_full returns a verdict, and the names of the
    steps it recorded are the nine pipeline step names (1, 1.1, 1.2, 2, 2.1,
    2.2, 3, 4, 5) with some left out: in pipeline order, no step recorded
    twice, at least one and at most nine steps. *)
Theorem full_run_follows_pipeline (w : World) (s : St) :
  exists b msg s',
    Workflow.run_full w s = (Ret (b, msg), s')
    /\ subsequence (List.map nombre (steps (self s'))) pipeline = true
    /\ NoDup (List.map nombre (steps (self s')))
    /\ 1 <= List.length (steps (self s')) <= 9.
Proof.
  destruct (triple_run _ _ _ _ (run_full_triple w s))
    as (o & s' & tr & E & Htr & (b & msg & ab & -> & Hmem & _)).
  exists b, msg, s'. split; [exact E|].
  pose proof (mem_forallb order_check _ _ Hmem full_paths_order_check) as Hc.
  change (subsequence (List.map fst (signature (steps (self s')))) pipeline = true) in Hc.
  rewrite signature_names in Hc.
  split; [exact Hc|]. split; [exact (subsequence_NoDup _ _ Hc pipeline_NoDup)|].
  split.
  - pose proof (mem_forallb (fun a => negb (Nat.eqb (List.length (fst (fst (fst a)))) 0))
                  _ _ Hmem ltac:(vm_compute; reflexivity)) as Hn.
    cbn [fst summary_of sm_steps] in Hn. unfold signature in Hn.
    rewrite length_map in Hn.
    destruct (steps (self s')); [discriminate|simpl; lia].
  - apply subsequence_length in Hc. rewrite length_map in Hc. exact Hc.
Qed.

Lemma delivered_steps (rs : list StepResult) :
  delivered (rev (signature rs)) = true ->
  exists pre r3 r4 r5,
    rs = pre ++ [r3; r4; r5]
    /\ nombre r3 = pdf_step /\ success r3 = true
    /\ nombre r4 = "4. Copiar a DEADWH"%string /\ success r4 = true
    /\ nombre r5 = "5. Enviar Correos"%string /\ success r5 = true
    /\ forall r, In r pre -> success r = false -> is_validation (nombre r) = true.
Proof.
  rewrite signature_rev. intros H.
  destruct (rev rs) as [|r5 [|r4 [|r3 rest]]] eqn:Hrev; try discriminate H.
  cbn [signature map delivered] in H.
  repeat (apply andb_prop in H; destruct H as [H ?]).
  repeat match goal with
         | H : String.eqb _ _ = true |- _ => apply String.eqb_eq in H
         end.
  exists (rev rest), r3, r4, r5. split.
  - rewrite <- (rev_involutive rs), Hrev. simpl. rewrite <- !app_assoc. reflexivity.
  - repeat (split; [assumption|]).
    intros r Hin Hfail. apply in_rev in Hin.
    match goal with Hall : forallb _ _ = true |- _ =>
      rewrite forallb_forall in Hall;
      specialize (Hall (nombre r, success r)
                    ltac:(apply in_map_iff; exists r; split; [reflexivity|exact Hin]))
    end.
    cbn [fst snd] in *. match goal with Hall : _ || _ = true |- _ =>
      rewrite Hfail in Hall; exact Hall end.
Qed.

(** X2: When run_full returns success=True, its last three recorded steps
    are '3. Descargar PDFs', '4. Copiar a DEADWH' and '5. Enviar Correos',
    all successful; any failed step recorded before them is one of the two
    validations ('1. Validar Extracto Tableau', '2. Validar Inventario
    SQL'); the run made no ticket call and sent no alert, and sent one
    summary that carries exactly the recorded step list. *)
Theorem full_run_success_means_delivered (w : World) (s : St) :
  exists b msg s' tr,
    Workflow.run_full w s = (Ret (b, msg), s')
    /\ trace s' = trace s ++ tr
    /\ (b = true ->
        (exists pre r3 r4 r5,
           steps (self s') = pre ++ [r3; r4; r5]
           /\ nombre r3 = pdf_step /\ success r3 = true
           /\ nombre r4 = "4. Copiar a DEADWH"%string /\ success r4 = true
           /\ nombre r5 = "5. Enviar Correos"%string /\ success r5 = true
           /\ forall r, In r pre -> success r = false -> is_validation (nombre r) = true)
        /\ tickets_of tr = [] /\ alerts_of tr = []
        /\ summaries_of tr = [steps (self s')]).
Proof.
  destruct (triple_run _ _ _ _ (run_full_triple w s))
    as (o & s' & tr & E & Htr & (b & msg & ab & -> & Hmem & _ & Hesc & _)).
  exists b, msg, s', tr. split; [exact E|]. split; [exact Htr|]. intros ->.
  pose proof (mem_forallb success_check _ _ Hmem full_paths_success_check) as Hc.
  unfold success_check in Hc. cbn [summary_of sm_steps] in Hc.
  apply andb_prop in Hc. destruct Hc as [Hc _].
  apply andb_prop in Hc. destruct Hc as [Hc _].
  split; [exact (delivered_steps _ Hc)|].
  simpl in Hesc. destruct Hesc as (Ht & Ha & _ & _ & Hsum). auto.
Qed.

(** X3: For each of the three entry points, however the run ends (also when
    run_validation_only lets an observer exception escape): the results
    handed to on_step_complete during the run are exactly self.steps at the
    end of the run, in the same order. *)
Theorem recorded_steps_are_the_observed_ones (w : World) (s : St)
    (es_prueba reporte : Z) :
  (exists o s' tr,
     Workflow.run_full w s = (o, s')
     /\ trace s' = trace s ++ tr /\ observed_of tr = steps (self s'))
  /\ (exists o s' tr,
        Workflow.run_send_only es_prueba reporte w s = (o, s')
        /\ trace s' = trace s ++ tr /\ observed_of tr = steps (self s'))
  /\ (exists o s' tr,
        Workflow.run_validation_only w s = (o, s')
        /\ trace s' = trace s ++ tr /\ observed_of tr = steps (self s')).
Proof.
  split; [|split].
  - destruct (triple_run _ _ _ _ (run_full_triple w s))
      as (o & s' & tr & E & Htr & (b & msg & ab & _ & _ & Hobs & _)).
    exists o, s', tr. auto.
  - destruct (triple_run _ _ _ _ (run_send_only_triple es_prueba reporte w s))
      as (o & s' & tr & E & Htr & (b & msg & r & _ & Hsteps & _ & Hobs & _)).
    exists o, s', tr. simpl in Hsteps, Hobs. repeat split; auto. congruence.
  - destruct (triple_run _ _ _ _ (run_validation_only_triple w s))
      as (o & s' & tr & E & Htr & (_ & _ & _ & _ & _ & _ & Hobs)).
    exists o, s', tr. auto.
Qed.



(** The send-only flow, with the reason of its verdict. *)
Lemma run_send_only_verdict_triple es_prueba reporte w s :
  triple w s (sm_begin s) (Workflow.run_send_only es_prueba reporte) (send_verdict w).
Proof.
  unfold Workflow.run_send_only. walk.
  all: unfold send_verdict; norm; do 3 eexists; split; [reflexivity|];
    (split; [reflexivity|]); (split; [assumption|]).
  all: first
    [ left; repeat split; eauto; fail
    | right; left; repeat split; eauto; fail
    | right; right; repeat split; eauto; fail ].
Qed.

(** X5: run_send_only always returns and records exactly one step, 'Enviar
    Correos'. It ends in one of three ways: (a) success, the step succeeded,
    no ticket, no alert, one summary of that step, message 'Correos enviados
    exitosamente en <t>s'; (b) failure with the step's message, the step
    failed, one ticket titled '... Envío de Correos'; (c) failure with the
    text of an exception the observer raised, one ticket titled '... Error
    Inesperado', whether or not the mailing step itself had succeeded. *)
Theorem send_only_verdict (w : World) (s : St) (es_prueba reporte : Z) :
  exists b msg s' tr r,
    Workflow.run_send_only es_prueba reporte w s = (Ret (b, msg), s')
    /\ trace s' = trace s ++ tr
    /\ steps (self s') = [r]
    /\ nombre r = "Enviar Correos"%string
    /\ ((b = true /\ success r = true
         /\ tickets_of tr = [] /\ alerts_of tr = [] /\ summaries_of tr = [[r]]
         /\ exists t, msg = ("Correos enviados exitosamente en " ++ fmt_2f t ++ "s")%string)
        \/ (b = false /\ success r = false /\ msg = mensaje r
            /\ tickets_of tr
               = [("[AUTO] Error en Reportes MP: Envío de Correos"%string, mensaje r)]
            /\ summaries_of tr = [])
        \/ (b = false /\ (exists e k, observer w k = Some e /\ msg = str e)
            /\ tickets_of tr = [("[AUTO] Error en Reportes MP: Error Inesperado"%string, msg)]
            /\ summaries_of tr = [])).
Proof.
  destruct (triple_run _ _ _ _ (run_send_only_verdict_triple es_prueba reporte w s))
    as (o & s' & tr & E & Htr & (b & msg & r & -> & Hsteps & Hn & H)).
  exists b, msg, s', tr, r. simpl in Hsteps, H. auto.
Qed.

(** ** The Tableau session *)

(** X6: with TableauClient() as tableau: body runs the body whether or not
    the sign-in succeeded (the client is then marked not connected). If the
    sign-in succeeded, exactly one sign-out follows the body, whether the
    body returned or raised, and an error of the sign-out is swallowed; if
    it failed, no sign-out is attempted. The outcome of the block is the
    outcome of the body. *)
Theorem with_client_closes_the_session {A : Type} (body : TableauClient.t -> M A)
    (w : World) (s : St) :
  let connected := signs_in w (tick s) in
  match body connected w (asked s EvSignIn) with
  | (OutOfFuel, s2) => TableauClient.with_client body w s = (OutOfFuel, s2)
  | (o, s2) =>
      TableauClient.with_client body w s
      = (o, if connected then asked s2 EvSignOut else s2)
  end.
Proof.
  unfold TableauClient.with_client, TableauClient.connect, TableauClient.disconnect,
    signs_in, asked, finally, try_except, ask_effect, bind, ask, raise, ret.
  cbn [self trace tick].
  destruct (effect w (tick s)) as [e|].
  - destruct (body false w _) as [[a|e'|] s2]; reflexivity.
  - destruct (body true w _) as [[a|e'|] s2]; try reflexivity;
      destruct (effect w (tick s2)); reflexivity.
Qed.

Lemma op_validar_offline w s :
  Workflow.op_validar false w s = (Raise TableauClient.not_connected, s).
Proof. reflexivity. Qed.

Lemma refresh_offline w s :
  Workflow.with_empty_details (TableauClient.refresh_extracto false) w s
  = (Raise TableauClient.not_connected, s).
Proof. reflexivity. Qed.

(** A step whose operation raises at once, with a silent observer. *)
Lemma _execute_step_offline name (func : Workflow.Operation) w s :
  (forall s1, func w s1 = (Raise TableauClient.not_connected, s1)) ->
  (forall k, observer w k = None) ->
  exists r,
    Workflow._execute_step name func w s
    = (Ret r, with_step (after_clock (after_clock s)) r)
    /\ nombre r = name /\ success r = false
    /\ mensaje r = "No conectado a Tableau Server"%string.
Proof.
  intros Hf Hobs. rewrite _execute_step_eq, Hf. cbn [step_record].
  unfold observer_outcome. rewrite Hobs. eexists. split; [reflexivity|].
  repeat split.
Qed.

Lemma relay_no_request tr :
  forallb relay_event tr = true ->
  forallb (fun ev => negb (tableau_request ev)) tr = true.
Proof. apply forallb_weaken. intros []; simpl; congruence. Qed.

Lemma run_validation_only_offline (w : World) (s : St) (e : exn) :
  effect w (S (tick s)) = Some e ->
  (forall k, observer w k = None) ->
  exists s' tr r1 r2,
    Workflow.run_validation_only w s
    = (Ret (false, "No conectado a Tableau Server"%string), s')
    /\ trace s' = trace s ++ tr
    /\ forallb (fun ev => negb (tableau_request ev)) tr = true
    /\ steps (self s') = [r1; r2]
    /\ signature [r1; r2]
       = [("Validar Extracto Tableau", false); ("Refresh Extracto", false)]%string.
Proof.
  intros Hsign Hobs.
  unfold Workflow.run_validation_only, TableauClient.with_client, TableauClient.connect.
  unfold bind at 1, time_time, ask. unfold bind at 1, set_start_time, bind at 1, get_self.
  unfold put_self. cbn [self trace tick]. unfold bind at 1, set_steps, bind at 1, get_self, put_self.
  cbn [self trace tick steps start_time ticket_jira].
  unfold bind at 1, try_except at 1, bind at 1, ask_effect, bind at 1, ask.
  cbn [self trace tick]. rewrite Hsign. unfold raise at 1. cbv iota beta. unfold ret at 1.
  unfold finally. unfold bind at 1.
  match goal with |- context [Workflow._execute_step ?n ?f w ?st] =>
    destruct (_execute_step_offline n f w st (op_validar_offline w) Hobs)
      as (r1 & E1 & Hn1 & Hs1 & Hm1); rewrite E1 end.
  rewrite Hs1. unfold bind at 1.
  match goal with |- context [Workflow._execute_step ?n ?f w ?st] =>
    destruct (_execute_step_offline n f w st (refresh_offline w) Hobs)
      as (r2 & E2 & Hn2 & Hs2 & Hm2); rewrite E2 end.
  rewrite Hs2. unfold ret, TableauClient.disconnect. rewrite Hm2.
  eexists _, _, r1, r2. split; [reflexivity|].
  unfold with_step, after_clock. cbn [self trace tick steps app].
  split; [repeat rewrite <- app_assoc; reflexivity|].
  split; [reflexivity|]. split; [reflexivity|].
  unfold signature. cbn [map]. rewrite Hn1, Hn2, Hs1, Hs2. reflexivity.
Qed.

Lemma run_full_offline (w : World) (s : St) (e : exn) :
  effect w (S (tick s)) = Some e ->
  (forall k, observer w k = None) ->
  exists s' tr r1 r2,
    Workflow.run_full w s
    = (Ret (false, "Error en extracto: No conectado a Tableau Server"%string), s')
    /\ trace s' = trace s ++ tr
    /\ forallb (fun ev => negb (tableau_request ev)) tr = true
    /\ steps (self s') = [r1; r2]
    /\ signature [r1; r2]
       = [("1. Validar Extracto Tableau", false); ("1.1 Refresh Extracto", false)]%string
    /\ tickets_of tr
       = [("[AUTO] Error en Reportes MP: Refresh de Extracto",
           "No conectado a Tableau Server")]%string.
Proof.
  intros Hsign Hobs.
  unfold Workflow.run_full.
  unfold bind at 1, time_time, ask. unfold bind at 1, set_start_time, bind at 1, get_self.
  unfold put_self. cbn [self trace tick]. unfold bind at 1, set_steps, bind at 1, get_self, put_self.
  cbn [self trace tick steps start_time ticket_jira].
  unfold bind at 1, set_ticket_jira, bind at 1, get_self, bind at 1, put_self, emit.
  cbn [self trace tick steps start_time ticket_jira].
  unfold try_except, Workflow.then_ at 1, bind at 1.
  unfold Workflow.paso_1, TableauClient.with_client, TableauClient.connect.
  unfold bind at 1, try_except at 1, bind at 1, ask_effect, bind at 1, ask.
  cbn [self trace tick]. rewrite Hsign. unfold raise at 1. cbv iota beta. unfold ret at 1.
  unfold finally. unfold bind at 1.
  match goal with |- context [Workflow._execute_step ?n ?f w ?st] =>
    destruct (_execute_step_offline n f w st (op_validar_offline w) Hobs)
      as (r1 & E1 & Hn1 & Hs1 & Hm1); rewrite E1 end.
  rewrite Hs1. cbn [negb]. unfold bind at 1.
  match goal with |- context [Workflow._execute_step ?n ?f w ?st] =>
    destruct (_execute_step_offline n f w st (refresh_offline w) Hobs)
      as (r2 & E2 & Hn2 & Hs2 & Hm2); rewrite E2 end.
  rewrite Hs2. cbn [negb]. unfold Workflow.escalate_and_return, bind at 1.
  match goal with |- context [Workflow._handle_error ?p ?m w ?st] =>
    destruct (_handle_error_spec p m w st)
      as (relay1 & stored & ticket & k & E3 & Hr1 & Hst); rewrite E3 end.
  unfold ret, TableauClient.disconnect. rewrite Hm2.
  eexists _, _, r1, r2. split; [reflexivity|].
  unfold with_step, after_clock. cbn [self trace tick steps app].
  split; [repeat rewrite <- app_assoc; reflexivity|].
  assert (Hstored : forallb (fun ev => negb (tableau_request ev)) stored = true
                    /\ tickets_of stored = []).
  { destruct Hst as [[-> _]|(key & -> & _)]; split; reflexivity. }
  destruct Hstored as [Hs3 Hs4].
  split; [|split; [reflexivity|split]].
  - cbn [app forallb tableau_request negb andb].
    rewrite forallb_app, (relay_no_request _ Hr1), forallb_app, Hs3. reflexivity.
  - unfold signature. cbn [map]. rewrite Hn1, Hn2, Hs1, Hs2. reflexivity.
  - cbn [app tickets_of flat_map].
    change (flat_map _ ?l) with (tickets_of l).
    rewrite tickets_of_app, (relay_tickets _ Hr1), tickets_of_app, Hs4. reflexivity.
Qed.

(** X7: If Tableau Server refuses the sign-in and the observer does not
    raise: run_validation_only returns (False, 'No conectado a Tableau
    Server') after recording two failed steps (the validation and the
    refresh); run_full returns (False, 'Error en extracto: No conectado a
    Tableau Server') after recording '1. Validar Extracto Tableau' and '1.1
    Refresh Extracto' as failed and making one ticket call for 'Refresh de
    Extracto'. Neither run sends any further request to Tableau Server. *)
Theorem refused_sign_in_fails_the_run (w : World) (s : St) (e : exn) :
  effect w (S (tick s)) = Some e ->
  (forall k, observer w k = None) ->
  (exists s' tr r1 r2,
     Workflow.run_validation_only w s
     = (Ret (false, "No conectado a Tableau Server"%string), s')
     /\ trace s' = trace s ++ tr
     /\ forallb (fun ev => negb (tableau_request ev)) tr = true
     /\ steps (self s') = [r1; r2]
     /\ signature [r1; r2]
        = [("Validar Extracto Tableau", false); ("Refresh Extracto", false)]%string)
  /\ (exists s' tr r1 r2,
        Workflow.run_full w s
        = (Ret (false, "Error en extracto: No conectado a Tableau Server"%string), s')
        /\ trace s' = trace s ++ tr
        /\ forallb (fun ev => negb (tableau_request ev)) tr = true
        /\ steps (self s') = [r1; r2]
        /\ signature [r1; r2]
           = [("1. Validar Extracto Tableau", false); ("1.1 Refresh Extracto", false)]%string
        /\ tickets_of tr
           = [("[AUTO] Error en Reportes MP: Refresh de Extracto",
               "No conectado a Tableau Server")]%string).
Proof.
  intros Hsign Hobs. split.
  - exact (run_validation_only_offline w s e Hsign Hobs).
  - exact (run_full_offline w s e Hsign Hobs).
Qed.

(** X7 at work: the sign-in is refused with an authentication error. *)
Lemma refused_sign_in_fails_the_run_witness :
  signs_in world_no_sign_in (S (tick st_init)) = false
  /\ fst (Workflow.run_validation_only world_no_sign_in st_init)
     = Ret (false, "No conectado a Tableau Server"%string)
  /\ fst (Workflow.run_full world_no_sign_in st_init)
     = Ret (false, "Error en extracto: No conectado a Tableau Server"%string).
Proof.
  split; [reflexivity|].
  destruct (refused_sign_in_fails_the_run world_no_sign_in st_init
              (mkExn Exception "401001: Signin Error") eq_refl (fun _ => eq_refl))
    as [(s1 & tr1 & a1 & a2 & E1 & _) (s2 & tr2 & b1 & b2 & E2 & _)].
  rewrite E1, E2. split; reflexivity.
Defined.

(** X8: refresh_extracto raises only from the datasource lookup:
    RuntimeError when the client is not connected (nothing is sent), or the
    error of the lookup. When the datasource is not found it returns (False,
    'Datasource '<name>' no encontrado') without requesting a refresh. Once
    the datasource is found it always returns a pair: the refresh request
    is sent, and an error of that request becomes (False, str(e)) with no
    round at all; else what follows is a sequence of rounds and nothing
    else, each a sleep(10) and then a status request (the first for the job
    the refresh request answered with), no round starting once 300 s have
    been waited. The first answer that is not pending decides: an error of
    the status request becomes (False, str(e)); finish code 0 gives (True,
    'Refresh completado'), 1 gives (False, 'Refresh falló: <notes>'), 2
    gives (False, 'Refresh cancelado'); when every round saw the job still
    going the result is (False, 'Timeout después de 300s'). *)
Theorem refresh_extracto_outcomes (t : TableauClient.t) (w : World) (s : St) :
  let name := tableau_datasource_name (config w) in
  let looked := asked s (EvFindDatasource name) in
  match t, datasource w (tick s) with
  | false, _ =>
      TableauClient.refresh_extracto t w s = (Raise TableauClient.not_connected, s)
  | true, inl e => TableauClient.refresh_extracto t w s = (Raise e, looked)
  | true, inr None =>
      TableauClient.refresh_extracto t w s
      = (Ret (false, ("Datasource '" ++ name ++ "' no encontrado")%string), looked)
  | true, inr (Some ds) =>
      let first := S (S (tick s)) in
      exists ok msg ids,
        TableauClient.refresh_extracto t w s
        = (Ret (ok, msg),
           mkSt (self s)
                (trace looked ++ EvRefresh (ds_id ds) :: flat_map refresh_round ids)
                (first + List.length ids))
        /\ within (List.length ids) 10 300 0
        /\ match job_item w (S (tick s)) with
           | inl e => ok = false /\ msg = str e /\ ids = []
           | inr job =>
               (forall id, hd_error ids = Some id -> id = job_id job)
               /\ (forall n,
                     (forall i, i < n ->
                                refresh_pending (job_item w (first + i)) = true) ->
                     (10 * Z.of_nat n < 300)%Z ->
                     refresh_reports (job_item w (first + n)) ok msg)
               /\ ((forall i, (10 * Z.of_nat i < 300)%Z ->
                               refresh_pending (job_item w (first + i)) = true) ->
                   ok = false /\ msg = "Timeout después de 300s"%string)
           end
  end.
Proof.
  intros name looked. subst name looked.
  unfold TableauClient.refresh_extracto, TableauClient.refresh_extracto_fuel,
    TableauClient.find_datasource, try_except, ask_exn, bind, ask, get_config, raise,
    ret, asked.
  destruct t; [|reflexivity]. cbn [negb self trace tick].
  destruct (datasource w (tick s)) as [e|[ds|]]; try reflexivity.
  cbn [self trace tick]. cbv zeta.
  destruct (job_item w (S (tick s))) as [e|job] eqn:Ejob.
  - exists false, (str e), []. cbn [flat_map List.length].
    rewrite Nat.add_0_r. split; [reflexivity|]. split; [left; reflexivity|].
    repeat split.
  - match goal with |- context [TableauClient.wait_refresh ?f job ?m 0%Z w ?st] =>
      pose proof (wait_refresh_rounds f job m 0%Z ltac:(vm_compute; discriminate) w st)
        as (o' & rounds & k & E' & _ & Ho);
      pose proof (fun n => wait_refresh_decided n f job m 0%Z w st
                             ltac:(vm_compute; discriminate)) as Hdecided;
      pose proof (wait_refresh_timeout f job m 0%Z w st
                    ltac:(vm_compute; discriminate)) as Htimeout;
      destruct (wait_refresh_shape f job m 0%Z w st) as (o & ids & E & Hin & Hid);
      rewrite E in E', Hdecided, Htimeout; rewrite E
    end.
    injection E' as <- _ _.
    cbn [self trace tick fst] in *.
    assert (Hres : forall ok msg,
               o = Ret (ok, msg) \/ (exists e, o = Raise e /\ ok = false /\ msg = str e) ->
               (forall id, hd_error ids = Some id -> id = job_id job)
               /\ (forall n,
                     (forall i, i < n ->
                                refresh_pending (job_item w (S (S (tick s)) + i)) = true) ->
                     (10 * Z.of_nat n < 300)%Z ->
                     refresh_reports (job_item w (S (S (tick s)) + n)) ok msg)
               /\ ((forall i, (10 * Z.of_nat i < 300)%Z ->
                               refresh_pending (job_item w (S (S (tick s)) + i)) = true) ->
                   ok = false /\ msg = "Timeout después de 300s"%string)).
    { intros ok msg Ho'. split; [exact Hid|]. split.
      - intros n Hpend Hn. specialize (Hdecided n Hpend ltac:(lia)).
        unfold refresh_decides in Hdecided. unfold refresh_reports.
        destruct (job_item w (S (S (tick s)) + n)) as [e|j].
        + destruct Ho' as [->|(e' & -> & -> & ->)]; [discriminate Hdecided|].
          injection Hdecided as <-. auto.
        + destruct Hdecided as (H0 & H1 & H2).
          destruct Ho' as [->|(e' & -> & _)].
          * split; [|split]; intros Hc;
              [pose proof (H0 Hc) as Hx|pose proof (H1 Hc) as Hx|pose proof (H2 Hc) as Hx];
              injection Hx as -> ->; split; reflexivity.
          * split; [|split]; intros Hc;
              [pose proof (H0 Hc) as Hx|pose proof (H1 Hc) as Hx|pose proof (H2 Hc) as Hx];
              discriminate Hx.
      - intros Hpend. specialize (Htimeout ltac:(intros i Hi; apply Hpend; lia)).
        destruct Ho' as [->|(e' & -> & _)]; [|discriminate Htimeout].
        vm_compute in Htimeout. injection Htimeout as -> ->. split; reflexivity. }
    destruct o as [[ok msg]|e|]; [| |congruence].
    + exists ok, msg, ids. rewrite <- app_assoc. cbn [app].
      split; [reflexivity|]. split; [exact Hin|]. apply Hres. left. reflexivity.
    + exists false, (str e), ids. rewrite <- app_assoc. cbn [app].
      split; [reflexivity|]. split; [exact Hin|]. apply Hres. right. eauto.
Qed.

(** X8 at work: the refresh job is still going at the first status
    request, and the second status request fails. *)
Lemma refresh_extracto_outcomes_witness :
  exists s',
    TableauClient.refresh_extracto true world_status_fails st_init
    = (Ret (false, "Tableau Server no responde"%string), s')
    /\ trace s'
       = [ EvFindDatasource "Datamart Materias Primas"; EvRefresh "ds-1";
           EvSleep 10; EvJobStatus "job-1"; EvSleep 10; EvJobStatus "job-1" ]%string.
Proof.
  pose proof (refresh_extracto_outcomes true world_status_fails st_init) as H.
  cbv zeta in H.
  change (datasource world_status_fails (tick st_init))
    with (@inr exn _ (Some the_datasource)) in H.
  cbv iota beta in H.
  destruct H as (ok & msg & ids & E & _ & H).
  change (job_item world_status_fails (S (tick st_init)))
    with (@inr exn _ (mkJobItem "job-1" (-1) "")) in H.
  cbv iota beta in H. destruct H as (_ & Hdec & _).
  destruct (Hdec 1) as (-> & ->).
  - intros i Hi. assert (i = 0) as -> by lia. reflexivity.
  - lia.
  - exists (snd (TableauClient.refresh_extracto true world_status_fails st_init)).
    split; [rewrite E; reflexivity|]. vm_compute. reflexivity.
Defined.

(** ** The SQL clients *)

(** X9: validar_inventario calls the inventory procedure with
    'hayDiferencias'. Only if the first row of the answer has
    DiferenciasOrigenDestino == 'No hay diferencias contra el origen' does
    it return (False, that text, []) without a second call. In every other
    case, an empty answer included, it calls the procedure with
    'obtenerAcciones' and returns (True, 'Hay diferencias contra el origen',
    rows). An error of either call is raised to the caller. *)
Theorem validar_inventario_outcomes (cfg : SQLServerConfig) (w : World) (s : St) :
  let first := asked s (inventory_call cfg "hayDiferencias") in
  let second := asked first (inventory_call cfg "obtenerAcciones") in
  match rows w (tick s) with
  | inl e => SQLClient.validar_inventario cfg w s = (Raise e, first)
  | inr result =>
      if reports_no_differences result
      then SQLClient.validar_inventario cfg w s
           = (Ret (false, "No hay diferencias contra el origen"%string, []), first)
      else
        match rows w (S (tick s)) with
        | inl e => SQLClient.validar_inventario cfg w s = (Raise e, second)
        | inr acciones =>
            SQLClient.validar_inventario cfg w s
            = (Ret (true, "Hay diferencias contra el origen"%string, acciones), second)
        end
  end.
Proof.
  intros first second. subst first second.
  unfold SQLClient.validar_inventario, SQLClient.execute_sp, SQLClient.execute_query,
    try_except, ask_exn, bind, ask, raise, ret, asked, inventory_call,
    reports_no_differences.
  cbn [self trace tick List.length Nat.eqb repeat join String.concat append].
  destruct (rows w (tick s)) as [e|[|first rest]]; try reflexivity.
  - cbn [self trace tick]. destruct (rows w (S (tick s))); reflexivity.
  - destruct (SQLClient.is_text _ _); [reflexivity|].
    cbn [self trace tick]. destruct (rows w (S (tick s))); reflexivity.
Qed.

(** X10: enviar_reportes(es_prueba, reporte) makes exactly one call, 'EXEC
    [dbo].[TiEnvioReportesTableauProc] %s, %s' with the parameters
    (es_prueba, reporte) on the client's own database, and never raises: it
    returns (True, 'Reportes enviados exitosamente') if the call went
    through and (False, str(e)) if it raised e. *)
Theorem enviar_reportes_never_raises (cfg : SQLServerConfig) (es_prueba reporte : Z)
    (w : World) (s : St) :
  SQLClient.enviar_reportes cfg es_prueba reporte w s
  = (Ret match rows w (tick s) with
         | inl e => (false, str e)
         | inr _ => (true, "Reportes enviados exitosamente"%string)
         end,
     asked s (mailing_call cfg es_prueba reporte)).
Proof.
  unfold SQLClient.enviar_reportes, SQLClient.execute_sp, SQLClient.execute_query,
    try_except, ask_exn, bind, ask, raise, ret, asked, mailing_call.
  cbn [self trace tick List.length Nat.eqb repeat join String.concat append].
  destruct (rows w (tick s)); reflexivity.
Qed.

Lemma execute_job_immediate (fuel : nat) (cfg : SQLServerConfig)
    (job_name : string) (wait_for_completion : bool) (check_interval max_wait : Z)
    (w : World) (s : St) :
  match immediate_result (rows w (tick s)) wait_for_completion max_wait with
  | Some r =>
      SQLClient.execute_job_fuel fuel cfg job_name wait_for_completion
        check_interval max_wait w s
      = (Ret r,
         mkSt (self s)
              (trace s ++ [EvExecuteJob job_name; start_call cfg job_name;
                           EvJobResult job_name (fst r) (snd r)])
              (S (tick s)))
  | None => True
  end.
Proof.
  unfold immediate_result, SQLClient.execute_job_fuel, SQLClient.execute_query,
    SQLClient.start_job_query, try_except, ask_exn, bind, ask, emit, raise, ret,
    start_call.
  cbn [self trace tick String.eqb Ascii.eqb Bool.eqb].
  destruct (rows w (tick s)) as [e|rs].
  - cbn [fst snd self trace]. repeat rewrite <- app_assoc. reflexivity.
  - destruct wait_for_completion; cbn [negb].
    + destruct (Z.leb_spec max_wait 0) as [Hle|Hgt]; [|exact I].
      assert (Hlt : Z.ltb 0 max_wait = false) by (apply Z.ltb_ge; exact Hle).
      destruct fuel; cbn [SQLClient.wait_job]; rewrite Hlt; unfold ret;
        cbn [fst snd self trace]; repeat rewrite <- app_assoc; reflexivity.
    + cbn [fst snd self trace]. repeat rewrite <- app_assoc. reflexivity.
Qed.

(** X11: execute_job returns right after the sp_start_job request, with no
    sleep and no status query, in three cases: the request raised e, result
    (False, str(e)); wait_for_completion is False, result (True, 'Job
    iniciado (sin esperar)'); max_wait <= 0, result (False, 'Timeout
    esperando job después de <max_wait>s') although the job was started. *)
Theorem execute_job_without_polling (fuel : nat) (cfg : SQLServerConfig)
    (job_name : string) (wait_for_completion : bool) (check_interval max_wait : Z)
    (w : World) (s : St) (r : bool * string) :
  immediate_result (rows w (tick s)) wait_for_completion max_wait = Some r ->
  SQLClient.execute_job_fuel fuel cfg job_name wait_for_completion
    check_interval max_wait w s
  = (Ret r,
     mkSt (self s)
          (trace s ++ [EvExecuteJob job_name; start_call cfg job_name;
                       EvJobResult job_name (fst r) (snd r)])
          (S (tick s))).
Proof.
  intros Hr.
  pose proof (execute_job_immediate fuel cfg job_name wait_for_completion
                check_interval max_wait w s) as H.
  rewrite Hr in H. exact H.
Qed.

(** X11 at work: no time to wait for a job that was started. *)
Lemma execute_job_without_polling_witness :
  SQLClient.execute_job_fuel 0 (sql_cubosofi cfg0) "BI Inventario Chatarra 5:15 am"
    true 10 0 world_ok st_init
  = (Ret (false, "Timeout esperando job después de 0s"%string),
     mkSt (self st_init)
          [EvExecuteJob "BI Inventario Chatarra 5:15 am";
           start_call (sql_cubosofi cfg0) "BI Inventario Chatarra 5:15 am";
           EvJobResult "BI Inventario Chatarra 5:15 am" false
                       "Timeout esperando job después de 0s"]
          1).
Proof.
  exact (execute_job_without_polling 0 (sql_cubosofi cfg0)
           "BI Inventario Chatarra 5:15 am" true 10 0 world_ok st_init
           (false, "Timeout esperando job después de 0s"%string) eq_refl).
Defined.

Lemma wait_job_zero_interval fuel : forall cfg name max_wait total w s,
  (total < max_wait)%Z ->
  (forall i, job_pending (activity w (tick s + i)) = true) ->
  fst (SQLClient.wait_job fuel cfg name 0 max_wait total w s) = OutOfFuel.
Proof.
  induction fuel as [|fuel IH]; intros cfg name max_wait total w s Hlt Hpend.
  - cbn [SQLClient.wait_job].
    destruct (Z.ltb_spec total max_wait) as [_|Hge]; [reflexivity|lia].
  - rewrite wait_job_round by lia. cbv zeta.
    pose proof (Hpend 0) as H0. rewrite Nat.add_0_r in H0.
    assert (Hnext : forall st, tick st = S (tick s) ->
              fst (SQLClient.wait_job fuel cfg name 0 max_wait (total + 0) w st)
              = OutOfFuel).
    { intros st Hst. apply IH; [lia|]. intros i. rewrite Hst.
      replace (S (tick s) + i) with (tick s + S i) by lia. apply Hpend. }
    destruct (job_pending_inv _ H0) as [->|(ja & found & -> & ->)];
      apply Hnext; reflexivity.
Qed.

(** X12: With check_interval = 0 and max_wait > 0, once the job is started,
    execute_job does not return as long as every status query finds the job
    without stop date: total_waited stays 0, so the timeout is never reached
    (in the model: every amount of fuel is used up). *)
Theorem zero_interval_wait_never_ends (fuel : nat) (cfg : SQLServerConfig)
    (job_name : string) (max_wait : Z) (w : World) (s : St) :
  (0 < max_wait)%Z ->
  (forall k, job_pending (activity w k) = true) ->
  (forall e, rows w (tick s) <> inl e) ->
  fst (SQLClient.execute_job_fuel fuel cfg job_name true 0 max_wait w s) = OutOfFuel.
Proof.
  intros Hmax Hpend Hstart.
  unfold SQLClient.execute_job_fuel, SQLClient.execute_query, try_except, ask_exn,
    bind, ask, emit, raise, ret.
  cbn [self trace tick negb].
  destruct (rows w (tick s)) as [e|rs]; [destruct (Hstart e eq_refl)|].
  match goal with |- context [SQLClient.wait_job fuel cfg ?j 0 max_wait 0 w ?st] =>
    pose proof (wait_job_zero_interval fuel cfg job_name max_wait 0 w st Hmax
                  (fun i => Hpend _)) as Hw;
    destruct (SQLClient.wait_job fuel cfg j 0 max_wait 0 w st) as [o s2]
  end.
  simpl in Hw. subst o. reflexivity.
Qed.

(** X12 at work: a job that keeps running, waited for at most ten
    minutes without pause between the status queries. *)
Lemma zero_interval_wait_never_ends_witness :
  fst (SQLClient.execute_job_fuel 1000 (sql_cubosofi cfg0) "BI ABASTECIMIENTOS MP 6:30"
         true 0 600 world_job_running st_init)
  = OutOfFuel.
Proof.
  apply zero_interval_wait_never_ends.
  - lia.
  - intros k. reflexivity.
  - intros e. discriminate.
Defined.

(** ** The files *)

Lemma remove_files_spec dest old : forall w s,
  exists o done k,
    Workflow.remove_files dest old w s = (o, mkSt (self s) (trace s ++ done) k)
    /\ ((exists e, o = Raise e)
        \/ (o = Ret tt /\ done = cleaning w dest old (tick s)
            /\ k = tick s + List.length done)).
Proof.
  induction old as [|f rest IH]; intros w s.
  - exists (Ret tt), [], (tick s). simpl. unfold ret. rewrite app_nil_r, St_eta.
    split; [reflexivity|]. right. repeat split. lia.
  - cbn [Workflow.remove_files cleaning]. unfold bind at 1, ask.
    set (p := path_join dest f).
    destruct (flag w (tick s)).
    + unfold bind at 1, ask_effect, bind at 1, ask. cbn [self trace tick].
      destruct (effect w (S (tick s))) as [e|].
      * unfold raise. exists (Raise e), [EvIsFile p; EvRemove p], (S (S (tick s))).
        rewrite <- app_assoc. split; [reflexivity|]. left. eauto.
      * unfold ret at 1.
        match goal with |- context [Workflow.remove_files dest rest w ?st] =>
          destruct (IH w st) as (o & done & k & E & H); rewrite E end.
        cbn [self trace tick] in *.
        exists o, (EvIsFile p :: EvRemove p :: done), k.
        rewrite <- !app_assoc. split; [reflexivity|].
        destruct H as [He|(-> & -> & ->)]; [left; exact He|right].
        split; [reflexivity|]. split; [reflexivity|]. cbn [List.length]. lia.
    + unfold bind at 1, ret at 1. cbn [self trace tick].
      match goal with |- context [Workflow.remove_files dest rest w ?st] =>
        destruct (IH w st) as (o & done & k & E & H); rewrite E end.
      cbn [self trace tick] in *.
      exists o, (EvIsFile p :: done), k.
      rewrite <- !app_assoc. split; [reflexivity|].
      destruct H as [He|(-> & -> & ->)]; [left; exact He|right].
      split; [reflexivity|]. split; [reflexivity|]. cbn [List.length]. lia.
Qed.

Lemma copy_each_spec source dest files : forall copiados w s,
  exists o tr k,
    Workflow.copy_each source dest files copiados w s
    = (o, mkSt (self s) (trace s ++ tr) k)
    /\ ((exists e, o = Raise e)
        \/ (o = Ret (copiados ++ files) /\ tr = List.map (copy_of source dest) files)).
Proof.
  induction files as [|f rest IH]; intros copiados w s.
  - exists (Ret copiados), [], (tick s). simpl. unfold ret. rewrite !app_nil_r, St_eta.
    split; [reflexivity|]. right. auto.
  - cbn [Workflow.copy_each]. unfold bind at 1, ask_effect, bind at 1, ask.
    cbn [self trace tick].
    destruct (effect w (tick s)) as [e|].
    + unfold raise. eexists (Raise e), [_], _. split; [reflexivity|]. left. eauto.
    + unfold ret at 1.
      match goal with |- context [Workflow.copy_each source dest rest ?c w ?st] =>
        destruct (IH c w st) as (o & tr & k & E & H); rewrite E end.
      cbn [self trace tick].
      exists o, (copy_of source dest f :: tr), k. rewrite <- !app_assoc.
      split; [reflexivity|].
      destruct H as [He|[-> ->]]; [left; exact He|right].
      rewrite <- app_assoc. split; reflexivity.
Qed.

(** X13: _copiar_archivos never raises: it always returns (ok, message,
    dict). If the destination folder does not exist it returns (False,
    'Carpeta destino no accesible: <dest>', {}) after that single test,
    creating, listing and removing nothing. Every failure carries empty
    details. On success the destination was listed and cleaned first
    (every entry of that listing tested, in order, and removed when the
    test says it is a file), then the source was listed and each entry of
    that listing copied once, in listing order, from source/f to dest/f;
    the message is '<n> archivos copiados' and details['archivos'] is the
    source listing. *)
Theorem copiar_archivos_outcomes (w : World) (s : St) :
  let source := pdf_source (paths (config w)) in
  let dest := pdf_dest (paths (config w)) in
  exists ok msg d s',
    Workflow._copiar_archivos w s = (Ret (ok, msg, Some d), s')
    /\ (flag w (tick s) = false ->
        ok = false /\ msg = ("Carpeta destino no accesible: " ++ dest)%string
        /\ s' = asked s (EvExists dest))
    /\ (ok = false -> d = [])
    /\ (ok = true ->
        exists old files,
          let tests := cleaning w dest old (S (S (tick s))) in
          names w (S (tick s)) = inr old
          /\ names w (S (S (tick s)) + List.length tests) = inr files
          /\ trace s' = trace s ++ EvExists dest :: EvListDir dest :: tests
                        ++ EvListDir source :: List.map (copy_of source dest) files
          /\ msg = (str_nat (List.length files) ++ " archivos copiados")%string
          /\ d = [("archivos", VStrList files)]).
Proof.
  intros source dest.
  unfold Workflow._copiar_archivos. unfold bind at 1, get_config. fold source dest.
  match goal with |- context [try_except ?m ?h] => set (body := m); set (handler := h) end.
  assert (Hh : forall e st, exists msg,
             handler e w st = (Ret (false, msg, Some []), st)).
  { intros e st. subst handler. cbv beta. destruct (exn_type e); eexists; reflexivity. }
  assert (Hb : exists o s1,
             body w s = (o, s1)
             /\ ((exists e, o = Raise e)
                 \/ (flag w (tick s) = false
                     /\ o = Ret (false, ("Carpeta destino no accesible: " ++ dest)%string,
                                 Some [])
                     /\ s1 = asked s (EvExists dest))
                 \/ (flag w (tick s) = true
                     /\ exists old files,
                          o = Ret (true,
                                   (str_nat (List.length files) ++ " archivos copiados")%string,
                                   Some [("archivos", VStrList files)])
                          /\ names w (S (tick s)) = inr old
                          /\ names w (S (S (tick s))
                                      + List.length (cleaning w dest old (S (S (tick s)))))
                             = inr files
                          /\ trace s1 = trace s ++ EvExists dest :: EvListDir dest
                                         :: cleaning w dest old (S (S (tick s)))
                                         ++ EvListDir source
                                            :: List.map (copy_of source dest) files))).
  { subst body. unfold bind at 1, ask.
    destruct (flag w (tick s)) eqn:Eflag; cbn [negb];
      [|eexists _, _; split; [reflexivity|]; right; left; auto].
    unfold bind at 1, ask_exn, bind at 1, ask. cbn [self trace tick].
    destruct (names w (S (tick s))) as [e|old] eqn:Eold;
      [eexists _, _; split; [reflexivity|]; left; eauto|].
    unfold ret at 1. unfold bind at 1.
    match goal with |- context [Workflow.remove_files dest old w ?st] =>
      destruct (remove_files_spec dest old w st) as (o & done & k & E & Hdone);
      rewrite E end.
    cbn [self trace tick] in *.
    destruct Hdone as [(e & ->)|(-> & -> & ->)];
      [eexists _, _; split; [reflexivity|]; left; eauto|].
    unfold bind at 1, ask_exn, bind at 1, ask. cbn [self trace tick].
    destruct (names w (S (S (tick s))
                       + List.length (cleaning w dest old (S (S (tick s))))))
      as [e|files] eqn:Efiles;
      [eexists _, _; split; [reflexivity|]; left; eauto|].
    unfold ret at 1. unfold bind at 1.
    match goal with |- context [Workflow.copy_each source dest files [] w ?st] =>
      destruct (copy_each_spec source dest files [] w st)
        as (o & copies & k2 & E2 & H2); rewrite E2 end.
    cbn [self trace tick] in *.
    destruct H2 as [(e & ->)|[-> ->]];
      [eexists _, _; split; [reflexivity|]; left; eauto|].
    unfold ret. cbn [app]. eexists _, _. split; [reflexivity|]. right. right.
    split; [reflexivity|]. exists old, files.
    split; [reflexivity|]. split; [reflexivity|]. split; [exact Efiles|].
    cbn [trace]. repeat (rewrite <- app_assoc; cbn [app]). reflexivity. }
  destruct Hb as (o & s1 & Eb & Hcases). unfold try_except. rewrite Eb.
  destruct Hcases as [(e & ->)|[(Hflag & -> & ->)|(Hflag & old & files
                                                   & -> & Hold & Hfiles & Htr)]].
  - destruct (Hh e s1) as (msg & ->).
    exists false, msg, [], s1. split; [reflexivity|].
    split; [|split; [reflexivity|discriminate]].
    intros Hflag. exfalso. subst body. revert Eb. unfold bind at 1, ask.
    rewrite Hflag. cbn [negb]. discriminate.
  - eexists false, _, [], _. split; [reflexivity|].
    split; [auto|]. split; [reflexivity|discriminate].
  - eexists true, _, _, s1. split; [reflexivity|].
    split; [congruence|]. split; [discriminate|]. intros _.
    exists old, files. cbv zeta. auto.
Qed.

(** X13 at work: the shared folder holds one old file, the source folder
    one new one. *)
Lemma copiar_archivos_outcomes_witness :
  exists s',
    Workflow._copiar_archivos world_ok st_init
    = (Ret (true, "1 archivos copiados"%string,
            Some [("archivos"%string, VStrList ["a.pdf"%string])]), s')
    /\ trace s'
       = [ EvExists "/compartida/"; EvListDir "/compartida/";
           EvIsFile "/compartida/a.pdf"; EvRemove "/compartida/a.pdf";
           EvListDir "/reportes/"; EvCopy "/reportes/a.pdf" "/compartida/a.pdf" ]%string.
Proof.
  destruct (copiar_archivos_outcomes world_ok st_init)
    as (ok & msg & d & s' & E & _ & _ & Hok).
  assert (Hb : ok = true).
  { apply (f_equal fst) in E. vm_compute in E. congruence. }
  destruct (Hok Hb) as (old & files & Hold & Hfiles & Htr & Hmsg & Hd).
  injection Hold as <-. injection Hfiles as <-.
  exists s'. rewrite E, Hb, Hmsg, Hd. split; [reflexivity|]. exact Htr.
Defined.

Lemma remove_each_spec path files : forall w s,
  exists o done k,
    Workflow.remove_each path files w s
    = (o, mkSt (self s) (trace s ++ List.map (removal path) done) k)
    /\ ((exists e, o = Raise e)
        \/ (o = Ret tt /\ done = files /\ k = tick s + List.length files)).
Proof.
  induction files as [|f rest IH]; intros w s.
  - exists (Ret tt), [], (tick s). simpl. unfold ret. rewrite app_nil_r, St_eta.
    split; [reflexivity|]. right. repeat split. lia.
  - cbn [Workflow.remove_each]. unfold bind at 1, ask_effect, bind at 1, ask.
    cbn [self trace tick].
    destruct (effect w (tick s)) as [e|].
    + unfold raise. exists (Raise e), [f], (S (tick s)). split; [reflexivity|]. eauto.
    + unfold ret at 1.
      match goal with |- context [Workflow.remove_each path rest w ?st] =>
        destruct (IH w st) as (o & done & k & E & H); rewrite E end.
      cbn [self trace tick] in *. exists o, (f :: done), k.
      rewrite <- app_assoc. split; [reflexivity|].
      destruct H as [He|(-> & -> & ->)]; [left; exact He|right].
      repeat split. cbn [List.length]. lia.
Qed.

Lemma no_download_in_removals path dir done :
  ~ In (EvDownloadAll dir) (List.map (removal path) done).
Proof.
  intros H. apply in_map_iff in H. destruct H as (f & Hf & _). discriminate Hf.
Qed.

(** The first block of [_descargar_pdfs]: it goes through, having emptied
    or created the folder, or it raises; it downloads nothing. *)
Lemma clean_source_spec src w s :
  exists o prep k,
    clean_source src w s = (o, mkSt (self s) (trace s ++ prep) k)
    /\ ~ In (EvDownloadAll src) prep
    /\ ((exists e, o = Raise e)
        \/ (o = Ret tt /\ prepared w s src prep /\ k = tick s + List.length prep)).
Proof.
  unfold clean_source, prepared, bind at 1, ask. destruct (flag w (tick s)).
  - unfold bind at 1, ask_exn, bind at 1, ask. cbn [self trace tick].
    destruct (names w (S (tick s))) as [e|files].
    + unfold raise. exists (Raise e), [EvExists src; EvListDir src], (S (S (tick s))).
      rewrite <- app_assoc. split; [reflexivity|]. split; [|eauto].
      simpl. intros [H|[H|[]]]; discriminate H.
    + unfold ret at 1.
      match goal with |- context [Workflow.remove_each src files w ?st] =>
        destruct (remove_each_spec src files w st) as (o & done & k & E & H);
        rewrite E end.
      cbn [self trace tick] in *.
      exists o, (EvExists src :: EvListDir src :: List.map (removal src) done), k.
      rewrite <- !app_assoc. split; [reflexivity|]. split.
      * simpl. intros [H1|[H1|H1]]; try discriminate H1.
        exact (no_download_in_removals _ _ _ H1).
      * destruct H as [He|(-> & -> & ->)]; [left; exact He|right].
        split; [reflexivity|]. split; [eauto|].
        cbn [List.length]. rewrite length_map. lia.
  - unfold ask_effect, bind at 1, ask. cbn [self trace tick].
    exists (match effect w (S (tick s)) with Some e => Raise e | None => Ret tt end),
      [EvExists src; EvMakeDirs src], (S (S (tick s))).
    rewrite <- app_assoc. split; [destruct (effect w (S (tick s))); reflexivity|].
    split; [simpl; intros [H|[H|[]]]; discriminate H|].
    destruct (effect w (S (tick s))); [left; eauto|right].
    split; [reflexivity|]. split; [reflexivity|]. simpl. lia.
Qed.

Lemma bind_assoc_at {A B C : Type} (m : M A) (f : A -> M B) (g : B -> M C) w s :
  bind m (fun a => bind (f a) g) w s = bind (bind m f) g w s.
Proof. unfold bind. destruct (m w s) as [[a|e|] s1]; reflexivity. Qed.

Lemma _descargar_pdfs_eq t w s :
  Workflow._descargar_pdfs t w s
  = match clean_source (pdf_source (paths (config w))) w s with
    | (Ret _, s1) =>
        if t
        then (Ret (fst (fst (downloads w (tick s1))), snd (fst (downloads w (tick s1))),
                   Some [("archivos"%string, VStrList (snd (downloads w (tick s1))))]),
              asked s1 (EvDownloadAll (pdf_source (paths (config w)))))
        else (Raise TableauClient.not_connected, s1)
    | (Raise e, s1) => (Raise e, s1)
    | (OutOfFuel, s1) => (OutOfFuel, s1)
    end.
Proof.
  unfold Workflow._descargar_pdfs. unfold bind at 1, get_config.
  rewrite bind_assoc_at.
  change (bind (ask flag (EvExists (pdf_source (paths (config w))))) _)
    with (clean_source (pdf_source (paths (config w)))).
  unfold bind at 1.
  destruct (clean_source (pdf_source (paths (config w))) w s) as [[[]|e|] s1];
    try reflexivity.
  unfold TableauClient.descargar_todos_reportes.
  destruct t; cbn [negb]; [|reflexivity].
  unfold bind, ask, ret, asked. destruct (downloads w (tick s1)) as [[ok msg] files].
  reflexivity.
Qed.

(** X14: _descargar_pdfs downloads only after the source folder was
    prepared: when the folder exists it is listed and every entry of that
    listing is removed, in listing order, else the folder is created; if
    that preparation raises, the exception leaves the function and no
    download is attempted. A returned result comes from a connected client:
    it is the verdict and the message descargar_todos_reportes returned,
    with the file list it returned under details['archivos']. The
    preparation does not depend on the connection: where a connected client
    would return, a client that is not connected has made the same removals
    and then raises RuntimeError('No conectado a Tableau Server'). *)
Theorem descargar_pdfs_cleans_first (t : TableauClient.t) (w : World) (s : St) :
  let src := pdf_source (paths (config w)) in
  exists o s' prep,
    Workflow._descargar_pdfs t w s = (o, s')
    /\ ~ In (EvDownloadAll src) prep
    /\ match o with
       | Ret (ok, msg, d) =>
           t = true
           /\ trace s' = trace s ++ prep ++ [EvDownloadAll src]
           /\ prepared w s src prep
           /\ exists archivos,
                downloads w (tick s + List.length prep) = (ok, msg, archivos)
                /\ d = Some [("archivos"%string, VStrList archivos)]
       | Raise e => trace s' = trace s ++ prep
       | OutOfFuel => False
       end
    /\ (forall r s1,
          Workflow._descargar_pdfs true w s = (Ret r, s1) ->
          exists s2,
            Workflow._descargar_pdfs false w s = (Raise TableauClient.not_connected, s2)
            /\ trace s1 = trace s2 ++ [EvDownloadAll src]).
Proof.
  intros src. rewrite !_descargar_pdfs_eq. fold src.
  destruct (clean_source_spec src w s) as (o & prep & k & E & Hno & Ho). rewrite E.
  destruct Ho as [(e & ->)|(-> & Hcl & ->)].
  - eexists _, _, prep. split; [reflexivity|]. split; [exact Hno|].
    split; [reflexivity|]. intros r s1 H. discriminate H.
  - cbn [tick].
    remember (tick s + List.length prep) as k eqn:Hk.
    assert (Hrel : forall (r : bool * string * option dict) (s1 : St),
              (Ret (fst (fst (downloads w k)), snd (fst (downloads w k)),
                    Some [("archivos"%string, VStrList (snd (downloads w k)))]),
               asked (mkSt (self s) (trace s ++ prep) k) (EvDownloadAll src))
              = (Ret r, s1) ->
              exists s2,
                (Raise TableauClient.not_connected, mkSt (self s) (trace s ++ prep) k)
                = (@Raise (bool * string * option dict) TableauClient.not_connected, s2)
                /\ trace s1 = trace s2 ++ [EvDownloadAll src]).
    { intros r s1 H. injection H as _ <-. eexists. split; reflexivity. }
    destruct t.
    + eexists _, _, prep. split; [reflexivity|]. split; [exact Hno|].
      split; [|exact Hrel].
      split; [reflexivity|].
      split; [unfold asked; cbn [trace]; rewrite app_assoc; reflexivity|].
      split; [exact Hcl|].
      exists (snd (downloads w k)). split; [|reflexivity].
      rewrite <- Hk. destruct (downloads w k) as [[ok msg] archivos]. reflexivity.
    + eexists _, _, prep. split; [reflexivity|]. split; [exact Hno|].
      split; [reflexivity|exact Hrel].
Qed.

(** X14 at work: the folder holds one file of the day before. *)
Lemma descargar_pdfs_cleans_first_witness :
  exists s',
    Workflow._descargar_pdfs true world_ok st_init
    = (Ret (true, "8 reportes descargados"%string,
            Some [("archivos"%string, VStrList ["a.pdf"%string])]), s')
    /\ trace s'
       = [ EvExists "/reportes/"; EvListDir "/reportes/"; EvRemove "/reportes/a.pdf";
           EvDownloadAll "/reportes/" ]%string.
Proof.
  destruct (descargar_pdfs_cleans_first true world_ok st_init)
    as (o & s' & prep & E & _ & Ho & _).
  assert (Hret : exists r, o = Ret r).
  { apply (f_equal fst) in E. vm_compute in E. rewrite <- E. eauto. }
  destruct Hret as ([[ok msg] d] & ->).
  destruct Ho as (_ & Htr & Hprep & archivos & Hdown & ->).
  destruct Hprep as (files & Hfiles & ->). injection Hfiles as <-.
  injection Hdown as <- <- <-.
  exists s'. split; [exact E|exact Htr].
Defined.

(** ** Tickets and mails *)

Lemma validate_jira_incomplete (c : Config.t) :
  jira_user (jira c) = ""%string \/ jira_api_token (jira c) = ""%string ->
  fst (validate_jira c) = false /\ snd (validate_jira c) <> [].
Proof.
  unfold validate_jira. cbn [fst snd].
  intros [H|H]; rewrite H; cbn [String.eqb];
    destruct (String.eqb _ ""); cbn; split; (reflexivity || discriminate).
Qed.

Lemma crear_ticket_error_incomplete titulo descripcion componente prioridad w s :
  jira_user (jira (config w)) = ""%string
  \/ jira_api_token (jira (config w)) = ""%string ->
  JiraClient.crear_ticket_error titulo descripcion componente prioridad w s
  = (Ret (false,
          ("Configuración de Jira incompleta: "
           ++ join ", " (snd (validate_jira (config w))))%string,
          None),
     logged s (EvCrearTicket titulo descripcion)).
Proof.
  intros H. apply validate_jira_incomplete in H. destruct H as [Hv _].
  unfold JiraClient.crear_ticket_error, bind, emit, get_config, logged.
  cbn [self trace tick].
  destruct (validate_jira (config w)) as [valid errors]. cbn [fst snd] in *.
  subst valid. reflexivity.
Qed.

(** X15: If JIRA_USER or JIRA_API_TOKEN is empty, crear_ticket_error returns
    (False, 'Configuración de Jira incompleta: <missing settings joined by
    comma>', None) without connecting to Jira, reading the clock or creating
    an issue; _handle_error then makes that one ticket call, leaves self
    unchanged and sends the alert with the ticket key self.ticket_jira
    already held. *)
Theorem incomplete_jira_config_contacts_nothing (titulo descripcion componente
    prioridad paso error : string) (w : World) (s : St) :
  jira_user (jira (config w)) = ""%string
  \/ jira_api_token (jira (config w)) = ""%string ->
  snd (validate_jira (config w)) <> []
  /\ JiraClient.crear_ticket_error titulo descripcion componente prioridad w s
     = (Ret (false,
             ("Configuración de Jira incompleta: "
              ++ join ", " (snd (validate_jira (config w))))%string,
             None),
        logged s (EvCrearTicket titulo descripcion))
  /\ exists k,
       Workflow._handle_error paso error w s
       = (Ret tt,
          mkSt (self s)
               (trace s
                ++ [EvCrearTicket ("[AUTO] Error en Reportes MP: " ++ paso)%string error;
                    EvAlertaError ("Error en: " ++ paso)%string error
                                  (ticket_jira (self s));
                    EvNow; alert_mail w paso])
               k).
Proof.
  intros H. split; [exact (proj2 (validate_jira_incomplete _ H))|].
  split; [exact (crear_ticket_error_incomplete _ _ _ _ w s H)|].
  unfold Workflow._handle_error. unfold bind at 1.
  rewrite (crear_ticket_error_incomplete _ _ _ _ w s H).
  unfold bind at 1, ret at 1. unfold bind at 1, get_self. unfold bind at 1.
  unfold logged. cbn [self trace tick].
  match goal with |- context [Notifier.enviar_alerta_error ?t ?m ?tk w ?st] =>
    destruct (enviar_alerta_error_spec t m tk w st) as (res & k & E); rewrite E end.
  cbn [self trace tick]. exists k. unfold ret, alert_mail.
  rewrite <- app_assoc. reflexivity.
Qed.

(** X15 at work: the API token is missing. *)
Lemma incomplete_jira_config_contacts_nothing_witness :
  JiraClient.crear_ticket_error "t" "d" "Reportes MP" "High" world_no_token st_init
  = (Ret (false, "Configuración de Jira incompleta: JIRA_API_TOKEN no configurado"%string,
          None),
     logged st_init (EvCrearTicket "t" "d")).
Proof.
  exact (proj1 (proj2 (incomplete_jira_config_contacts_nothing
                         "t" "d" "Reportes MP" "High" "p" "e" world_no_token st_init
                         (or_intror eq_refl)))).
Defined.

(** X16: enviar_alerta_error, enviar_notificacion_exito and
    enviar_resumen_proceso never raise. Each reads the time once and hands
    exactly one mail to Database Mail, and returns (True, 'Email enviado
    exitosamente') if the relay accepted it, else (False, str(e)). Alerts go
    to error_recipients with subject '🔴 ALERTA MP: <titulo>'; success
    notifications to success_recipients with subject '✅ Reportes MP:
    <mensaje>'; a summary goes to success_recipients with subject '✅ Resumen
    Reportes MP: EXITOSO - <fecha>' when exito, else to error_recipients
    with '❌ Resumen Reportes MP: FALLIDO - <fecha>'. *)
Theorem notifier_never_raises (w : World) (s : St) :
  (forall titulo mensaje ticket,
     Notifier.enviar_alerta_error titulo mensaje ticket w s
     = (Ret (relay_result (effect w (S (tick s)))),
        mailed s [EvAlertaError titulo mensaje ticket]
               (error_recipients (email (config w)))
               ("🔴 ALERTA MP: " ++ titulo)%string))
  /\ (forall mensaje,
        Notificacion.enviar_notificacion_exito mensaje w s
        = (Ret (relay_result (effect w (S (tick s)))),
           mailed s [] (success_recipients (email (config w)))
                  ("✅ Reportes MP: " ++ mensaje)%string))
  /\ (forall exito pasos tiempo_total,
        Notifier.enviar_resumen_proceso exito pasos tiempo_total w s
        = (Ret (relay_result (effect w (S (tick s)))),
           mailed s [EvResumen exito pasos tiempo_total]
                  (if exito then success_recipients (email (config w))
                   else error_recipients (email (config w)))
                  (summary_subject exito (wall_text w (tick s))))).
Proof.
  split; [|split]; intros.
  - unfold Notifier.enviar_alerta_error, Notifier._send_via_dbmail, try_except, ask_effect,
      now_text, bind, emit, get_config, ask, raise, ret, mailed, relay_result.
    cbn [self trace tick]. destruct (effect w (S (tick s)));
      repeat (rewrite <- app_assoc; cbn [app]); reflexivity.
  - unfold Notificacion.enviar_notificacion_exito, Notifier._send_via_dbmail, try_except,
      ask_effect, now_text, bind, emit, get_config, ask, raise, ret, mailed, relay_result.
    cbn [self trace tick]. destruct (effect w (S (tick s)));
      repeat (rewrite <- app_assoc; cbn [app]); reflexivity.
  - unfold Notifier.enviar_resumen_proceso, Notifier._send_via_dbmail, try_except,
      ask_effect, now_text, bind, emit, get_config, ask, raise, ret, mailed, relay_result,
      summary_subject.
    cbn [self trace tick]. destruct exito; destruct (effect w (S (tick s)));
      repeat (rewrite <- app_assoc; cbn [app]); reflexivity.
Qed.

(** ** The summary of a run *)

Lemma filter_partition {A : Type} (f : A -> bool) (l : list A) :
  List.length (List.filter f l) + List.length (List.filter (fun x => negb (f x)) l)
  = List.length l.
Proof.
  induction l as [|x l IH]; [reflexivity|]. simpl.
  destruct (f x); simpl; lia.
Qed.

Lemma to_dict_estado rs : List.map Resumen.estado (List.map Resumen.to_dict rs)
                          = List.map mensaje rs.
Proof. rewrite map_map. apply map_ext. intros []; reflexivity. Qed.

Lemma to_dict_success rs : List.map Resumen.success (List.map Resumen.to_dict rs)
                           = List.map success rs.
Proof. rewrite map_map. apply map_ext. intros []; reflexivity. Qed.

(** X17: get_summary never raises and leaves the workflow object unchanged.
    total_pasos is len(self.steps), pasos_exitosos + pasos_fallidos =
    total_pasos, 'pasos' has one dictionary per step in order, whose
    'estado' is the step's mensaje and whose 'success' is the step's
    success, and ticket_jira is self.ticket_jira. tiempo_total is 0, with
    the clock not read, when start_time is None or 0; otherwise it is one
    clock reading minus start_time. *)
Theorem get_summary_counts (w : World) (s : St) :
  exists sm s',
    Resumen.get_summary w s = (Ret sm, s')
    /\ self s' = self s
    /\ Resumen.total_pasos sm = List.length (steps (self s))
    /\ Resumen.pasos_exitosos sm + Resumen.pasos_fallidos sm = Resumen.total_pasos sm
    /\ List.length (Resumen.pasos sm) = Resumen.total_pasos sm
    /\ List.map Resumen.estado (Resumen.pasos sm) = List.map mensaje (steps (self s))
    /\ List.map Resumen.success (Resumen.pasos sm) = List.map success (steps (self s))
    /\ Resumen.ticket_jira sm = ticket_jira (self s)
    /\ match start_time (self s) with
       | None => Resumen.tiempo_total sm = 0%Z /\ s' = s
       | Some t0 =>
           if Z.eqb t0 0 then Resumen.tiempo_total sm = 0%Z /\ s' = s
           else Resumen.tiempo_total sm = (clock w (tick s) - t0)%Z
                /\ s' = asked s EvTime
       end.
Proof.
  unfold Resumen.get_summary, bind at 1, get_self.
  destruct (self s) as [rs start ticket] eqn:Hself. cbn [steps start_time ticket_jira].
  assert (Ht : exists t s',
             Resumen.tiempo start w s = (Ret t, s')
             /\ self s' = self s
             /\ match start with
                | None => t = 0%Z /\ s' = s
                | Some t0 =>
                    if Z.eqb t0 0 then t = 0%Z /\ s' = s
                    else t = (clock w (tick s) - t0)%Z /\ s' = asked s EvTime
                end).
  { unfold Resumen.tiempo. destruct start as [t0|]; [|eexists _, _; repeat split].
    destruct (Z.eqb t0 0); [eexists _, _; repeat split|].
    unfold bind, time_time, ask, ret, asked. eexists _, _. repeat split. }
  destruct Ht as (t & s' & Et & Hs' & Hcase).
  unfold bind. rewrite Et. unfold ret. eexists _, s'. split; [reflexivity|].
  cbn [Resumen.total_pasos Resumen.pasos_exitosos Resumen.pasos_fallidos Resumen.pasos
       Resumen.ticket_jira Resumen.tiempo_total].
  rewrite Hs', Hself. split; [reflexivity|]. split; [reflexivity|].
  split; [apply filter_partition|]. split; [apply length_map|].
  split; [apply to_dict_estado|]. split; [apply to_dict_success|].
  split; [reflexivity|exact Hcase].
Qed.

(** ** The settings *)

(** X18: Config.validate returns is_valid=True exactly when its error list
    is empty, which is exactly when the Tableau user, the Tableau password,
    the InfoCentral password and the DEADWH password are all non-empty; each
    of the four messages '<SETTING> no configurado' is in the list exactly
    when that setting is empty; at most four errors are reported. *)
Theorem validate_names_the_empty_settings (c : Credentials.t) :
  let errors := snd (Credentials.validate c) in
  (fst (Credentials.validate c) = true <-> errors = [])
  /\ (errors = [] <->
      Credentials.tableau_user c <> ""%string
      /\ Credentials.tableau_password c <> ""%string
      /\ Credentials.sql_infocentral_password c <> ""%string
      /\ Credentials.sql_deadwh_password c <> ""%string)
  /\ (In "TABLEAU_USER no configurado"%string errors
      <-> Credentials.tableau_user c = ""%string)
  /\ (In "TABLEAU_PASSWORD no configurado"%string errors
      <-> Credentials.tableau_password c = ""%string)
  /\ (In "SQL_INFOCENTRAL_PWD no configurado"%string errors
      <-> Credentials.sql_infocentral_password c = ""%string)
  /\ (In "SQL_DEADWH_PWD no configurado"%string errors
      <-> Credentials.sql_deadwh_password c = ""%string)
  /\ List.length errors <= 4.
Proof.
  destruct c as [u p i d]. unfold Credentials.validate.
  cbn [fst snd Credentials.tableau_user Credentials.tableau_password
       Credentials.sql_infocentral_password Credentials.sql_deadwh_password].
  destruct (String.eqb_spec u ""), (String.eqb_spec p ""), (String.eqb_spec i ""),
    (String.eqb_spec d ""); cbn [app List.length Nat.eqb In];
    repeat split; intros;
    repeat match goal with
           | H : _ /\ _ |- _ => destruct H
           | H : _ \/ _ |- _ => destruct H
           | H : False |- _ => destruct H
           end;
    try discriminate; try congruence; try lia; auto 6.
Qed.

(** ** The search of a datasource *)

Lemma prefix_refl x : String.prefix x x = true.
Proof.
  induction x as [|a x IH]; [reflexivity|]. simpl.
  destruct (Ascii.ascii_dec a a); [exact IH|congruence].
Qed.

Lemma contains_refl x : contains x x = true.
Proof. destruct x; simpl; [reflexivity|]. rewrite prefix_refl. 
  destruct (Ascii.ascii_dec a a); [|congruence]. reflexivity. Qed.

Lemma contains_empty x : contains "" x = true.
Proof. destruct x; reflexivity. Qed.

Section SearchFacts.

Variable lower : string -> string.

Lemma first_with_some cond all ds :
  Listing.first_with cond all = Some ds ->
  In ds all /\ cond ds = true /\ Listing.has_extracts ds = true.
Proof.
  induction all as [|x all IH]; simpl; [discriminate|].
  destruct (cond x) eqn:Ec.
  - destruct (Listing.has_extracts x) eqn:Ex.
    + intros H. injection H as <-. auto.
    + intros H. destruct (IH H) as (Hin & Hc & He). auto.
  - intros H. destruct (IH H) as (Hin & Hc & He). auto.
Qed.

Lemma first_with_none cond all :
  Listing.first_with cond all = None ->
  forall ds, In ds all -> Listing.has_extracts ds = true -> cond ds = false.
Proof.
  induction all as [|x all IH]; simpl; [contradiction|].
  intros H ds [<-|Hin] He.
  - destruct (cond x); [|reflexivity]. rewrite He in H. discriminate.
  - apply IH; auto. destruct (cond x); [|exact H].
    destruct (Listing.has_extracts x); [discriminate|exact H].
Qed.

Lemma first_with_never cond all :
  (forall ds, In ds all -> cond ds = false) -> Listing.first_with cond all = None.
Proof.
  induction all as [|x all IH]; simpl; intros H; [reflexivity|].
  rewrite (H x (or_introl eq_refl)). apply IH. auto.
Qed.

Lemma first_with_always cond all :
  (forall ds, In ds all -> cond ds = true) ->
  Listing.first_with cond all = List.find Listing.has_extracts all.
Proof.
  induction all as [|x all IH]; simpl; intros H; [reflexivity|].
  rewrite (H x (or_introl eq_refl)).
  destruct (Listing.has_extracts x); [reflexivity|]. apply IH. auto.
Qed.

Lemma exact_is_partial n ds :
  Listing.exact_match lower n ds = true -> Listing.partial_match lower n ds = true.
Proof.
  unfold Listing.exact_match, Listing.partial_match. intros H.
  apply String.eqb_eq in H. rewrite H, contains_refl. reflexivity.
Qed.

End SearchFacts.

(** X19: The two search loops of find_datasource over a listing, for any
    lower-casing function: a datasource that is returned is in the listing,
    has an extract and matches the name partially (either lowered name
    contains the other); if some datasource with an extract matches the
    lowered name exactly, the returned one matches exactly, even when a
    partial match comes earlier in the listing; None is returned only if no
    datasource with an extract matches partially. For the empty name (when
    no datasource has an empty name) the result is the first datasource with
    an extract. *)
Theorem find_datasource_search (lower : string -> string)
    (all : list Listing.DatasourceItem) (name : string) :
  match Listing.search lower all name with
  | Some ds =>
      In ds all
      /\ Listing.has_extracts ds = true
      /\ Listing.partial_match lower (lower name) ds = true
      /\ ((exists ds', In ds' all /\ Listing.has_extracts ds' = true
                       /\ Listing.exact_match lower (lower name) ds' = true) ->
          Listing.exact_match lower (lower name) ds = true)
  | None =>
      forall ds, In ds all -> Listing.has_extracts ds = true ->
                 Listing.partial_match lower (lower name) ds = false
  end
  /\ (lower "" = ""%string ->
      (forall ds, In ds all -> lower (ds_name (Listing.item ds)) <> ""%string) ->
      Listing.search lower all "" = List.find Listing.has_extracts all).
Proof.
  split.
  - unfold Listing.search.
    destruct (Listing.first_with (Listing.exact_match lower (lower name)) all)
      as [ds|] eqn:Eexact.
    + destruct (first_with_some _ _ _ Eexact) as (Hin & Hc & He).
      repeat split; auto. apply exact_is_partial. exact Hc.
    + destruct (Listing.first_with (Listing.partial_match lower (lower name)) all)
        as [ds|] eqn:Epartial.
      * destruct (first_with_some _ _ _ Epartial) as (Hin & Hc & He).
        repeat split; auto. intros (ds' & Hin' & He' & Hc').
        rewrite (first_with_none _ _ Eexact ds' Hin' He') in Hc'. discriminate.
      * exact (first_with_none _ _ Epartial).
  - intros Hempty Hnames. unfold Listing.search. rewrite Hempty.
    rewrite first_with_never.
    + apply first_with_always. intros ds _. unfold Listing.partial_match.
      rewrite contains_empty. reflexivity.
    + intros ds Hin. unfold Listing.exact_match. apply String.eqb_neq. auto.
Qed.

(** ** The reports of a day *)

(** X20: If the six calls of datetime.today() in the report table of
    descargar_todos_reportes see the same day, exactly five of the eight
    reports are selected; their aliases, hence the five PDF file names
    written, are the same five distinct names whatever the day, and only the
    workbook behind three of them changes (week-start variants on Monday,
    first-day variant on the 1st of the month). *)
Theorem reports_of_a_day (today : nat -> Reportes.Today) (d : Reportes.Today) :
  (forall i, today i = d) ->
  List.map Reportes.alias (selected (Reportes.reportes today)) = aliases
  /\ List.map Reportes.name (selected (Reportes.reportes today)) = workbooks d
  /\ NoDup aliases.
Proof.
  intros H. unfold Reportes.reportes, selected, workbooks. rewrite !H.
  destruct (Nat.eqb (Reportes.weekday d) 0), (Nat.eqb (Reportes.day d) 1);
    (split; [reflexivity|]); (split; [reflexivity|]);
    unfold aliases;
    repeat (constructor; [simpl; intros Hin;
                          repeat (destruct Hin as [Hin|Hin]; [discriminate Hin|]);
                          exact Hin|]);
    constructor.
Qed.

(** X20 at work: a Monday that is the first of the month. *)
Lemma reports_of_a_day_witness :
  List.map Reportes.name (selected (Reportes.reportes (fun _ => monday_the_first)))
  = [ "Reporte Costo Puesto en Patios (Inicio Semana)";
      "Reporte Inventario Diario";
      "Reporte Compra Chatarra Prom Dia Habil Dia Primero";
      "Reporte de Compras e Inventario por Tipo de Material";
      "Reporte NUEVO Patios - Compras Nacionales + Importaciones_InicioSem" ]%string.
Proof.
  exact (proj1 (proj2 (reports_of_a_day (fun _ => monday_the_first) monday_the_first
                         (fun _ => eq_refl)))).
Defined.

Section DescargaFacts.

Variable descargar_pdf : string -> string -> string -> M (bool * string).

Lemma descargar_loop_spec dir : forall rs downloaded errors w s downloaded' errors' s',
  Reportes.descargar_loop descargar_pdf dir rs downloaded errors w s
  = (Ret (downloaded', errors'), s') ->
  exists got failed,
    downloaded' = downloaded ++ got
    /\ errors' = errors ++ failed
    /\ List.length got + List.length failed = List.length (selected rs)
    /\ (failed = [] -> got = List.map (Reportes.output_path dir) (selected rs)).
Proof.
  induction rs as [|r rs IH]; intros downloaded errors w s downloaded' errors' s' H.
  - injection H as <- <- _. exists [], []. rewrite !app_nil_r. auto.
  - cbn [Reportes.descargar_loop] in H. unfold selected. cbn [List.filter].
    destruct (Reportes.condition r); cbn [negb] in H.
    + unfold bind in H.
      destruct (descargar_pdf _ _ _ w s) as [[[ok msg]|e|] s1]; try discriminate H.
      destruct ok.
      * destruct (IH _ _ _ _ _ _ _ H) as (got & failed & -> & -> & Hlen & Hall).
        exists (Reportes.output_path dir r :: got), failed.
        rewrite <- app_assoc. cbn [app List.length List.map].
        repeat split; auto.
        -- unfold selected in Hlen. lia.
        -- intros Hf. rewrite (Hall Hf). reflexivity.
      * destruct (IH _ _ _ _ _ _ _ H) as (got & failed & -> & -> & Hlen & Hall).
        eexists got, (_ :: failed). rewrite <- app_assoc. cbn [app List.length].
        repeat split; auto.
        -- unfold selected in Hlen. lia.
        -- discriminate.
    + exact (IH _ _ _ _ _ _ _ H).
Qed.

End DescargaFacts.

(** X21: Whatever descargar_pdf does, when descargar_todos_reportes returns
    (ok, msg, files): if ok is True, files is exactly one path
    output_dir/<alias>.pdf per selected report, in table order, and msg is
    '<n> reportes descargados' with n their number; if ok is False, files
    holds fewer paths than there are selected reports. It never lists more
    files than selected reports. *)
Theorem download_success_is_complete
    (descargar_pdf : string -> string -> string -> M (bool * string))
    (today : nat -> Reportes.Today) (dir : string) (w : World) (s s' : St)
    (ok : bool) (msg : string) (files : list string) :
  Reportes.descargar_todos_reportes descargar_pdf today dir w s
  = (Ret (ok, msg, files), s') ->
  let wanted := List.map (Reportes.output_path dir) (selected (Reportes.reportes today)) in
  (ok = true ->
   files = wanted
   /\ msg = (str_nat (List.length wanted) ++ " reportes descargados")%string)
  /\ (ok = false -> List.length files < List.length wanted)
  /\ List.length files <= List.length wanted.
Proof.
  intros H wanted. subst wanted.
  unfold Reportes.descargar_todos_reportes, bind in H.
  destruct (Reportes.descargar_loop descargar_pdf dir (Reportes.reportes today) [] [] w s)
    as [[[downloaded errors]|e|] s1] eqn:E; try discriminate H.
  destruct (descargar_loop_spec _ _ _ _ _ _ _ _ _ _ E)
    as (got & failed & Hd & He & Hlen & Hall).
  cbn [app] in Hd, He. subst downloaded errors. rewrite length_map.
  destruct failed as [|f failed]; cbn [List.length Nat.eqb negb] in H;
    unfold ret in H; injection H as <- <- <- _.
  - rewrite (Hall eq_refl), length_map.
    split; [auto|]. split; [discriminate|lia].
  - cbn [List.length] in Hlen. split; [discriminate|]. split; [intros _|]; lia.
Qed.

(** X21 at work: every download works, on a Monday that is the first of
    the month. *)
Lemma download_success_is_complete_witness :
  List.map (Reportes.output_path "/reportes/")
           (selected (Reportes.reportes (fun _ => monday_the_first)))
  = List.map (fun a => ("/reportes/" ++ a ++ ".pdf")%string) aliases.
Proof.
  pose proof (download_success_is_complete descarga_ok (fun _ => monday_the_first)
                "/reportes/" world_ok st_init st_init true "5 reportes descargados"
                (List.map (fun a => ("/reportes/" ++ a ++ ".pdf")%string) aliases)
                eq_refl) as H.
  cbv zeta in H. destruct H as [H _]. destruct (H eq_refl) as [Hfiles _].
  symmetry. exact Hfiles.
Defined.

(** ** The verdict of the validation-only flow *)

Lemma run_validation_only_verdict_triple w s :
  triple w s (sm_begin s) Workflow.run_validation_only (validation_verdict w).
Proof.
  unfold Workflow.run_validation_only. walk.
  all: unfold validation_verdict; norm.
  all: try (left; eexists _, _; split; [reflexivity|eassumption]).
  all: right.
  all: match goal with
       | |- exists last, Ret (_, mensaje ?x) = _ /\ _ => exists x
       end.
  all: repeat match goal with H : success _ = _ |- _ => rewrite H in *; revert H end;
    intros.
  all: split; [reflexivity|].
  all: first [ left; repeat split; assumption
             | right; left; eexists; repeat split; eassumption
             | right; right; eexists _, _; repeat split; eassumption ].
Qed.

(** X22: In every world run_validation_only either lets an exception of the
    on_step_complete callback escape, or returns (success, mensaje) of the
    last step it recorded, and the recorded steps are one of three shapes:
    ['Validar Extracto Tableau'] successful; ['Validar Extracto Tableau'
    failed, 'Refresh Extracto' failed]; or ['Validar Extracto Tableau'
    failed, 'Refresh Extracto' successful, 'Revalidar Extracto'] with the
    verdict of the revalidation. *)
Theorem validation_only_verdict (w : World) (s : St) :
  exists o s',
    Workflow.run_validation_only w s = (o, s')
    /\ ((exists e k, o = Raise e /\ observer w k = Some e)
        \/ exists last,
             o = Ret (success last, mensaje last)
             /\ ((steps (self s') = [last]
                  /\ nombre last = "Validar Extracto Tableau"%string
                  /\ success last = true)
                 \/ (exists v,
                       steps (self s') = [v; last]
                       /\ nombre v = "Validar Extracto Tableau"%string
                       /\ success v = false
                       /\ nombre last = "Refresh Extracto"%string
                       /\ success last = false)
                 \/ (exists v r,
                       steps (self s') = [v; r; last]
                       /\ nombre v = "Validar Extracto Tableau"%string
                       /\ success v = false
                       /\ nombre r = "Refresh Extracto"%string
                       /\ success r = true
                       /\ nombre last = "Revalidar Extracto"%string))).
Proof.
  destruct (triple_run _ _ _ _ (run_validation_only_verdict_triple w s))
    as (o & s' & tr & E & _ & H).
  exists o, s'. split; [exact E|]. exact H.
Qed.

(** ** The inventory step of the full flow *)

Lemma step_silent name (func : Workflow.Operation) w s :
  (forall k, observer w k = None) ->
  Workflow._execute_step name func w s
  = let (o, s2) := func w (after_clock s) in
    match step_record name o (clock w (tick s2) - clock w (tick s)) with
    | Some r => (Ret r, with_step (after_clock s2) r)
    | None => (OutOfFuel, s2)
    end.
Proof.
  intros Hobs. rewrite _execute_step_eq. destruct (func w (after_clock s)) as [o s2].
  destruct (step_record _ _ _); [|reflexivity].
  unfold observer_outcome. rewrite Hobs. reflexivity.
Qed.

Lemma _validar_inventario_eq cfg w s :
  Workflow._validar_inventario cfg w s
  = let first := asked s (inventory_call cfg "hayDiferencias") in
    let second := asked first (inventory_call cfg "obtenerAcciones") in
    match rows w (tick s) with
    | inl e => (Raise e, first)
    | inr result =>
        if reports_no_differences result
        then (Ret (true, "No hay diferencias contra el origen"%string, Some []), first)
        else
          match rows w (S (tick s)) with
          | inl e => (Raise e, second)
          | inr acciones =>
              (Ret (false, "Hay diferencias contra el origen"%string,
                    Some [("hay_diferencias"%string, VBool true);
                          ("acciones"%string, VRows acciones)]),
               second)
          end
    end.
Proof.
  unfold Workflow._validar_inventario, SQLClient.validar_inventario, SQLClient.execute_sp,
    SQLClient.execute_query, try_except, ask_exn, bind, ask, raise, ret, asked,
    inventory_call, reports_no_differences.
  cbn [self trace tick List.length Nat.eqb repeat join String.concat append].
  destruct (rows w (tick s)) as [e|[|first rest]]; try reflexivity.
  - cbn [self trace tick]. destruct (rows w (S (tick s))); reflexivity.
  - destruct (SQLClient.is_text _ _); [reflexivity|].
    cbn [self trace tick]. destruct (rows w (S (tick s))); reflexivity.
Qed.


Lemma quiet_jobs tr : forallb starts_no_job tr = true -> jobs_of tr = [].
Proof. apply flat_map_silent. intros []; simpl; congruence. Qed.

Lemma relay_starts_no_job tr :
  forallb relay_event tr = true -> forallb starts_no_job tr = true.
Proof. apply forallb_weaken. intros []; simpl; congruence. Qed.

Lemma poll_starts_no_job tr :
  forallb poll_event tr = true -> forallb starts_no_job tr = true.
Proof. apply forallb_weaken. intros []; simpl; congruence. Qed.

Lemma jobs_of_polled name ptr tail :
  forallb poll_event ptr = true ->
  jobs_of (EvExecuteJob name :: ptr ++ tail) = name :: jobs_of tail.
Proof.
  intros H. change (EvExecuteJob name :: ptr ++ tail)
    with ([EvExecuteJob name] ++ ptr ++ tail).
  rewrite !jobs_of_app, (quiet_jobs _ (poll_starts_no_job _ H)). reflexivity.
Qed.

(** An escalation starts no job and keeps the steps. *)
Lemma escalate_and_return_spec paso prefix result w s :
  exists s' tr,
    Workflow.escalate_and_return paso prefix result w s
    = (Ret (Some (false, (prefix ++ mensaje result)%string)), s')
    /\ trace s' = trace s ++ tr
    /\ steps (self s') = steps (self s)
    /\ jobs_of tr = []
    /\ tickets_of tr = [(("[AUTO] Error en Reportes MP: " ++ paso)%string, mensaje result)].
Proof.
  unfold Workflow.escalate_and_return, bind.
  destruct (_handle_error_spec paso (mensaje result) w s)
    as (relay1 & stored & ticket & k & E & Hr1 & Hst). rewrite E.
  eexists _, _. split; [reflexivity|]. cbn [self trace steps].
  split; [reflexivity|]. split; [reflexivity|].
  assert (Hs : jobs_of stored = [] /\ tickets_of stored = []).
  { destruct Hst as [[-> _]|(key & -> & _)]; split; reflexivity. }
  destruct Hs as [Hs1 Hs2]. split.
  - change (EvCrearTicket ?t ?d :: ?l) with ([EvCrearTicket t d] ++ l).
    rewrite !jobs_of_app, (quiet_jobs _ (relay_starts_no_job _ Hr1)), Hs1. reflexivity.
  - change (EvCrearTicket ?t ?d :: ?l) with ([EvCrearTicket t d] ++ l).
    rewrite !tickets_of_app, (relay_tickets _ Hr1), Hs2. reflexivity.
Qed.

(** The corrective block, with a silent observer. *)
Lemma corrections_spec cfg acciones w s :
  (forall k, observer w k = None) ->
  exists o s' tr later rest,
    corrections cfg (VRows acciones) w s = (o, s')
    /\ trace s' = trace s ++ tr
    /\ steps (self s') = steps (self s) ++ later
    /\ jobs_of tr = flat_map named_jobs acciones ++ rest
    /\ (rest = [] \/ rest = [cube_job]).
Proof.
  intros Hobs. unfold corrections. unfold bind at 1.
  rewrite (step_silent _ _ _ _ Hobs).
  unfold bind at 1. cbn [Workflow.rows_of]. unfold ret at 1.
  unfold Workflow._ejecutar_jobs_correctivos. unfold bind at 1.
  destruct (jobs_loop_spec cfg acciones [] w (after_clock s))
    as (jtr & k & E & Hjobs & _). rewrite E. cbn [app].
  set (errores := flat_map failure_text (results_of jtr)).
  destruct (Nat.eqb (List.length errores) 0); cbn [negb]; unfold ret at 1;
    cbn [step_record or_empty success negb].
  - (* the jobs succeeded: the cube *)
    unfold bind at 1.
    change (SQLClient.CubosOfiClient w ?st) with (Ret (sql_cubosofi (config w)), st).
    cbv iota beta. unfold bind at 1. rewrite (step_silent _ _ _ _ Hobs).
    unfold Workflow.with_empty_details, SQLClient.ejecutar_job_inventario.
    unfold bind at 1.
    match goal with |- context [SQLClient.execute_job ?c ?n w ?st] =>
      destruct (execute_job_spec c n w st) as (ok & msg & ptr & k2 & E2 & Hptr);
      rewrite E2 end.
    unfold ret at 1. cbn [step_record or_empty].
    destruct ok; cbn [success negb].
    + unfold ret. eexists _, _, _, _, [cube_job]. split; [reflexivity|].
      unfold with_step, after_clock. cbn [self trace tick steps].
      split; [repeat rewrite <- app_assoc; reflexivity|].
      split; [repeat rewrite <- app_assoc; reflexivity|].
      split; [|right; reflexivity].
      fold cube_job.
      repeat rewrite jobs_of_app. rewrite Hjobs, (jobs_of_polled _ _ _ Hptr).
      reflexivity.
    + match goal with |- context [Workflow.escalate_and_return ?p ?x ?r w ?st] =>
        destruct (escalate_and_return_spec p x r w st)
          as (s3 & etr & E3 & Htr3 & Hsteps3 & Hj3 & _); rewrite E3 end.
      eexists _, s3, _, _, [cube_job]. split; [reflexivity|].
      rewrite Htr3, Hsteps3. unfold with_step, after_clock. cbn [self trace tick steps].
      split; [repeat rewrite <- app_assoc; reflexivity|].
      split; [repeat rewrite <- app_assoc; reflexivity|].
      split; [|right; reflexivity].
      fold cube_job.
      repeat rewrite jobs_of_app. rewrite Hjobs, Hj3, (jobs_of_polled _ _ _ Hptr).
      reflexivity.
  - (* a job failed: escalation *)
    match goal with |- context [Workflow.escalate_and_return ?p ?x ?r w ?st] =>
      destruct (escalate_and_return_spec p x r w st)
        as (s3 & etr & E3 & Htr3 & Hsteps3 & Hj3 & _); rewrite E3 end.
    eexists _, s3, _, _, []. split; [reflexivity|].
    rewrite Htr3, Hsteps3. unfold with_step, after_clock. cbn [self trace tick steps].
    split; [repeat rewrite <- app_assoc; reflexivity|].
    split; [reflexivity|]. split; [|left; reflexivity].
    repeat rewrite jobs_of_app. rewrite Hjobs, Hj3. reflexivity.
Qed.

(** The inventory step and what follows it, with a silent observer. *)
Lemma paso_2_eq w s :
  (forall k, observer w k = None) ->
  Workflow.paso_2 w s
  = let cfg := sql_infocentral (config w) in
    let (o, s2) := Workflow._validar_inventario cfg w (after_clock s) in
    match step_record inventory_step o (clock w (tick s2) - clock w (tick s)) with
    | Some r =>
        if negb (success r) && truthy (get_opt (detalles r) "hay_diferencias")
        then corrections cfg (get (detalles r) "acciones" (VRows []))
                         w (with_step (after_clock s2) r)
        else (Ret None, with_step (after_clock s2) r)
    | None => (OutOfFuel, s2)
    end.
Proof.
  intros Hobs. unfold Workflow.paso_2. unfold bind at 1.
  change (SQLClient.InfoCentralClient w s) with (Ret (sql_infocentral (config w)), s).
  cbv iota beta zeta. unfold bind at 1. rewrite (step_silent _ _ _ _ Hobs).
  fold inventory_step.
  destruct (Workflow._validar_inventario (sql_infocentral (config w)) w (after_clock s))
    as [o s2].
  destruct (step_record inventory_step o _) as [r|]; [|reflexivity].
  destruct (negb (success r) && truthy (get_opt (detalles r) "hay_diferencias"));
    reflexivity.
Qed.

(** X23: With a callback that does not raise: if the inventory procedure
    raises e, either on its first call ('hayDiferencias') or, after a first
    answer that is not 'No hay diferencias contra el origen', on its second
    call ('obtenerAcciones'), step 2 of run_full records one failed step '2.
    Validar Inventario SQL' with mensaje str(e) and empty detalles, and the
    flow goes on to step 3: no job is started, no ticket is created and no
    alert is sent. *)
Theorem failed_inventory_query_is_passed_over (w : World) (s : St) (e : exn) :
  (forall k, observer w k = None) ->
  rows w (S (tick s)) = inl e
  \/ (exists answer,
        rows w (S (tick s)) = inr answer
        /\ reports_no_differences answer = false
        /\ rows w (S (S (tick s))) = inl e) ->
  exists s' tr r,
    Workflow.paso_2 w s = (Ret None, s')
    /\ trace s' = trace s ++ tr
    /\ steps (self s') = steps (self s) ++ [r]
    /\ nombre r = inventory_step /\ success r = false
    /\ mensaje r = str e /\ detalles r = []
    /\ jobs_of tr = [] /\ tickets_of tr = [] /\ alerts_of tr = [].
Proof.
  intros Hobs Hrows. rewrite (paso_2_eq _ _ Hobs). cbv zeta. rewrite _validar_inventario_eq. cbv zeta.
  cbn [after_clock asked tick].
  destruct Hrows as [->|(answer & -> & -> & ->)];
    cbn [step_record success detalles negb andb truthy get_opt get assoc];
    eexists _, _, _; (split; [reflexivity|]);
    unfold with_step, after_clock, asked; cbn [self trace tick steps];
    (split; [repeat rewrite <- app_assoc; reflexivity|]);
    repeat split.
Qed.

(** X23 at work: SQL Server rejects the inventory procedure. *)
Lemma failed_inventory_query_is_passed_over_witness :
  exists s' r,
    Workflow.paso_2 world_sql_down st_init = (Ret None, s')
    /\ steps (self s') = [r]
    /\ success r = false
    /\ mensaje r = "SQL Server no disponible"%string.
Proof.
  destruct (failed_inventory_query_is_passed_over world_sql_down st_init
              (mkExn Exception "SQL Server no disponible")
              (fun _ => eq_refl) (or_introl eq_refl))
    as (s' & tr & r & E & _ & Hsteps & _ & Hok & Hmsg & _).
  exists s', r. auto.
Defined.

(** X24: With a callback that does not raise: if the first answer of the
    inventory procedure is not 'No hay diferencias contra el origen' and its
    second call returns the rows acciones, step 2 of run_full records the
    failed step '2. Validar Inventario SQL' with detalles
    {'hay_diferencias': True, 'acciones': acciones}, and the jobs started in
    the block are exactly the non-empty Accion1 and Accion2 of those rows,
    row by row in order, followed by at most one more job, the cube job 'BI
    Inventario Chatarra 5:15 am'. *)
Theorem corrective_jobs_are_the_reported_actions (w : World) (s : St)
    (answer acciones : list row) :
  (forall k, observer w k = None) ->
  rows w (S (tick s)) = inr answer ->
  reports_no_differences answer = false ->
  rows w (S (S (tick s))) = inr acciones ->
  exists o s' tr r later rest,
    Workflow.paso_2 w s = (o, s')
    /\ trace s' = trace s ++ tr
    /\ steps (self s') = steps (self s) ++ r :: later
    /\ nombre r = inventory_step /\ success r = false
    /\ detalles r = [("hay_diferencias"%string, VBool true);
                     ("acciones"%string, VRows acciones)]
    /\ jobs_of tr = flat_map named_jobs acciones ++ rest
    /\ (rest = [] \/ rest = [cube_job]).
Proof.
  intros Hobs Hfirst Hdiff Hsecond.
  rewrite (paso_2_eq _ _ Hobs). cbv zeta. rewrite _validar_inventario_eq. cbv zeta.
  cbn [after_clock asked tick]. rewrite Hfirst, Hdiff, Hsecond.
  cbn [step_record or_empty success detalles negb andb truthy get_opt get assoc
       String.eqb Ascii.eqb Bool.eqb].
  match goal with |- context [corrections ?c (VRows acciones) w ?st] =>
    destruct (corrections_spec c acciones w st Hobs)
      as (o & s' & tr & later & rest & E & Htr & Hsteps & Hjobs & Hrest); rewrite E end.
  eexists o, s', _, _, later, rest. split; [reflexivity|].
  rewrite Htr, Hsteps. unfold with_step, after_clock, asked.
  cbn [self trace tick steps].
  split; [repeat rewrite <- app_assoc; reflexivity|].
  split; [rewrite <- app_assoc; reflexivity|].
  split; [reflexivity|]. split; [reflexivity|]. split; [reflexivity|].
  split; [|exact Hrest].
  repeat rewrite jobs_of_app. rewrite Hjobs. reflexivity.
Qed.

(** X24 at work: two places with differences, three jobs named. *)
Lemma corrective_jobs_are_the_reported_actions_witness :
  exists tr rest,
    trace (snd (Workflow.paso_2 world_differences st_init)) = trace st_init ++ tr
    /\ jobs_of tr = ["JobA1"; "JobA2"; "JobB1"]%string ++ rest.
Proof.
  destruct (corrective_jobs_are_the_reported_actions world_differences st_init
              two_actions two_actions (fun _ => eq_refl) eq_refl eq_refl eq_refl)
    as (o & s' & tr & r & later & rest & E & Htr & _ & _ & _ & _ & Hjobs & _).
  exists tr, rest. rewrite E. split; [exact Htr|exact Hjobs].
Defined.

(** ** How long a wait sleeps *)

Lemma sleeps_of_app a b : sleeps_of (a ++ b) = sleeps_of a ++ sleeps_of b.
Proof. apply flat_map_app. Qed.

Lemma within_next n interval max_wait total :
  (total < max_wait)%Z ->
  within n interval max_wait (total + interval) ->
  within (S n) interval max_wait total.
Proof.
  intros Hlt [->|H]; right; [simpl; lia|].
  rewrite Nat2Z.inj_succ. lia.
Qed.

Lemma wait_job_sleeps fuel : forall cfg name interval max_wait total w s,
  (0 < interval)%Z ->
  exists o tr k,
    SQLClient.wait_job fuel cfg name interval max_wait total w s
    = (o, mkSt (self s) (trace s ++ tr) k)
    /\ sleeps_of tr = List.repeat interval (List.length (sleeps_of tr))
    /\ within (List.length (sleeps_of tr)) interval max_wait total.
Proof.
  induction fuel as [|fuel IH]; intros cfg name interval max_wait total w s Hpos.
  - exists (if Z.ltb total max_wait then OutOfFuel else fst (job_timeout max_wait, s)).
    exists [], (tick s). rewrite app_nil_r, St_eta. cbn [SQLClient.wait_job].
    split; [destruct (Z.ltb total max_wait); reflexivity|].
    split; [reflexivity|left; reflexivity].
  - destruct (Z.ltb_spec total max_wait) as [Hlt|Hge].
    + rewrite wait_job_round by lia. cbv zeta.
      match goal with |- context [SQLClient.wait_job fuel cfg name interval max_wait ?t w ?st] =>
        destruct (IH cfg name interval max_wait t w st Hpos)
          as (o & tr & k & E & Hrep & Hin) end.
      cbn [self trace] in E.
      assert (Hround : forall (o' : Outcome (bool * string)) tr',
                 sleeps_of tr' = List.repeat interval (List.length (sleeps_of tr')) ->
                 within (List.length (sleeps_of tr')) interval max_wait (total + interval) ->
                 let tr2 := EvSleep interval
                            :: EvQuery (sql_server cfg) "msdb" SQLClient.job_status_query
                                       [name] :: tr' in
                 sleeps_of tr2 = List.repeat interval (List.length (sleeps_of tr2))
                 /\ within (List.length (sleeps_of tr2)) interval max_wait total).
      { intros o' tr' Hr Hw. cbn [sleeps_of flat_map app List.length List.repeat].
        change (flat_map _ tr') with (sleeps_of tr').
        split; [rewrite <- Hr; reflexivity|]. apply within_next; assumption. }
      destruct (activity w (tick s)) as [e|[|ja found]].
      * eexists (Raise e), [_; _], _. rewrite <- app_assoc.
        split; [reflexivity|]. apply (Hround (Raise e) []); [reflexivity|left; reflexivity].
      * rewrite E. eexists o, (_ :: _ :: tr), k.
        split; [repeat rewrite <- app_assoc; reflexivity|].
        apply (Hround o tr); assumption.
      * destruct (stop_execution_date ja).
        -- eexists _, [_; _], _. rewrite <- app_assoc.
           split; [reflexivity|].
           apply (Hround (Raise (mkExn Exception "")) []);
             [reflexivity|left; reflexivity].
        -- rewrite E. eexists o, (_ :: _ :: tr), k.
           split; [repeat rewrite <- app_assoc; reflexivity|].
           apply (Hround o tr); assumption.
    + exists (fst (job_timeout max_wait, s)), [], (tick s).
      rewrite app_nil_r, St_eta. cbn [SQLClient.wait_job].
      destruct (Z.ltb_spec total max_wait) as [Hlt|_]; [lia|].
      split; [reflexivity|]. split; [reflexivity|left; reflexivity].
Qed.

Lemma wait_refresh_sleeps fuel : forall job max_wait total w s,
  exists o tr k,
    TableauClient.wait_refresh fuel job max_wait total w s
    = (o, mkSt (self s) (trace s ++ tr) k)
    /\ sleeps_of tr = List.repeat 10%Z (List.length (sleeps_of tr))
    /\ within (List.length (sleeps_of tr)) 10 max_wait total.
Proof.
  induction fuel as [|fuel IH]; intros job max_wait total w s.
  - exists (if Z.ltb total max_wait then OutOfFuel else fst (refresh_timeout max_wait, s)).
    exists [], (tick s). rewrite app_nil_r, St_eta. cbn [TableauClient.wait_refresh].
    split; [destruct (Z.ltb total max_wait); reflexivity|].
    split; [reflexivity|left; reflexivity].
  - destruct (Z.ltb_spec total max_wait) as [Hlt|Hge].
    + rewrite wait_refresh_round by lia. cbv zeta.
      assert (Hround : forall tr',
                 sleeps_of tr' = List.repeat 10%Z (List.length (sleeps_of tr')) ->
                 within (List.length (sleeps_of tr')) 10 max_wait (total + 10) ->
                 let tr2 := EvSleep 10 :: EvJobStatus (job_id job) :: tr' in
                 sleeps_of tr2 = List.repeat 10%Z (List.length (sleeps_of tr2))
                 /\ within (List.length (sleeps_of tr2)) 10 max_wait total).
      { intros tr' Hr Hw. cbn [sleeps_of flat_map app List.length List.repeat].
        change (flat_map _ tr') with (sleeps_of tr').
        split; [rewrite <- Hr; reflexivity|]. apply within_next; assumption. }
      assert (Hlast : forall o : Outcome (bool * string),
                 exists o' tr k,
                   (o, mkSt (self s) ((trace s ++ [EvSleep 10])
                                      ++ [EvJobStatus (job_id job)]) (S (tick s)))
                   = (o', mkSt (self s) (trace s ++ tr) k)
                   /\ sleeps_of tr = List.repeat 10%Z (List.length (sleeps_of tr))
                   /\ within (List.length (sleeps_of tr)) 10 max_wait total).
      { intros o. eexists o, [_; _], _. rewrite <- app_assoc.
        split; [reflexivity|]. apply (Hround []); [reflexivity|left; reflexivity]. }
      destruct (job_item w (tick s)) as [e|j]; [apply Hlast|].
      destruct (Z.eqb (finish_code j) 0); [apply Hlast|].
      destruct (Z.eqb (finish_code j) 1); [apply Hlast|].
      destruct (Z.eqb (finish_code j) 2); [apply Hlast|].
      match goal with |- context [TableauClient.wait_refresh fuel j max_wait ?t w ?st] =>
        destruct (IH j max_wait t w st) as (o & tr & k & E & Hrep & Hin) end.
      cbn [self trace] in E. rewrite E. eexists o, (_ :: _ :: tr), k.
      split; [repeat rewrite <- app_assoc; reflexivity|].
      apply (Hround tr); assumption.
    + exists (fst (refresh_timeout max_wait, s)), [], (tick s).
      rewrite app_nil_r, St_eta. cbn [TableauClient.wait_refresh].
      destruct (Z.ltb_spec total max_wait) as [Hlt|_]; [lia|].
      split; [reflexivity|]. split; [reflexivity|left; reflexivity].
Qed.

Lemma within_bound n interval max_wait :
  (0 < interval)%Z -> (0 <= max_wait)%Z ->
  within n interval max_wait 0 ->
  (Z.of_nat n * interval < max_wait + interval)%Z.
Proof. intros Hpos Hmax [->|H]; simpl; lia. Qed.

(** X25: With their default arguments both calls end (neither waits forever)
    and sleep only in steps of 10 seconds: execute_job (check_interval=10,
    max_wait=600) returns after at most 60 sleeps, refresh_extracto
    (max_wait_seconds=300) after at most 30, whatever the server answers. *)
Theorem waits_sleep_at_most (cfg : SQLServerConfig) (name : string)
    (t : TableauClient.t) (w : World) (s : St) :
  (exists o s' tr,
     SQLClient.execute_job cfg name w s = (o, s')
     /\ o <> OutOfFuel
     /\ trace s' = trace s ++ tr
     /\ sleeps_of tr = List.repeat 10%Z (List.length (sleeps_of tr))
     /\ List.length (sleeps_of tr) <= 60)
  /\ (exists o s' tr,
        TableauClient.refresh_extracto t w s = (o, s')
        /\ o <> OutOfFuel
        /\ trace s' = trace s ++ tr
        /\ sleeps_of tr = List.repeat 10%Z (List.length (sleeps_of tr))
        /\ List.length (sleeps_of tr) <= 30).
Proof.
  split.
  - unfold SQLClient.execute_job, SQLClient.execute_job_fuel, SQLClient.execute_query,
      try_except, ask_exn, bind, ask, emit, raise, ret.
    cbn [self trace tick negb].
    destruct (rows w (tick s)) as [e|rs].
    + eexists _, _, [_; _; _]. split; [reflexivity|]. cbn [trace].
      split; [discriminate|].
      split; [repeat rewrite <- app_assoc; reflexivity|].
      split; [reflexivity|simpl; lia].
    + match goal with |- context [SQLClient.wait_job ?f cfg ?j 10 600 0 w ?st] =>
        destruct (wait_job_sleeps f cfg j 10 600 0 w st ltac:(lia))
          as (o & tr & k & E & Hrep & Hin);
        destruct (wait_job_rounds f cfg j 10 600 0 ltac:(lia)
                    ltac:(vm_compute; discriminate) w st)
          as (o' & tr' & k' & E' & _ & Hret);
        rewrite E in E'; injection E' as <- _ _; rewrite E end.
      cbn [self trace] in *.
      pose proof (within_bound _ 10 600 ltac:(lia) ltac:(lia) Hin) as Hn.
      assert (Hall : forall tail,
                 sleeps_of tail = [] ->
                 sleeps_of (EvExecuteJob name
                            :: EvQuery (sql_server cfg) "msdb" SQLClient.start_job_query
                                       [SqlStr name] :: tr ++ tail)
                 = sleeps_of tr).
      { intros tail Ht. cbn [sleeps_of flat_map app].
        change (flat_map _ (tr ++ tail)) with (sleeps_of (tr ++ tail)).
        rewrite sleeps_of_app, Ht, app_nil_r. reflexivity. }
      destruct o as [[ok msg]|e|];
        [eexists _, _, (_ :: _ :: tr ++ [_])
        |eexists _, _, (_ :: _ :: tr ++ [_])
        |contradiction];
        (split; [reflexivity|]); (split; [discriminate|]); cbn [trace fst snd];
        (split; [rewrite ?app_nil_r; repeat (rewrite <- app_assoc; cbn [app]);
                 reflexivity|]);
        rewrite Hall by reflexivity; (split; [exact Hrep|lia]).
  - unfold TableauClient.refresh_extracto, TableauClient.refresh_extracto_fuel,
      TableauClient.find_datasource, try_except, ask_exn, bind, ask, get_config, raise,
      ret.
    destruct t; cbn [negb self trace tick];
      [|exists (Raise TableauClient.not_connected), s, [];
        rewrite app_nil_r; split; [reflexivity|]; split; [discriminate|];
        repeat split; simpl; lia].
    destruct (datasource w (tick s)) as [e|[ds|]];
      try (eexists _, _, [_]; split; [reflexivity|]; split; [discriminate|];
           repeat split; simpl; lia).
    cbn [self trace tick].
    destruct (job_item w (S (tick s))) as [e|job].
    + eexists _, _, [_; _]. split; [reflexivity|]. split; [discriminate|]. cbn [trace].
      split; [repeat rewrite <- app_assoc; reflexivity|]. repeat split. simpl. lia.
    + match goal with |- context [TableauClient.wait_refresh ?f job 300 0 w ?st] =>
        destruct (wait_refresh_sleeps f job 300 0 w st)
          as (o & tr & k & E & Hrep & Hin);
        destruct (wait_refresh_rounds f job 300 0 ltac:(vm_compute; discriminate) w st)
          as (o' & tr' & k' & E' & _ & Hret);
        rewrite E in E'; injection E' as <- _ _; rewrite E end.
      cbn [self trace] in *.
      pose proof (within_bound _ 10 300 ltac:(lia) ltac:(lia) Hin) as Hn.
      destruct o as [[ok msg]|e|]; [| |contradiction];
        eexists _, _, (_ :: _ :: tr);
        (split; [reflexivity|]); (split; [discriminate|]); cbn [trace];
        (split; [repeat (rewrite <- app_assoc; cbn [app]); reflexivity|]);
        cbn [sleeps_of flat_map app]; change (flat_map _ tr) with (sleeps_of tr);
        (split; [exact Hrep|lia]).
Qed.
